(** * Gleam engine: the OpenGL render pipeline, its program cache and Vector3

    A shallow embedding of
      - src/renderer/gl/gl_renderer_impl.cpp  (Renderer::Impl)
      - src/renderer/gl/gl_programs.cpp       (GLPrograms::GetProgram)
      - src/renderer/gl/gl_program.hpp        (GLProgram::IsValid, Id)
      - include/gleam/math/vector3.hpp        (Vector3)
      - src/resources/bounding_sphere.cpp     (BoundingSphere::CreateGeometry)
    and the properties the engine's specification states about them.

    Single precision numbers are IEEE binary32 values ([spec_float] with a
    24 bit significand); calls into OpenGL, the logger, the state tracker and
    the program objects are recorded, in order, in a trace; behaviour the C++
    standard leaves undefined (a null dereference, an index past the end of
    an array, a cast to the wrong dynamic type, a division by zero) stops the
    run with a [Fault]. *)

From Stdlib Require Import ZArith List String Floats.SpecFloat.
From stdpp Require Import base option list strings gmap.

Local Open Scope Z_scope.
Local Open Scope string_scope.

(** ** binary32 *)

Module F32.
Definition prec : Z := 24.
Definition emax : Z := 128.

Definition float : Type := spec_float.

(** [0.0f] and [1.0f]. *)
Definition zero : float := S754_zero false.
Definition one : float := S754_finite false 8388608 (-23).

Definition add : float -> float -> float := SFadd prec emax.
Definition sub : float -> float -> float := SFsub prec emax.
Definition mul : float -> float -> float := SFmul prec emax.
Definition quot : float -> float -> float := SFdiv prec emax.
Definition sqrt : float -> float := SFsqrt prec emax.
Definition opp : float -> float := SFopp.

(** [a == b], [a < b], [a <= b]; [a >= b] is [leb b a]. *)
Definition eqb : float -> float -> bool := SFeqb.
Definition ltb : float -> float -> bool := SFltb.
Definition leb : float -> float -> bool := SFleb.
Definition geb (a b : float) : bool := SFleb b a.

(** An [int] converted to [float]. *)
Definition of_Z (n : Z) : float := binary_normalize prec emax n 0 false.
End F32.

Abbreviation float := F32.float.

(** ** Undefined behaviour *)

Inductive Fault : Type :=
| NullDereference
| IndexOutOfRange (index size : nat)
| BadDowncast
| DivisionByZero.

Inductive Checked (A : Type) : Type :=
| Normal (a : A)
| Undefined (why : Fault).
Arguments Normal {A} a.
Arguments Undefined {A} why.

Definition Checked_bind {A B} (c : Checked A) (k : A -> Checked B) : Checked B :=
  match c with
  | Normal a => k a
  | Undefined why => Undefined why
  end.

(** [a / b]: the behaviour is undefined when the second operand is zero. *)
Definition fdiv (a b : float) : Checked float :=
  if F32.eqb b F32.zero then Undefined DivisionByZero else Normal (F32.quot a b).

(** ** include/gleam/math/vector3.hpp *)

Module Vector3.

Record t : Type := mk { x : float; y : float; z : float }.

(** [Vector3(float value)]: vector3.cpp is not among the sources; every
    component is initialised to the value, as the header documents. *)
Definition splat (value : float) : t := mk value value value.

Definition Right : t := mk F32.one F32.zero F32.zero.
Definition Up : t := mk F32.zero F32.one F32.zero.
Definition Forward : t := mk F32.zero F32.zero F32.one.
Definition Zero : t := splat F32.zero.

(** [operator*=(float)], [operator*=(const Vector3&)], [operator+=] and
    [operator-=]: the value of [*this] after the assignment. *)
Definition mul_assign (v : t) (n : float) : t :=
  mk (F32.mul (x v) n) (F32.mul (y v) n) (F32.mul (z v) n).

Definition mul_assign_v (v w : t) : t :=
  mk (F32.mul (x v) (x w)) (F32.mul (y v) (y w)) (F32.mul (z v) (z w)).

Definition add_assign (v w : t) : t :=
  mk (F32.add (x v) (x w)) (F32.add (y v) (y w)) (F32.add (z v) (z w)).

Definition sub_assign (v w : t) : t :=
  mk (F32.sub (x v) (x w)) (F32.sub (y v) (y w)) (F32.sub (z v) (z w)).

(** The friend operators [a + b], [a - b], [v * n], [n * v], [a * b], [v / n]. *)
Definition add (a b : t) : t :=
  mk (F32.add (x a) (x b)) (F32.add (y a) (y b)) (F32.add (z a) (z b)).

Definition sub (a b : t) : t :=
  mk (F32.sub (x a) (x b)) (F32.sub (y a) (y b)) (F32.sub (z a) (z b)).

Definition scale (v : t) (n : float) : t :=
  mk (F32.mul (x v) n) (F32.mul (y v) n) (F32.mul (z v) n).

Definition scale_l (n : float) (v : t) : t := scale v n.

Definition mul (a b : t) : t :=
  mk (F32.mul (x a) (x b)) (F32.mul (y a) (y b)) (F32.mul (z a) (z b)).

Definition div (v : t) (n : float) : Checked t :=
  Checked_bind (fdiv F32.one n) (fun n' =>
  Normal (mk (F32.mul (x v) n') (F32.mul (y v) n') (F32.mul (z v) n'))).

Section Members.

(** [Length()] is declared in the header and defined in vector3.cpp, which is
    not among the sources: it is a parameter here. *)
Variable Length : t -> float.

(** [auto Normalize() -> Vector3&]: the value of [*this] on return. *)
Definition Normalize (v : t) : Checked t :=
  let len := Length v in
  if F32.eqb len F32.zero then Normal v
  else Checked_bind (fdiv F32.one len) (fun n => Normal (mul_assign v n)).

End Members.

End Vector3.

Abbreviation Vector3 := Vector3.t.

(** The free functions of vector3.hpp. *)

Definition Cross (a b : Vector3) : Vector3 :=
  Vector3.mk
    (F32.sub (F32.mul (Vector3.y a) (Vector3.z b)) (F32.mul (Vector3.z a) (Vector3.y b)))
    (F32.sub (F32.mul (Vector3.z a) (Vector3.x b)) (F32.mul (Vector3.x a) (Vector3.z b)))
    (F32.sub (F32.mul (Vector3.x a) (Vector3.y b)) (F32.mul (Vector3.y a) (Vector3.x b))).

Definition Dot (a b : Vector3) : float :=
  F32.add
    (F32.add (F32.mul (Vector3.x a) (Vector3.x b)) (F32.mul (Vector3.y a) (Vector3.y b)))
    (F32.mul (Vector3.z a) (Vector3.z b)).

Definition Normalize (Length : Vector3 -> float) (v : Vector3) : Checked Vector3 :=
  let len := Length v in
  if F32.eqb len F32.zero then Normal Vector3.Zero
  else Checked_bind (fdiv F32.one len) (fun n => Normal (Vector3.scale v n)).

Definition Lerp (v1 v2 : Vector3) (f : float) : Vector3 :=
  Vector3.add v1 (Vector3.scale (Vector3.sub v2 v1) f).

(** ** Math types the renderer passes around

    color.hpp, vector2.hpp, vector4.hpp, matrix3.hpp and matrix4.hpp are not
    among the sources. The renderer builds [Color {0.0f, 0.0f, 0.0f}],
    [Vector2(width, height)] and [Vector4(v, w)], and narrows a [Vector4] to
    a [Vector3]; the matrices are only handed on. *)

Record Color : Type := mkColor { r : float; g : float; b : float }.

(** [color * intensity] scales every channel. *)
Definition Color_scale (c : Color) (n : float) : Color :=
  mkColor (F32.mul (r c) n) (F32.mul (g c) n) (F32.mul (b c) n).

Record Vector2 : Type := mkVector2 { v2x : float; v2y : float }.

Record Vector4 : Type :=
  mkVector4 { v4x : float; v4y : float; v4z : float; v4w : float }.

(** [Vector4(const Vector3&, float)] and [explicit Vector3(const Vector4&)]. *)
Definition Vector4_of (v : Vector3) (w : float) : Vector4 :=
  mkVector4 (Vector3.x v) (Vector3.y v) (Vector3.z v) w.

Definition Vector3_of (v : Vector4) : Vector3 :=
  Vector3.mk (v4x v) (v4y v) (v4z v).

Record Matrix3 : Type := mkMatrix3 { m3c0 : Vector3; m3c1 : Vector3; m3c2 : Vector3 }.

Record Matrix4 : Type :=
  mkMatrix4 { m4c0 : Vector4; m4c1 : Vector4; m4c2 : Vector4; m4c3 : Vector4 }.

(** [UniformValue] of shader_material.hpp. *)
Inductive UniformValue : Type :=
| UInt (n : Z)
| UFloat (f : float)
| UColor (c : Color)
| UMatrix3 (m : Matrix3)
| UMatrix4 (m : Matrix4)
| UVector2 (v : Vector2)
| UVector3 (v : Vector3)
| UVector4 (v : Vector4).

(** ** Scene data: materials, lights, fog, geometry, meshes

    The class hierarchies (a base pointer and a run-time type query) are
    tagged unions here. *)

Inductive MaterialType : Type := FlatMaterial | PhongMaterial | ShaderMaterial.

Inductive LightType : Type := AmbientLight | DirectionalLight | PointLight | SpotLight.

Inductive FogType : Type := LinearFog | ExponentialFog.

Inductive GeometryPrimitiveType : Type := Triangles | Lines | LineLoop.

(** bounding_sphere.cpp names [Position]; the other enumerators are not in the
    sources. *)
Inductive GeometryAttributeType : Type := Position | OtherAttribute (tag : Z).

#[global] Instance MaterialType_eq_dec : EqDecision MaterialType.
Proof. solve_decision. Defined.
#[global] Instance LightType_eq_dec : EqDecision LightType.
Proof. solve_decision. Defined.
#[global] Instance FogType_eq_dec : EqDecision FogType.
Proof. solve_decision. Defined.
#[global] Instance GeometryPrimitiveType_eq_dec : EqDecision GeometryPrimitiveType.
Proof. solve_decision. Defined.

(** A texture: the renderer binds it and asks for its transform. *)
Record Texture2D : Type := mkTexture2D { texture_id : Z; texture_state : Matrix3 }.

(** The fields of the three material classes (phong_material.hpp,
    shader_material.hpp; FlatMaterial has [color] and [texture_map]). A
    [texture_map] may be null. *)
Inductive MaterialFields : Type :=
| Flat (color : Color) (texture_map : option Texture2D)
| Phong (color specular : Color) (shininess : float) (texture_map : option Texture2D)
| Shader (vertex_shader_ fragment_shader_ : string) (uniforms : list (string * UniformValue)).

Record Material : Type :=
  mkMaterial { opacity : float; fields : MaterialFields }.

(** [Type()] / [GetType()]. *)
Definition Material_GetType (m : Material) : MaterialType :=
  match fields m with
  | Flat _ _ => FlatMaterial
  | Phong _ _ _ _ => PhongMaterial
  | Shader _ _ _ => ShaderMaterial
  end.

Record Attenuation : Type :=
  mkAttenuation { base : float; linear : float; quadratic : float }.

(** What a light carries besides [color] and [intensity]; [Direction()] and
    [GetWorldPosition()] are the values those calls return. *)
Inductive LightFields : Type :=
| Ambient
| Directional (Direction : Vector3)
| Point (attenuation : Attenuation)
| Spot (Direction : Vector3) (angle penumbra : float) (attenuation : Attenuation).

Record Light : Type :=
  mkLight { color : Color; intensity : float; GetWorldPosition : Vector3;
            light_fields : LightFields }.

Definition Light_GetType (l : Light) : LightType :=
  match light_fields l with
  | Ambient => AmbientLight
  | Directional _ => DirectionalLight
  | Point _ => PointLight
  | Spot _ _ _ _ => SpotLight
  end.

Inductive Fog : Type :=
| Linear (color : Color) (near far : float)
| Exponential (color : Color) (density : float).

Definition Fog_GetType (f : Fog) : FogType :=
  match f with
  | Linear _ _ _ => LinearFog
  | Exponential _ _ => ExponentialFog
  end.

Record Sphere : Type := mkSphere { center : Vector3; radius : float }.

Record GeometryAttribute : Type :=
  mkGeometryAttribute { attr_type : GeometryAttributeType; item_size : Z }.

Record Geometry : Type :=
  mkGeometry { Disposed : bool;
               VertexData : list float;
               IndexData : list Z;
               Attributes : list GeometryAttribute;
               primitive : GeometryPrimitiveType;
               BoundingSphere : Sphere }.

(** A mesh node; [GetWorldTransform()] is the value the call returns. The
    geometry and the material of a mesh are never null. *)
Record Mesh : Type :=
  mkMesh { mesh_name : string; geometry : Geometry; material : Material;
           GetWorldTransform : Matrix4 }.

(** The scene graph (node.hpp, scene.hpp) is not among the sources: the
    renderer reads [touched_] and [fog] and hands the scene to
    [ProcessScene], which walks the nodes. *)
Inductive Node : Type :=
| MeshNode (m : Mesh)
| LightNode (l : Light).

Record Scene : Type :=
  mkScene { touched_ : bool; fog : option Fog; children : list Node }.

Record Camera : Type :=
  mkCamera { projection_transform : Matrix4; view_transform : Matrix4 }.

(** ** Renderer-side data *)

(** core/render_lists.hpp: [Opaque()], [Transparent()] and [Lights()]. *)
Record RenderLists : Type :=
  mkRenderLists { opaque_ : list Mesh; transparent_ : list Mesh; lights_ : list Light }.

(** core/program_attributes.hpp: the members the renderer reads. *)
Record ProgramAttributes : Type :=
  mkProgramAttributes { type : MaterialType;
                        texture_map : bool;
                        flat_shaded : bool;
                        directional_lights : bool;
                        point_lights : bool;
                        spot_lights : bool;
                        lights : bool;
                        key : string }.

Inductive ShaderType : Type := kVertexShader | kFragmentShader.

Record ShaderInfo : Type := mkShaderInfo { shader_type : ShaderType; shader_source : string }.

(** gl_program.hpp: [program_] is a [GLuint], [has_errors_] a flag; the
    uniform table is only touched by member functions of gl_program.cpp. *)
Record GLProgram : Type := mkGLProgram { program_ : Z; has_errors_ : bool }.

Definition IsValid (p : GLProgram) : bool := negb (has_errors_ p) && (0 <? program_ p)%Z.

Definition Id (p : GLProgram) : Z := program_ p.

(** A [GLProgram*] handed out by the cache: the slot of the cache it points
    into and the object that lives there; the null pointer is [None]. *)
Record Handle : Type := mkHandle { slot : string; target : GLProgram }.

Record Plane : Type := mkPlane { normal : Vector3; distance : float }.

(** Modelled from the spec: the Frustum class (math/frustum.hpp is not among
    the sources). "Frustum: 6 planes": left, right, top, bottom, near, far. *)
Record Frustum : Type :=
  mkFrustum { plane_left : Plane; plane_right : Plane; plane_top : Plane;
              plane_bottom : Plane; plane_near : Plane; plane_far : Plane }.

Definition planes (f : Frustum) : list Plane :=
  [plane_left f; plane_right f; plane_top f; plane_bottom f; plane_near f; plane_far f].

Record Parameters : Type := mkParameters { width : Z; height : Z }.

(** ** Calls out of the renderer

    Everything the renderer does to OpenGL, the logger, the state tracker,
    the buffer and texture binders, the shader library and the program
    objects is recorded as one [Event] per call, in program order. A program
    object is named by the cache slot that owns it. *)

Inductive LogLevel : Type := LogLevel_Info | LogLevel_Warning.

Inductive LogArg : Type :=
| LogMesh (m : Mesh)
| LogKey (k : string).

Inductive Event : Type :=
| GL_Clear (mask : Z)
| GL_DrawArrays (mode first count : Z)
| GL_DrawElements (mode count index_type : Z)
| Logger_Log (level : LogLevel) (format : string) (arg : LogArg)
| State_SetDepthMask (flag : bool)
| State_ProcessMaterial (m : Material)
| State_UseProgram (id : Z)
| Buffers_Bind (g : Geometry)
| Textures_Bind (t : Texture2D)
| Program_SetUniform (program : string) (name : string) (v : UniformValue)
| Program_SetUniformIfExists (program : string) (name : string) (v : UniformValue)
| Program_UpdateUniforms (program : string)
| ShaderLib_GetShaderSource (attrs : ProgramAttributes)
| GLProgram_new (slot : string) (sources : list ShaderInfo)
| Scene_UpdateTransformHierarchy
| Camera_SetViewTransform
| RenderLists_ProcessScene
| Frustum_SetWithViewProjection (m : Matrix4).

(** The values of glad.h the renderer uses. *)
Definition GL_LINES : Z := 1.
Definition GL_LINE_LOOP : Z := 2.
Definition GL_TRIANGLES : Z := 4.
Definition GL_UNSIGNED_INT : Z := 5125.
Definition GL_DEPTH_BUFFER_BIT : Z := 256.
Definition GL_COLOR_BUFFER_BIT : Z := 16384.

(** ** The world: a Renderer::Impl and the two objects it is handed

    [programs_] is the map of [GLPrograms]; [the_scene] and [the_camera] are
    the objects behind the [Scene*] and [Camera*] arguments of [Render],
    [RenderObjects], [RenderMesh], [SetUniforms] and [UpdateLights], which
    therefore take no such argument here. The render lists hold the meshes
    and lights collected by the last [ProcessScene]. The two counters are
    declared in gl_renderer_impl.hpp, which is not among the sources; they
    are only incremented, copied and reset, and are integers here. *)

Record World : Type :=
  mkWorld { params_ : Parameters;
            programs_ : gmap string GLProgram;
            render_lists_ : RenderLists;
            frustum_ : Frustum;
            rendered_objects_counter_ : Z;
            rendered_objects_per_frame_ : Z;
            the_scene : Scene;
            the_camera : Camera }.

Definition set_programs_ (f : gmap string GLProgram -> gmap string GLProgram) (w : World) : World :=
  mkWorld (params_ w) (f (programs_ w)) (render_lists_ w) (frustum_ w)
          (rendered_objects_counter_ w) (rendered_objects_per_frame_ w)
          (the_scene w) (the_camera w).

Definition set_render_lists_ (f : RenderLists -> RenderLists) (w : World) : World :=
  mkWorld (params_ w) (programs_ w) (f (render_lists_ w)) (frustum_ w)
          (rendered_objects_counter_ w) (rendered_objects_per_frame_ w)
          (the_scene w) (the_camera w).

Definition set_frustum_ (f : Frustum) (w : World) : World :=
  mkWorld (params_ w) (programs_ w) (render_lists_ w) f
          (rendered_objects_counter_ w) (rendered_objects_per_frame_ w)
          (the_scene w) (the_camera w).

Definition set_rendered_objects_counter_ (n : Z) (w : World) : World :=
  mkWorld (params_ w) (programs_ w) (render_lists_ w) (frustum_ w)
          n (rendered_objects_per_frame_ w) (the_scene w) (the_camera w).

Definition set_rendered_objects_per_frame_ (n : Z) (w : World) : World :=
  mkWorld (params_ w) (programs_ w) (render_lists_ w) (frustum_ w)
          (rendered_objects_counter_ w) n (the_scene w) (the_camera w).

Definition set_the_scene (f : Scene -> Scene) (w : World) : World :=
  mkWorld (params_ w) (programs_ w) (render_lists_ w) (frustum_ w)
          (rendered_objects_counter_ w) (rendered_objects_per_frame_ w)
          (f (the_scene w)) (the_camera w).

Definition set_the_camera (f : Camera -> Camera) (w : World) : World :=
  mkWorld (params_ w) (programs_ w) (render_lists_ w) (frustum_ w)
          (rendered_objects_counter_ w) (rendered_objects_per_frame_ w)
          (the_scene w) (f (the_camera w)).

Definition set_touched_ (flag : bool) (s : Scene) : Scene :=
  mkScene flag (fog s) (children s).

(** ** The monad of renderer code

    A computation runs from a world and either returns ([Done]) or hits
    undefined behaviour ([Crash]); both carry the world reached and the
    calls made so far. *)

Inductive Outcome (A : Type) : Type :=
| Done (a : A) (w : World) (t : list Event)
| Crash (why : Fault) (w : World) (t : list Event).
Arguments Done {A} a w t.
Arguments Crash {A} why w t.

Definition M (A : Type) : Type := World -> Outcome A.

#[global] Instance M_ret : MRet M := fun A a w => Done a w [].

#[global] Instance M_bind : MBind M := fun A B k m w =>
  match m w with
  | Done a w1 t1 =>
      match k a w1 with
      | Done c w2 t2 => Done c w2 (t1 ++ t2)
      | Crash why w2 t2 => Crash why w2 (t1 ++ t2)
      end
  | Crash why w1 t1 => Crash why w1 t1
  end.

Definition gets {A} (f : World -> A) : M A := fun w => Done (f w) w [].

Definition modify (f : World -> World) : M unit := fun w => Done tt (f w) [].

Definition emit (e : Event) : M unit := fun w => Done tt w [e].

Definition crash {A} (why : Fault) : M A := fun w => Crash why w [].

(** [for (auto a : l) body(a)]. *)
Fixpoint for_each {A} (l : list A) (body : A -> M unit) : M unit :=
  match l with
  | [] => mret tt
  | a :: l' => body a ;; for_each l' body
  end.

(** A range-for whose body updates locals [s] declared before the loop. *)
Fixpoint for_each_with {A S} (l : list A) (s : S) (body : S -> A -> M S) : M S :=
  match l with
  | [] => mret s
  | a :: l' => s' ← body s a; for_each_with l' s' body
  end.

(** World, trace and returned value of an outcome. *)
Definition world_of {A} (o : Outcome A) : World :=
  match o with Done _ w _ => w | Crash _ w _ => w end.

Definition trace_of {A} (o : Outcome A) : list Event :=
  match o with Done _ _ t => t | Crash _ _ t => t end.

Definition crashed {A} (o : Outcome A) : bool :=
  match o with Done _ _ _ => false | Crash _ _ _ => true end.

(** ** Code of the engine that is not among the sources

    The renderer calls these; each is taken as a parameter. *)

Class Collaborators : Type :=
  { (** [Matrix4 * Matrix4], [Matrix4 * Vector4], [Matrix3(const Matrix4&)],
        [Inverse], [Transpose] (matrix3.hpp, matrix4.hpp) and [std::cos]. *)
    Matrix4_mul : Matrix4 -> Matrix4 -> Matrix4;
    Matrix4_apply : Matrix4 -> Vector4 -> Vector4;
    Matrix3_of : Matrix4 -> Matrix3;
    Inverse : Matrix3 -> Matrix3;
    Transpose : Matrix3 -> Matrix3;
    cosf : float -> float;
    (** [std::to_underlying] on the two enumerations. *)
    LightType_underlying : LightType -> Z;
    FogType_underlying : FogType -> Z;
    (** [Texture2D::GetTransform], [Geometry::VertexCount]. *)
    GetTransform : Texture2D -> Matrix3;
    VertexCount : Geometry -> Z;
    (** [Scene::UpdateTransformHierarchy], [Camera::SetViewTransform],
        [RenderLists::ProcessScene]. *)
    UpdateTransformHierarchy : Scene -> Scene;
    SetViewTransform : Camera -> Camera;
    ProcessScene : RenderLists -> Scene -> RenderLists;
    (** [ProgramAttributes {material, render_lists, scene}]. *)
    ProgramAttributes_new : Material -> RenderLists -> Scene -> ProgramAttributes;
    (** [ShaderLibrary::GetShaderSource] and the constructor of [GLProgram],
        which compiles and links. *)
    GetShaderSource : ProgramAttributes -> list ShaderInfo;
    GLProgram_ctor : list ShaderInfo -> GLProgram;
    (** [Frustum::SetWithViewProjection], [Plane::DistanceToPoint],
        [Sphere::ApplyTransform]. *)
    SetWithViewProjection : Matrix4 -> Frustum;
    DistanceToPoint : Plane -> Vector3 -> float;
    ApplyTransform : Sphere -> Matrix4 -> Sphere }.

Section Renderer.

Context `{Collaborators}.

(** Modelled from the spec: Frustum::IntersectsWithSphere (math/frustum.cpp is
    not among the sources). "Returns true iff, for every one of the 6 planes,
    the signed distance from the plane to the sphere center is >= -radius". *)
Definition IntersectsWithSphere (f : Frustum) (sphere : Sphere) : bool :=
  forallb (fun p => F32.geb (DistanceToPoint p (center sphere)) (F32.opp (radius sphere)))
          (planes f).

(** *** gl_programs.cpp *)

(** [programs_[key].get()]. *)
Definition programs_get (key : string) : M (option Handle) :=
  gets (fun w => mkHandle key <$> programs_ w !! key).

Definition GetProgram (attrs : ProgramAttributes) : M (option Handle) :=
  let key := key attrs in
  contains ← gets (fun w => bool_decide (is_Some (programs_ w !! key)));
  if negb contains then
    emit (ShaderLib_GetShaderSource attrs) ;;
    let sources := GetShaderSource attrs in
    if bool_decide (sources = []) then mret None
    else
      emit (Logger_Log LogLevel_Info "Creating a new shader program {}" (LogKey key)) ;;
      emit (GLProgram_new key sources) ;;
      modify (set_programs_ (insert key (GLProgram_ctor sources))) ;;
      programs_get key
  else programs_get key.

(** *** gl_renderer_impl.cpp *)

Definition light_uniforms : list string :=
  [ "u_Lights[0]"; "u_Lights[1]"; "u_Lights[2]"; "u_Lights[3]"; "u_Lights[4]";
    "u_Lights[5]"; "u_Lights[6]"; "u_Lights[7]"; "u_Lights[8]" ].

(** [light_uniforms[idx]] on the [std::array]. *)
Definition light_uniforms_at (idx : nat) : M string :=
  match light_uniforms !! idx with
  | Some uniform => mret uniform
  | None => crash (IndexOutOfRange idx (length light_uniforms))
  end.

Definition IsValidMesh (mesh : Mesh) : M bool :=
  let geometry := geometry mesh in
  if Disposed geometry then
    emit (Logger_Log LogLevel_Warning
            "Skipped rendering a mesh with disposed geometry {}" (LogMesh mesh)) ;;
    mret false
  else if bool_decide (VertexData geometry = []) then
    emit (Logger_Log LogLevel_Warning
            "Skipped rendering a mesh with no geometry data {}" (LogMesh mesh)) ;;
    mret false
  else if bool_decide (Attributes geometry = []) then
    emit (Logger_Log LogLevel_Warning
            "Skipped rendering a mesh with no geometry attributes {}" (LogMesh mesh)) ;;
    mret false
  else mret true.

Definition IsVisible (mesh : Mesh) : M bool :=
  let bounding_sphere := BoundingSphere (geometry mesh) in
  let bounding_sphere := ApplyTransform bounding_sphere (GetWorldTransform mesh) in
  gets (fun w => IntersectsWithSphere (frustum_ w) bounding_sphere).

(** The locals of [UpdateLights]. [idx] is an [int]; it counts lights. *)
Record LightLoop : Type := mkLightLoop { ambient_light : Color; idx : nat }.

(** One iteration of the loop of [UpdateLights]. The first [if] tests the
    type tag, the other three test it and downcast: a match on the fields. *)
Definition UpdateLights_body (program : Handle) (s : LightLoop) (light : Light) : M LightLoop :=
  let p := slot program in
  let light_color := color light in
  let intensity := intensity light in
  let type := Light_GetType light in
  camera ← gets the_camera;
  uniform ← light_uniforms_at (idx s);
  ambient_light ←
    (if bool_decide (type = AmbientLight) then mret (Color_scale light_color intensity)
     else
       emit (Program_SetUniform p (uniform +:+ ".Type") (UInt (LightType_underlying type))) ;;
       mret (ambient_light s));
  match light_fields light with
  | Ambient => mret (mkLightLoop ambient_light (idx s))
  | Directional Direction =>
      let direction := Matrix4_apply (view_transform camera) (Vector4_of Direction F32.zero) in
      let color := Color_scale light_color intensity in
      emit (Program_SetUniform p (uniform +:+ ".Color") (UColor color)) ;;
      emit (Program_SetUniform p (uniform +:+ ".Direction") (UVector3 (Vector3_of direction))) ;;
      mret (mkLightLoop ambient_light (S (idx s)))
  | Point attenuation =>
      let color := Color_scale light_color intensity in
      let position :=
        Matrix4_apply (view_transform camera) (Vector4_of (GetWorldPosition light) F32.one) in
      emit (Program_SetUniform p (uniform +:+ ".Color") (UColor color)) ;;
      emit (Program_SetUniform p (uniform +:+ ".Position") (UVector3 (Vector3_of position))) ;;
      emit (Program_SetUniform p (uniform +:+ ".Base") (UFloat (base attenuation))) ;;
      emit (Program_SetUniform p (uniform +:+ ".Linear") (UFloat (linear attenuation))) ;;
      emit (Program_SetUniform p (uniform +:+ ".Quadratic") (UFloat (quadratic attenuation))) ;;
      mret (mkLightLoop ambient_light (S (idx s)))
  | Spot Direction angle penumbra attenuation =>
      let direction := Matrix4_apply (view_transform camera) (Vector4_of Direction F32.zero) in
      let color := Color_scale light_color intensity in
      let position :=
        Matrix4_apply (view_transform camera) (Vector4_of (GetWorldPosition light) F32.one) in
      emit (Program_SetUniform p (uniform +:+ ".Color") (UColor color)) ;;
      emit (Program_SetUniform p (uniform +:+ ".Direction") (UVector3 (Vector3_of direction))) ;;
      emit (Program_SetUniform p (uniform +:+ ".Position") (UVector3 (Vector3_of position))) ;;
      emit (Program_SetUniform p (uniform +:+ ".ConeCos") (UFloat (cosf angle))) ;;
      emit (Program_SetUniform p (uniform +:+ ".PenumbraCos")
              (UFloat (cosf (F32.mul angle (F32.sub F32.one penumbra))))) ;;
      emit (Program_SetUniform p (uniform +:+ ".Base") (UFloat (base attenuation))) ;;
      emit (Program_SetUniform p (uniform +:+ ".Linear") (UFloat (linear attenuation))) ;;
      emit (Program_SetUniform p (uniform +:+ ".Quadratic") (UFloat (quadratic attenuation))) ;;
      mret (mkLightLoop ambient_light (S (idx s)))
  end.

(** The loop of [UpdateLights] over a light list, from given locals. *)
Definition UpdateLights_loop (program : Handle) (ls : list Light) (s : LightLoop) : M LightLoop :=
  for_each_with ls s (UpdateLights_body program).

Definition UpdateLights (program : Handle) : M unit :=
  ls ← gets (fun w => lights_ (render_lists_ w));
  s ← UpdateLights_loop program ls (mkLightLoop (mkColor F32.zero F32.zero F32.zero) 0%nat);
  emit (Program_SetUniform (slot program) "u_AmbientLight" (UColor (ambient_light s))).

(** The texture block shared by the flat and the Phong branch:
    [m->texture_map->GetTransform()] dereferences the material's pointer. *)
Definition SetUniforms_texture (p : string) (texture_map : option Texture2D) : M unit :=
  emit (Program_SetUniform p "u_TextureMap" (UInt 0)) ;;
  match texture_map with
  | None => crash NullDereference
  | Some t =>
      emit (Program_SetUniform p "u_TextureTransform" (UMatrix3 (GetTransform t))) ;;
      emit (Textures_Bind t)
  end.

Definition SetUniforms (program : Handle) (attrs : ProgramAttributes) (mesh : Mesh) : M unit :=
  let p := slot program in
  let material := material mesh in
  camera ← gets the_camera;
  scene ← gets the_scene;
  params ← gets params_;
  let model_view := Matrix4_mul (view_transform camera) (GetWorldTransform mesh) in
  emit (Program_SetUniformIfExists p "u_Projection" (UMatrix4 (projection_transform camera))) ;;
  emit (Program_SetUniformIfExists p "u_ModelView" (UMatrix4 model_view)) ;;
  emit (Program_SetUniformIfExists p "u_Opacity" (UFloat (opacity material))) ;;
  emit (Program_SetUniformIfExists p "u_Resolution"
          (UVector2 (mkVector2 (F32.of_Z (width params)) (F32.of_Z (height params))))) ;;
  match fog scene with
  | Some fog =>
      let type := Fog_GetType fog in
      emit (Program_SetUniformIfExists p "u_Fog.Type" (UInt (FogType_underlying type))) ;;
      match fog with
      | Linear color near far =>
          emit (Program_SetUniformIfExists p "u_Fog.Color" (UColor color)) ;;
          emit (Program_SetUniformIfExists p "u_Fog.Near" (UFloat near)) ;;
          emit (Program_SetUniformIfExists p "u_Fog.Far" (UFloat far))
      | Exponential color density =>
          emit (Program_SetUniformIfExists p "u_Fog.Type" (UInt (FogType_underlying type))) ;;
          emit (Program_SetUniformIfExists p "u_Fog.Color" (UColor color)) ;;
          emit (Program_SetUniformIfExists p "u_Fog.Density" (UFloat density))
      end
  | None => mret tt
  end ;;
  match type attrs with
  | FlatMaterial =>
      match fields material with
      | Flat color texture =>
          emit (Program_SetUniform p "u_Color" (UColor color)) ;;
          if texture_map attrs then SetUniforms_texture p texture else mret tt
      | _ => crash BadDowncast
      end
  | PhongMaterial =>
      match fields material with
      | Phong color specular shininess texture =>
          (if directional_lights attrs || point_lights attrs || spot_lights attrs then
             emit (Program_SetUniform p "u_Material.DiffuseColor" (UColor color)) ;;
             emit (Program_SetUniform p "u_Material.SpecularColor" (UColor specular)) ;;
             emit (Program_SetUniform p "u_Material.Shininess" (UFloat shininess)) ;;
             if negb (flat_shaded attrs) then
               emit (Program_SetUniformIfExists p "u_NormalMatrix"
                       (UMatrix3 (Transpose (Inverse (Matrix3_of model_view)))))
             else mret tt
           else mret tt) ;;
          if texture_map attrs then SetUniforms_texture p texture else mret tt
      | _ => crash BadDowncast
      end
  | ShaderMaterial =>
      match fields material with
      | Shader _ _ uniforms =>
          for_each uniforms (fun '(name, value) => emit (Program_SetUniform p name value))
      | _ => crash BadDowncast
      end
  end.

Definition RenderMesh (mesh : Mesh) : M unit :=
  valid ← IsValidMesh mesh;
  if negb valid then mret tt else
  visible ← IsVisible mesh;
  if negb visible then mret tt else
  let geometry := geometry mesh in
  let material := material mesh in
  attrs ← gets (fun w => ProgramAttributes_new material (render_lists_ w) (the_scene w));
  program ← GetProgram attrs;
  match program with
  | None => crash NullDereference
  | Some program =>
      if negb (IsValid (target program)) then mret tt else
      emit (State_ProcessMaterial material) ;;
      no_lights ← gets (fun w => bool_decide (lights_ (render_lists_ w) = []));
      (if lights attrs && negb no_lights then UpdateLights program else mret tt) ;;
      emit (Buffers_Bind geometry) ;;
      SetUniforms program attrs mesh ;;
      emit (State_UseProgram (Id (target program))) ;;
      emit (Program_UpdateUniforms (slot program)) ;;
      let primitive :=
        match primitive geometry with
        | Triangles => GL_TRIANGLES
        | Lines => GL_LINES
        | LineLoop => GL_LINE_LOOP
        end in
      (if bool_decide (IndexData geometry = []) then
         emit (GL_DrawArrays primitive 0 (VertexCount geometry))
       else
         emit (GL_DrawElements primitive (Z.of_nat (length (IndexData geometry))) GL_UNSIGNED_INT)) ;;
      modify (fun w => set_rendered_objects_counter_ (rendered_objects_counter_ w + 1) w)
  end.

Definition RenderObjects : M unit :=
  camera ← gets the_camera;
  let view_projection := Matrix4_mul (projection_transform camera) (view_transform camera) in
  emit (Frustum_SetWithViewProjection view_projection) ;;
  modify (set_frustum_ (SetWithViewProjection view_projection)) ;;
  opaque ← gets (fun w => opaque_ (render_lists_ w));
  for_each opaque RenderMesh ;;
  transparent ← gets (fun w => transparent_ (render_lists_ w));
  (if negb (bool_decide (transparent = [])) then emit (State_SetDepthMask false) else mret tt) ;;
  for_each transparent RenderMesh ;;
  emit (State_SetDepthMask true) ;;
  modify (fun w => set_rendered_objects_per_frame_ (rendered_objects_counter_ w) w) ;;
  modify (set_rendered_objects_counter_ 0).

Definition Render : M unit :=
  emit (GL_Clear (Z.lor GL_COLOR_BUFFER_BIT GL_DEPTH_BUFFER_BIT)) ;;
  emit Scene_UpdateTransformHierarchy ;;
  modify (set_the_scene UpdateTransformHierarchy) ;;
  emit Camera_SetViewTransform ;;
  modify (set_the_camera SetViewTransform) ;;
  touched ← gets (fun w => touched_ (the_scene w));
  (if (touched : bool) then
     emit RenderLists_ProcessScene ;;
     modify (fun w => set_render_lists_ (fun rl => ProcessScene rl (the_scene w)) w) ;;
     modify (set_the_scene (set_touched_ false))
   else mret tt) ;;
  RenderObjects.

End Renderer.

(** ** A concrete engine for the examples

    One choice of the missing code, used where a statement is evaluated on
    concrete data: column-major matrices, a shader library that knows the
    flat and the Phong material, a driver that numbers programs by the
    length of their first source, the unit cube as frustum. *)

Module Demo.

Definition f2 : float := F32.add F32.one F32.one.
Definition half : float := F32.quot F32.one f2.

Definition v4_scale (v : Vector4) (n : float) : Vector4 :=
  mkVector4 (F32.mul (v4x v) n) (F32.mul (v4y v) n) (F32.mul (v4z v) n) (F32.mul (v4w v) n).

Definition v4_add (a c : Vector4) : Vector4 :=
  mkVector4 (F32.add (v4x a) (v4x c)) (F32.add (v4y a) (v4y c))
            (F32.add (v4z a) (v4z c)) (F32.add (v4w a) (v4w c)).

Definition apply (m : Matrix4) (v : Vector4) : Vector4 :=
  v4_add (v4_add (v4_scale (m4c0 m) (v4x v)) (v4_scale (m4c1 m) (v4y v)))
         (v4_add (v4_scale (m4c2 m) (v4z v)) (v4_scale (m4c3 m) (v4w v))).

Definition mul (a c : Matrix4) : Matrix4 :=
  mkMatrix4 (apply a (m4c0 c)) (apply a (m4c1 c)) (apply a (m4c2 c)) (apply a (m4c3 c)).

Definition upper3 (m : Matrix4) : Matrix3 :=
  mkMatrix3 (Vector3_of (m4c0 m)) (Vector3_of (m4c1 m)) (Vector3_of (m4c2 m)).

Definition transpose (m : Matrix3) : Matrix3 :=
  mkMatrix3
    (Vector3.mk (Vector3.x (m3c0 m)) (Vector3.x (m3c1 m)) (Vector3.x (m3c2 m)))
    (Vector3.mk (Vector3.y (m3c0 m)) (Vector3.y (m3c1 m)) (Vector3.y (m3c2 m)))
    (Vector3.mk (Vector3.z (m3c0 m)) (Vector3.z (m3c1 m)) (Vector3.z (m3c2 m))).

(** The inverse by the adjugate: the rows of the inverse are the cross
    products of the columns over the determinant. *)
Definition inverse (m : Matrix3) : Matrix3 :=
  let r0 := Cross (m3c1 m) (m3c2 m) in
  let r1 := Cross (m3c2 m) (m3c0 m) in
  let r2 := Cross (m3c0 m) (m3c1 m) in
  let inv_det := F32.quot F32.one (Dot r2 (m3c2 m)) in
  transpose (mkMatrix3 (Vector3.scale r0 inv_det) (Vector3.scale r1 inv_det)
                       (Vector3.scale r2 inv_det)).

(** Two terms of the cosine series stand in for [std::cos]. *)
Definition cos2 (a : float) : float :=
  F32.sub F32.one (F32.mul (F32.mul a a) half).

Definition identity4 : Matrix4 :=
  mkMatrix4 (mkVector4 F32.one F32.zero F32.zero F32.zero)
            (mkVector4 F32.zero F32.one F32.zero F32.zero)
            (mkVector4 F32.zero F32.zero F32.one F32.zero)
            (mkVector4 F32.zero F32.zero F32.zero F32.one).

Definition identity3 : Matrix3 := upper3 identity4.

Definition translation (v : Vector3) : Matrix4 :=
  mkMatrix4 (m4c0 identity4) (m4c1 identity4) (m4c2 identity4) (Vector4_of v F32.one).

Definition light_tag (t : LightType) : Z :=
  match t with
  | AmbientLight => 0
  | DirectionalLight => 1
  | PointLight => 2
  | SpotLight => 3
  end.

Definition fog_tag (t : FogType) : Z :=
  match t with LinearFog => 0 | ExponentialFog => 1 end.

Definition vertex_count (g : Geometry) : Z := Z.of_nat (length (VertexData g)) / 3.

Definition is_mesh_node (n : Node) : option Mesh :=
  match n with MeshNode m => Some m | LightNode _ => None end.

Definition is_light_node (n : Node) : option Light :=
  match n with LightNode l => Some l | MeshNode _ => None end.

Definition is_opaque (m : Mesh) : bool := F32.geb (opacity (material m)) F32.one.

Definition process_scene (_ : RenderLists) (s : Scene) : RenderLists :=
  let meshes := omap is_mesh_node (children s) in
  mkRenderLists (List.filter is_opaque meshes)
                (List.filter (fun m => negb (is_opaque m)) meshes)
                (omap is_light_node (children s)).

Definition has_light (t : LightType) (rl : RenderLists) : bool :=
  existsb (fun l => bool_decide (Light_GetType l = t)) (lights_ rl).

Definition has_texture (m : Material) : bool :=
  match fields m with
  | Flat _ (Some _) | Phong _ _ _ (Some _) => true
  | _ => false
  end.

Definition type_name (t : MaterialType) : string :=
  match t with
  | FlatMaterial => "flat"
  | PhongMaterial => "phong"
  | ShaderMaterial => "shader"
  end.

Definition flag (name : string) (on : bool) : string := if on then name else "".

Definition attributes (m : Material) (rl : RenderLists) (s : Scene) : ProgramAttributes :=
  let d := has_light DirectionalLight rl in
  let p := has_light PointLight rl in
  let sp := has_light SpotLight rl in
  let tex := has_texture m in
  mkProgramAttributes (Material_GetType m) tex false d p sp (d || p || sp)
    (type_name (Material_GetType m) +:+ flag "|texture" tex +:+ flag "|directional" d
       +:+ flag "|point" p +:+ flag "|spot" sp
       +:+ flag "|fog" (bool_decide (is_Some (fog s)))).

(** The library has sources for the flat and the Phong material only. *)
Definition library_source (attrs : ProgramAttributes) : list ShaderInfo :=
  match type attrs with
  | FlatMaterial =>
      [mkShaderInfo kVertexShader "flat.vert"; mkShaderInfo kFragmentShader "flat.frag"]
  | PhongMaterial =>
      [mkShaderInfo kVertexShader "phong.vert"; mkShaderInfo kFragmentShader "phong.frag"]
  | ShaderMaterial => []
  end.

Definition compile (sources : list ShaderInfo) : GLProgram :=
  match sources with
  | [] => mkGLProgram 0 true
  | s :: _ => mkGLProgram (Z.of_nat (String.length (shader_source s))) false
  end.

Definition axis_plane (n : Vector3) : Plane := mkPlane n F32.one.

Definition neg (v : Vector3) : Vector3 :=
  Vector3.mk (F32.opp (Vector3.x v)) (F32.opp (Vector3.y v)) (F32.opp (Vector3.z v)).

(** The planes of the cube [-1, 1]^3, whatever the matrix. *)
Definition unit_cube (_ : Matrix4) : Frustum :=
  mkFrustum (axis_plane Vector3.Right) (axis_plane (neg Vector3.Right))
            (axis_plane (neg Vector3.Up)) (axis_plane Vector3.Up)
            (axis_plane (neg Vector3.Forward)) (axis_plane Vector3.Forward).

Definition plane_distance (p : Plane) (v : Vector3) : float :=
  F32.add (Dot (normal p) v) (distance p).

Definition move_sphere (s : Sphere) (m : Matrix4) : Sphere :=
  mkSphere (Vector3_of (apply m (Vector4_of (center s) F32.one))) (radius s).

Definition engine : Collaborators :=
  {| Matrix4_mul := mul;
     Matrix4_apply := apply;
     Matrix3_of := upper3;
     Inverse := inverse;
     Transpose := transpose;
     cosf := cos2;
     LightType_underlying := light_tag;
     FogType_underlying := fog_tag;
     GetTransform := texture_state;
     VertexCount := vertex_count;
     UpdateTransformHierarchy := fun s => s;
     SetViewTransform := fun c => c;
     ProcessScene := process_scene;
     ProgramAttributes_new := attributes;
     GetShaderSource := library_source;
     GLProgram_ctor := compile;
     SetWithViewProjection := unit_cube;
     DistanceToPoint := plane_distance;
     ApplyTransform := move_sphere |}.

(** [Length()] as the square root of [Dot(v, v)]. *)
Definition length3 (v : Vector3) : float := F32.sqrt (Dot v v).

(** Sample data. *)

Definition white : Color := mkColor F32.one F32.one F32.one.
Definition grey : Color := mkColor half half half.

Definition triangle : Geometry :=
  mkGeometry false
    [F32.zero; F32.zero; F32.zero; half; F32.zero; F32.zero; F32.zero; half; F32.zero]
    [] [mkGeometryAttribute Position 3] Triangles
    (mkSphere Vector3.Zero half).

Definition quad_lines : Geometry :=
  mkGeometry false
    [F32.zero; F32.zero; F32.zero; half; F32.zero; F32.zero; F32.zero; half; F32.zero]
    [0; 1; 1; 2] [mkGeometryAttribute Position 3] Lines
    (mkSphere Vector3.Zero half).

Definition disposed_triangle : Geometry :=
  mkGeometry true (VertexData triangle) [] (Attributes triangle) Triangles
             (BoundingSphere triangle).

Definition flat_white : Material := mkMaterial F32.one (Flat white None).
Definition phong_glass : Material := mkMaterial half (Phong white grey f2 None).
Definition custom : Material := mkMaterial F32.one (Shader "void main() {}" "void main() {}" []).

Definition wall : Mesh := mkMesh "wall" triangle flat_white identity4.
Definition window : Mesh := mkMesh "window" quad_lines phong_glass identity4.
Definition ghost : Mesh := mkMesh "ghost" disposed_triangle flat_white identity4.
Definition gizmo : Mesh := mkMesh "gizmo" triangle custom identity4.
Definition far_away : Mesh :=
  mkMesh "far" triangle flat_white (translation (Vector3.mk (F32.of_Z 5) F32.zero F32.zero)).

Definition ambient : Light := mkLight white half Vector3.Zero Ambient.
Definition sun : Light := mkLight white F32.one Vector3.Zero (Directional Vector3.Up).
Definition bulb : Light :=
  mkLight grey F32.one Vector3.Up (Point (mkAttenuation F32.one F32.zero F32.zero)).

Definition camera0 : Camera := mkCamera identity4 identity4.

Definition world_with (rl : RenderLists) (s : Scene) : World :=
  mkWorld (mkParameters 800 600) ∅ rl (unit_cube identity4) 0 0 s camera0.

Definition scene_of (touched : bool) (nodes : list Node) : Scene :=
  mkScene touched None nodes.

Definition lit_world (ls : list Light) : World :=
  world_with (mkRenderLists [] [] ls) (scene_of false (LightNode <$> ls)).

Definition phong_handle : Handle := mkHandle "phong" (mkGLProgram 10 false).

Definition no_lists : RenderLists := mkRenderLists [] [] [].
Definition empty_scene : Scene := scene_of false [].
Definition empty_world : World := world_with no_lists empty_scene.

Definition flat_attrs : ProgramAttributes := attributes flat_white no_lists empty_scene.
Definition phong_attrs : ProgramAttributes := attributes phong_glass no_lists empty_scene.
Definition custom_attrs : ProgramAttributes := attributes custom no_lists empty_scene.

Definition sunlit : RenderLists := mkRenderLists [wall] [window] [ambient; sun].
Definition sunlit_phong_attrs : ProgramAttributes := attributes phong_glass sunlit empty_scene.
Definition sunlit_world : World := world_with sunlit empty_scene.

(** A scene that has just changed: nothing collected yet, flag raised. *)
Definition fresh_world : World :=
  world_with no_lists
    (scene_of true [MeshNode wall; MeshNode window; LightNode ambient; LightNode sun]).

End Demo.

(** ** Observations on runs and traces *)

(** The calls [t] followed by the outcome [o]. *)
Definition prepend {A} (t : list Event) (o : Outcome A) : Outcome A :=
  match o with
  | Done a w t' => Done a w (t ++ t')
  | Crash why w t' => Crash why w (t ++ t')
  end.

(** [emits_only P m]: every call [m] makes satisfies [P], whether it returns
    or not. [keeps f m]: [m] leaves the part [f] of the world as it was. *)
Definition emits_only (P : Event -> Prop) {A} (m : M A) : Prop :=
  forall w, Forall P (trace_of (m w)).

Definition keeps {X} (f : World -> X) {A} (m : M A) : Prop :=
  forall w, f (world_of (m w)) = f w.

Definition returned {A} (o : Outcome A) : option A :=
  match o with Done a _ _ => Some a | Crash _ _ _ => None end.

Definition is_creation_log (e : Event) : bool :=
  match e with Logger_Log LogLevel_Info _ _ => true | _ => false end.

Definition is_compile (e : Event) : bool :=
  match e with GLProgram_new _ _ => true | _ => false end.

Definition is_source_request (e : Event) : bool :=
  match e with ShaderLib_GetShaderSource _ => true | _ => false end.

Definition is_draw (e : Event) : bool :=
  match e with
  | GL_DrawArrays _ _ _ | GL_DrawElements _ _ _ => true
  | _ => false
  end.

(** Neither a draw call, nor a change of the depth mask, nor a rebuild of
    the render lists. *)
Definition quiet (e : Event) : bool :=
  match e with
  | GL_DrawArrays _ _ _ | GL_DrawElements _ _ _ | State_SetDepthMask _
  | RenderLists_ProcessScene => false
  | _ => true
  end.

(** What drawing one mesh leaves alone: everything but the program cache
    and, when the mesh is drawn, the counter. *)
Definition frame (w : World) : RenderLists * Frustum * Scene * Camera * Parameters :=
  (render_lists_ w, frustum_ w, the_scene w, the_camera w, params_ w).

Definition still (w : World) :=
  (frame w, rendered_objects_counter_ w).

Definition calm {A} (m : M A) : Prop :=
  emits_only (fun e => quiet e = true) m /\ keeps still m.

(** Replays a trace against a depth mask, as a recording GL would: every
    draw call is paired with the depth mask in force when it is issued.
    The mask changes with [SetDepthMask] only. *)
Fixpoint draws_with_depth_mask (mask : bool) (t : list Event) : list (Event * bool) :=
  match t with
  | [] => []
  | State_SetDepthMask flag :: t' => draws_with_depth_mask flag t'
  | e :: t' =>
      if is_draw e then (e, mask) :: draws_with_depth_mask mask t'
      else draws_with_depth_mask mask t'
  end.

Fixpoint depth_mask_after (mask : bool) (t : list Event) : bool :=
  match t with
  | [] => mask
  | State_SetDepthMask flag :: t' => depth_mask_after flag t'
  | _ :: t' => depth_mask_after mask t'
  end.

(** The name a [SetUniform] or [SetUniformIfExists] call writes. *)
Definition sets_uniform (name : string) (e : Event) : bool :=
  match e with
  | Program_SetUniform _ n _ | Program_SetUniformIfExists _ n _ => String.eqb n name
  | _ => false
  end.

Definition is_ambient (l : Light) : bool := bool_decide (Light_GetType l = AmbientLight).

(** The lights that take a slot. *)
Definition positional (ls : list Light) : list Light :=
  List.filter (fun l => negb (is_ambient l)) ls.

Definition black : Color := mkColor F32.zero F32.zero F32.zero.

Definition Color_add (a c : Color) : Color :=
  mkColor (F32.add (r a) (r c)) (F32.add (g a) (g c)) (F32.add (b a) (b c)).

(** The spec's words: "their contribution accumulates additively": the sum
    of color x intensity over the ambient lights, from zero. *)
Definition ambient_sum (ls : list Light) : Color :=
  fold_left (fun acc l => Color_add acc (Color_scale (color l) (intensity l)))
            (List.filter is_ambient ls) black.

(** color x intensity of the last ambient light, zero when there is none. *)
Definition last_ambient (ls : list Light) : Color :=
  from_option (fun l => Color_scale (color l) (intensity l)) black
              (last (List.filter is_ambient ls)).

(** The index each iteration of the loop of [UpdateLights] looks up in
    [light_uniforms], from index [i]: the number of positional lights before
    the light. *)
Fixpoint table_indices (i : nat) (ls : list Light) : list nat :=
  match ls with
  | [] => []
  | l :: ls' => i :: table_indices (if is_ambient l then i else S i) ls'
  end.

Section Observations.

Context `{Collaborators}.

(** The draw call [RenderMesh] ends with. *)
Definition DrawCall (mesh : Mesh) : Event :=
  let geometry := geometry mesh in
  let mode :=
    match primitive geometry with
    | Triangles => GL_TRIANGLES
    | Lines => GL_LINES
    | LineLoop => GL_LINE_LOOP
    end in
  if bool_decide (IndexData geometry = []) then GL_DrawArrays mode 0 (VertexCount geometry)
  else GL_DrawElements mode (Z.of_nat (length (IndexData geometry))) GL_UNSIGNED_INT.

(** The sphere [IsVisible] tests. *)
Definition world_sphere (mesh : Mesh) : Sphere :=
  ApplyTransform (BoundingSphere (geometry mesh)) (GetWorldTransform mesh).

(** "The signed distance from the plane to the sphere center is >= -radius". *)
Definition in_front (sphere : Sphere) (p : Plane) : bool :=
  F32.geb (DistanceToPoint p (center sphere)) (F32.opp (radius sphere)).

(** [IsValidMesh] finds nothing to report. *)
Definition well_formed (mesh : Mesh) : Prop :=
  Disposed (geometry mesh) = false /\ VertexData (geometry mesh) <> [] /\
  Attributes (geometry mesh) <> [].

(** [m], part of drawing [mesh]: it leaves the frame and the depth mask
    alone and either draws nothing and leaves the counter, or issues the
    draw call of the mesh, once, and counts it. *)
Definition draws_at_most_once (mesh : Mesh) (m : M unit) : Prop :=
  forall w mask,
    let o := m w in
    frame (world_of o) = frame w /\
    depth_mask_after mask (trace_of o) = mask /\
    ((draws_with_depth_mask mask (trace_of o) = [] /\
      rendered_objects_counter_ (world_of o) = rendered_objects_counter_ w) \/
     (draws_with_depth_mask mask (trace_of o) = [(DrawCall mesh, mask)] /\
      rendered_objects_counter_ (world_of o) = rendered_objects_counter_ w + 1)).

(** The three warnings of [IsValidMesh]. *)
Definition skipped_disposed (mesh : Mesh) : Event :=
  Logger_Log LogLevel_Warning "Skipped rendering a mesh with disposed geometry {}" (LogMesh mesh).

Definition skipped_no_data (mesh : Mesh) : Event :=
  Logger_Log LogLevel_Warning "Skipped rendering a mesh with no geometry data {}" (LogMesh mesh).

Definition skipped_no_attributes (mesh : Mesh) : Event :=
  Logger_Log LogLevel_Warning "Skipped rendering a mesh with no geometry attributes {}"
             (LogMesh mesh).

Definition is_rebuild (e : Event) : bool :=
  match e with RenderLists_ProcessScene => true | _ => false end.

(** A mesh draw behaves as one whose program is invalid: it returns, no
    draw call is issued, the counter stands. *)
Definition skips_draw (mesh : Mesh) (w : World) : Prop :=
  let o := RenderMesh mesh w in
  crashed o = false /\ List.filter is_draw (trace_of o) = [] /\
  rendered_objects_counter_ (world_of o) = rendered_objects_counter_ w.

(** The statements of the specification that the code does not meet, as
    predicates of the input. *)

(** "The ambient uniform is set to the sum over all ambient lights". *)
Definition uploads_ambient_sum (p : Handle) (w : World) : Prop :=
  last (trace_of (UpdateLights p w)) =
  Some (Program_SetUniform (slot p) "u_AmbientLight"
          (UColor (ambient_sum (lights_ (render_lists_ w))))).

(** "Every access into the 9-entry table is in bounds" for a list with at
    most 9 positional lights. *)
Definition lookups_in_bounds (p : Handle) (w : World) : Prop :=
  (length (positional (lights_ (render_lists_ w))) <= 9)%nat ->
  crashed (UpdateLights p w) = false.

(** "Repeated calls with the same key return the same program handle and
    never trigger a second compile or a second shader-source request". *)
Definition second_call_requests_nothing (attrs : ProgramAttributes) (w : World) : Prop :=
  let first := GetProgram attrs w in
  let second := GetProgram attrs (world_of first) in
  returned second = returned first /\
  List.filter is_compile (trace_of second) = [] /\
  List.filter is_source_request (trace_of second) = [].

(** "For every drawn mesh with a Phong material, SetUniforms sets the
    diffuse color, specular color and shininess uniforms". *)
Definition sets_phong_uniforms (p : Handle) (attrs : ProgramAttributes) (mesh : Mesh)
    (w : World) : Prop :=
  let t := trace_of (SetUniforms p attrs mesh w) in
  existsb (sets_uniform "u_Material.DiffuseColor") t = true /\
  existsb (sets_uniform "u_Material.SpecularColor") t = true /\
  existsb (sets_uniform "u_Material.Shininess") t = true.

End Observations.

(** ** Observations on uniforms, programs and frames *)

Local Open Scope list_scope.
Local Open Scope Z_scope.

(** The attributes agree with the material they are used with: the type tag
    is the dynamic type, and a texture flag comes with a texture. *)
Definition attrs_fit (attrs : ProgramAttributes) (m : Material) : bool :=
  match type attrs, fields m with
  | FlatMaterial, Flat _ texture | PhongMaterial, Phong _ _ _ texture =>
      negb (texture_map attrs) || bool_decide (is_Some texture)
  | ShaderMaterial, Shader _ _ _ => true
  | _, _ => false
  end.


Definition is_set_uniform (e : Event) : bool :=
  match e with Program_SetUniform _ _ _ => true | _ => false end.

Definition upload (p : Handle) (u : string * UniformValue) : Event :=
  Program_SetUniform (slot p) (fst u) (snd u).

Definition is_texture_bind (e : Event) : bool :=
  match e with Textures_Bind _ => true | _ => false end.

(** The uniforms of the Phong block. *)
Definition phong_only : list string :=
  ["u_Material.DiffuseColor"; "u_Material.SpecularColor"; "u_Material.Shininess";
   "u_NormalMatrix"].

Definition sets_any (names : list string) (e : Event) : bool :=
  existsb (fun n => sets_uniform n e) names.

(** The three tests of [IsValidMesh], all passed. *)
Definition passes_checks (mesh : Mesh) : bool :=
  negb (Disposed (geometry mesh)) &&
  negb (bool_decide (VertexData (geometry mesh) = [])) &&
  negb (bool_decide (Attributes (geometry mesh) = [])).


(** [e] writes a member of the slot named [uniform]. *)
Definition writes_slot (p : Handle) (uniform : string) (e : Event) : Prop :=
  exists member v, e = Program_SetUniform (slot p) (uniform +:+ member) v.

(** A call that builds a program: the source request, the log entry, the
    compilation. *)
Definition is_build (e : Event) : bool :=
  is_source_request e || is_creation_log e || is_compile e.

(** Every call but those that build a program. *)
Definition not_build (e : Event) : bool := negb (is_build e).

(** Two outcomes that differ at most in the cache and the counters. *)
Definition alike {A} (o1 o2 : Outcome A) : Prop :=
  match o1, o2 with
  | Done a w1 t1, Done b w2 t2 => a = b /\ t1 = t2 /\ frame w1 = frame w2
  | Crash y w1 t1, Crash z w2 t2 => y = z /\ t1 = t2 /\ frame w1 = frame w2
  | _, _ => False
  end.

(** [m] reads nothing of the world but its frame. *)
Definition reads_frame_only {A} (m : M A) : Prop :=
  forall w v, frame w = frame v -> alike (m w) (m v).

(** The calls that open a frame. *)
Definition is_prologue (e : Event) : bool :=
  match e with
  | GL_Clear _ | Scene_UpdateTransformHierarchy | Camera_SetViewTransform
  | RenderLists_ProcessScene | Frustum_SetWithViewProjection _ => true
  | _ => false
  end.




Section Frames.

Context `{Collaborators}.

(** The attributes [RenderMesh] builds for a mesh. *)
Definition attrs_of (mesh : Mesh) (w : World) : ProgramAttributes :=
  ProgramAttributes_new (material mesh) (render_lists_ w) (the_scene w).

(** The calls of the light upload of [RenderMesh]. *)
Definition light_upload (h : Handle) (attrs : ProgramAttributes) (w : World) : list Event :=
  if lights attrs && negb (bool_decide (lights_ (render_lists_ w) = []))
  then trace_of (UpdateLights h w) else [].

(** The cache of [w] holds a valid program under the key of the mesh. *)
Definition valid_program (w : World) (mesh : Mesh) : bool :=
  match programs_ w !! key (attrs_of mesh w) with
  | Some p => IsValid p
  | None => false
  end.

(** The meshes [RenderMesh] goes on to draw: they pass [IsValidMesh], they
    are in the frustum of [w], and their program in the cache of [w] is
    valid. *)
Definition shown (w : World) (mesh : Mesh) : bool :=
  passes_checks mesh &&
  IntersectsWithSphere (frustum_ w) (world_sphere mesh) &&
  valid_program w mesh.


(** The matrix the frustum of a frame is built from. *)
Definition view_projection (camera : Camera) : Matrix4 :=
  Matrix4_mul (projection_transform camera) (view_transform camera).

(** The world in which the meshes of a frame are drawn. *)
Definition with_frustum (w : World) : World :=
  set_frustum_ (SetWithViewProjection (view_projection (the_camera w))) w.

(** The end of a completed frame. *)
Definition publish (w : World) : World :=
  set_rendered_objects_counter_ 0
    (set_rendered_objects_per_frame_ (rendered_objects_counter_ w) w).

(** The call before the transparent pass. *)
Definition mask_off (transparent : list Mesh) : list Event :=
  if bool_decide (transparent = []) then [] else [State_SetDepthMask false].

(** [Render] up to the draw loop. *)
Definition prepared (w : World) : World :=
  let w1 := set_the_camera SetViewTransform (set_the_scene UpdateTransformHierarchy w) in
  if touched_ (the_scene w1) then
    set_the_scene (set_touched_ false)
      (set_render_lists_ (fun rl => ProcessScene rl (the_scene w1)) w1)
  else w1.



End Frames.

(** ** bounding_sphere.cpp

    [std::sin], [math::two_pi] (math/utilities.hpp, taken to be a [float]),
    [Geometry::Create] and [Geometry::SetAttribute] are not among the
    sources: each is a parameter. [std::cos] is the one of the renderer. *)

Class Resources : Type :=
  { sinf : float -> float;
    two_pi : float;
    Geometry_Create : list float -> list Z -> Geometry;
    SetAttribute : Geometry -> GeometryAttribute -> Geometry }.

(** [unsigned] arithmetic. *)
Definition u32 (n : Z) : Z := n mod 2 ^ 32.

Definition set_primitive (p : GeometryPrimitiveType) (g : Geometry) : Geometry :=
  mkGeometry (Disposed g) (VertexData g) (IndexData g) (Attributes g) p (BoundingSphere g).

(** The two vectors [CreateGeometry] fills. *)
Record Buffers : Type := mkBuffers { vertices : list float; indices : list Z }.

Section BoundingSphere.

Context `{Collaborators} `{Resources}.

(** [constexpr auto segments = 64.0f]. *)
Definition segments : float := S754_finite false 8388608 (-17).

(** [enum class Axis { XY, XZ, YZ }], cast to [unsigned]. *)
Definition Axis_XY : Z := 0.
Definition Axis_XZ : Z := 1.
Definition Axis_YZ : Z := 2.

(** The point [p] of one iteration of the inner loop. *)
Definition CreateGeometry_point (sphere : Sphere) (axis i : Z) : Vector3 :=
  let p := center sphere in
  let radius := radius sphere in
  let theta := F32.mul (F32.quot (F32.of_Z i) segments) two_pi in
  let p :=
    if axis =? Axis_XY then
      Vector3.mk (F32.add (Vector3.x p) (F32.mul radius (cosf theta)))
                 (F32.add (Vector3.y p) (F32.mul radius (sinf theta)))
                 (Vector3.z p)
    else p in
  let p :=
    if axis =? Axis_XZ then
      Vector3.mk (F32.add (Vector3.x p) (F32.mul radius (cosf theta)))
                 (Vector3.y p)
                 (F32.add (Vector3.z p) (F32.mul radius (sinf theta)))
    else p in
  let p :=
    if axis =? Axis_YZ then
      Vector3.mk (Vector3.x p)
                 (F32.add (Vector3.y p) (F32.mul radius (cosf theta)))
                 (F32.add (Vector3.z p) (F32.mul radius (sinf theta)))
    else p in
  p.

(** The body of the inner loop. *)
Definition CreateGeometry_inner (sphere : Sphere) (axis offset : Z) (b : Buffers) (i : Z)
    : Buffers :=
  let p := CreateGeometry_point sphere axis i in
  let vertices := vertices b ++ [Vector3.x p; Vector3.y p; Vector3.z p] in
  let indices :=
    if 0 <? i then indices b ++ [u32 (u32 (offset + i) - 1); u32 (offset + i)]
    else indices b in
  mkBuffers vertices indices.

(** The body of the outer loop; the inner loop runs for [i] from [0] to
    [static_cast<unsigned>(segments)], which is 64. *)
Definition CreateGeometry_outer (sphere : Sphere) (b : Buffers) (axis : Z) : Buffers :=
  let offset := u32 (Z.of_nat (length (vertices b)) / 3) in
  fold_left (CreateGeometry_inner sphere axis offset) (seqZ 0 65) b.

Definition CreateGeometry_buffers (sphere : Sphere) : Buffers :=
  fold_left (CreateGeometry_outer sphere) (seqZ 0 3) (mkBuffers [] []).

Definition CreateGeometry (sphere : Sphere) : Geometry :=
  let b := CreateGeometry_buffers sphere in
  let geometry := Geometry_Create (vertices b) (indices b) in
  let geometry := set_primitive Lines geometry in
  SetAttribute geometry (mkGeometryAttribute Position 3).

(** The circle drawn about an axis, and the line segments along a circle
    whose first point has index [offset]. *)
Definition coordinates (p : Vector3) : list float :=
  [Vector3.x p; Vector3.y p; Vector3.z p].

Definition circle (sphere : Sphere) (axis : Z) : list Vector3 :=
  CreateGeometry_point sphere axis <$> seqZ 0 65.

Definition polyline (offset : Z) : list Z :=
  i ← seqZ 1 64; [offset + i - 1; offset + i].

End BoundingSphere.

(** The check of one segment: [a], [a + 1] at the positions [2 j] and
    [2 j + 1], both in the circle [a / 65], both vertices of the buffer. *)
Definition joins_neighbours (indices : list Z) (vertex_count : Z) (j : nat) : bool :=
  match indices !! (2 * j)%nat, indices !! (2 * j + 1)%nat with
  | Some a, Some b =>
      (b =? a + 1) && (0 <=? a) && (b <? vertex_count) && (a / 65 =? b / 65)
  | _, _ => false
  end.


(** ** More sample data *)

Module Sample.

(** The engine of [Demo] with a compiler that always fails. *)
Definition failing : Collaborators :=
  {| Matrix4_mul := Demo.mul;
     Matrix4_apply := Demo.apply;
     Matrix3_of := Demo.upper3;
     Inverse := Demo.inverse;
     Transpose := Demo.transpose;
     cosf := Demo.cos2;
     LightType_underlying := Demo.light_tag;
     FogType_underlying := Demo.fog_tag;
     GetTransform := texture_state;
     VertexCount := Demo.vertex_count;
     UpdateTransformHierarchy := fun s => s;
     SetViewTransform := fun c => c;
     ProcessScene := Demo.process_scene;
     ProgramAttributes_new := Demo.attributes;
     GetShaderSource := Demo.library_source;
     GLProgram_ctor := fun _ => mkGLProgram 0 true;
     SetWithViewProjection := Demo.unit_cube;
     DistanceToPoint := Demo.plane_distance;
     ApplyTransform := Demo.move_sphere |}.

(** A shader material with two uniforms, and a mesh that wears it. *)
Definition tinted : Material :=
  mkMaterial F32.one
    (Shader "void main() {}" "void main() {}"
       [("u_Tint", UColor Demo.grey); ("u_Gain", UFloat Demo.half)]).

Definition banner : Mesh := mkMesh "banner" Demo.triangle tinted Demo.identity4.

Definition tinted_attrs : ProgramAttributes :=
  Demo.attributes tinted Demo.no_lists Demo.empty_scene.

Definition shader_handle : Handle := mkHandle "shader" (mkGLProgram 12 false).

Definition flat_handle : Handle := mkHandle "flat" (mkGLProgram 9 false).

(** A renderer that has a program in its cache already. *)
Definition kept : GLProgram := mkGLProgram 7 false.

Definition warm_world : World := set_programs_ (insert "kept" kept) Demo.fresh_world.

(** A sine good for small angles, six for two pi, and a geometry that
    stores what it is given. *)
Definition resources : Resources :=
  {| sinf := fun a => a;
     two_pi := F32.of_Z 6;
     Geometry_Create := fun vertex_data index_data =>
       mkGeometry false vertex_data index_data [] Triangles
                  (mkSphere Vector3.Zero F32.zero);
     SetAttribute := fun g a =>
       mkGeometry (Disposed g) (VertexData g) (IndexData g) (Attributes g ++ [a])
                  (primitive g) (BoundingSphere g) |}.

Definition ball : Sphere := mkSphere (Vector3.mk F32.one Demo.f2 Demo.half) Demo.half.

End Sample.

(** * Properties *)

Local Open Scope list_scope.
Local Open Scope Z_scope.

(** ** Running computations *)

Lemma prepend_nil {A} (o : Outcome A) : prepend [] o = o.
Proof. destruct o; reflexivity. Qed.

Lemma prepend_prepend {A} t1 t2 (o : Outcome A) :
  prepend t1 (prepend t2 o) = prepend (t1 ++ t2) o.
Proof. destruct o; simpl; rewrite app_assoc; reflexivity. Qed.

Lemma trace_of_prepend {A} t (o : Outcome A) : trace_of (prepend t o) = t ++ trace_of o.
Proof. destruct o; reflexivity. Qed.

Lemma world_of_prepend {A} t (o : Outcome A) : world_of (prepend t o) = world_of o.
Proof. destruct o; reflexivity. Qed.

Lemma crashed_prepend {A} t (o : Outcome A) : crashed (prepend t o) = crashed o.
Proof. destruct o; reflexivity. Qed.

Lemma bind_run {A B} (m : M A) (k : A -> M B) (w : World) :
  (m ≫= k) w =
  match m w with
  | Done a w1 t1 => prepend t1 (k a w1)
  | Crash why w1 t1 => Crash why w1 t1
  end.
Proof. reflexivity. Qed.

Lemma bind_Done {A B} (m : M A) (k : A -> M B) w a w1 t1 :
  m w = Done a w1 t1 -> (m ≫= k) w = prepend t1 (k a w1).
Proof. intros E. rewrite bind_run, E. reflexivity. Qed.

Lemma bind_Crash {A B} (m : M A) (k : A -> M B) w why w1 t1 :
  m w = Crash why w1 t1 -> (m ≫= k) w = Crash why w1 t1.
Proof. intros E. rewrite bind_run, E. reflexivity. Qed.

Lemma ret_bind {A B} (a : A) (k : A -> M B) w : (mret a ≫= k) w = k a w.
Proof. rewrite (bind_Done _ _ w a w []) by reflexivity. apply prepend_nil. Qed.

Lemma gets_bind {A B} (f : World -> A) (k : A -> M B) w : (gets f ≫= k) w = k (f w) w.
Proof. rewrite (bind_Done _ _ w (f w) w []) by reflexivity. apply prepend_nil. Qed.

Lemma modify_bind {B} f (k : unit -> M B) w : (modify f ≫= k) w = k tt (f w).
Proof. rewrite (bind_Done _ _ w tt (f w) []) by reflexivity. apply prepend_nil. Qed.

Lemma emit_bind {B} e (k : unit -> M B) w : (emit e ≫= k) w = prepend [e] (k tt w).
Proof. apply bind_Done. reflexivity. Qed.

Lemma crash_bind {A B} why (k : A -> M B) w : (crash why ≫= k) w = Crash why w [].
Proof. reflexivity. Qed.

Lemma trace_of_bind {A B} (m : M A) (k : A -> M B) w :
  trace_of ((m ≫= k) w) =
  trace_of (m w) ++
  match m w with Done a w1 _ => trace_of (k a w1) | Crash _ _ _ => [] end.
Proof.
  rewrite bind_run. destruct (m w) as [a w1 t1|]; simpl.
  - apply trace_of_prepend.
  - symmetry. apply app_nil_r.
Qed.

Lemma world_of_bind {A B} (m : M A) (k : A -> M B) w :
  world_of ((m ≫= k) w) =
  match m w with Done a w1 _ => world_of (k a w1) | Crash _ w1 _ => w1 end.
Proof.
  rewrite bind_run. destruct (m w) as [a w1 t1|]; simpl; [|reflexivity].
  apply world_of_prepend.
Qed.

Lemma bind_assoc {A B C} (m : M A) (k : A -> M B) (h : B -> M C) w :
  ((m ≫= k) ≫= h) w = (m ≫= fun a => k a ≫= h) w.
Proof.
  rewrite !bind_run. destruct (m w) as [a w1 t1|]; [|reflexivity].
  rewrite bind_run. destruct (k a w1) as [c w2 t2|]; simpl; [|reflexivity].
  symmetry. apply prepend_prepend.
Qed.

Lemma bind_ext {A B} (m : M A) (k k' : A -> M B) w :
  (forall a w1, k a w1 = k' a w1) -> (m ≫= k) w = (m ≫= k') w.
Proof. intros E. rewrite !bind_run. destruct (m w); [rewrite E|]; reflexivity. Qed.

Lemma for_each_with_app {A S} (l1 l2 : list A) (s : S) body w :
  for_each_with (l1 ++ l2) s body w =
  (for_each_with l1 s body ≫= fun s1 => for_each_with l2 s1 body) w.
Proof.
  revert s w. induction l1 as [|a l1 IH]; intros s w; simpl.
  - rewrite ret_bind. reflexivity.
  - rewrite bind_assoc. apply bind_ext. intros s1 w1. apply IH.
Qed.

(** Pushes a run through the primitives at the head of a computation. *)
Ltac step :=
  repeat first
    [ rewrite ret_bind | rewrite gets_bind | rewrite modify_bind
    | rewrite emit_bind | rewrite crash_bind ].

Section Preservation.

Context (P : Event -> Prop) {X : Type} (f : World -> X).

Lemma emits_only_ret {A} (a : A) : emits_only P (mret a).
Proof. intros w. constructor. Qed.

Lemma emits_only_gets {A} (g : World -> A) : emits_only P (gets g).
Proof. intros w. constructor. Qed.

Lemma emits_only_modify g : emits_only P (modify g).
Proof. intros w. constructor. Qed.

Lemma emits_only_crash {A} why : emits_only P (crash (A:=A) why).
Proof. intros w. constructor. Qed.

Lemma emits_only_emit e : P e -> emits_only P (emit e).
Proof. intros He w. simpl. auto. Qed.

Lemma emits_only_bind {A B} (m : M A) (k : A -> M B) :
  emits_only P m -> (forall a, emits_only P (k a)) -> emits_only P (m ≫= k).
Proof.
  intros Hm Hk w. rewrite trace_of_bind. apply Forall_app. split; [apply Hm|].
  destruct (m w); [apply Hk | constructor].
Qed.

Lemma emits_only_for_each {A} (l : list A) body :
  (forall a, emits_only P (body a)) -> emits_only P (for_each l body).
Proof.
  intros Hb. induction l as [|a l IH]; simpl.
  - apply emits_only_ret.
  - apply emits_only_bind; auto.
Qed.

Lemma emits_only_for_each_with {A S} (l : list A) (s : S) body :
  (forall s a, emits_only P (body s a)) -> emits_only P (for_each_with l s body).
Proof.
  intros Hb. revert s. induction l as [|a l IH]; intros s; simpl.
  - apply emits_only_ret.
  - apply emits_only_bind; auto.
Qed.

Lemma keeps_ret {A} (a : A) : keeps f (mret a).
Proof. intros w. reflexivity. Qed.

Lemma keeps_gets {A} (g : World -> A) : keeps f (gets g).
Proof. intros w. reflexivity. Qed.

Lemma keeps_emit e : keeps f (emit e).
Proof. intros w. reflexivity. Qed.

Lemma keeps_crash {A} why : keeps f (crash (A:=A) why).
Proof. intros w. reflexivity. Qed.

Lemma keeps_modify g : (forall w, f (g w) = f w) -> keeps f (modify g).
Proof. intros Hg w. apply Hg. Qed.

Lemma keeps_bind {A B} (m : M A) (k : A -> M B) :
  keeps f m -> (forall a, keeps f (k a)) -> keeps f (m ≫= k).
Proof.
  intros Hm Hk w. rewrite world_of_bind. specialize (Hm w).
  destruct (m w) as [a w1 t1|]; simpl in *; [|assumption].
  rewrite Hk. assumption.
Qed.

Lemma keeps_for_each {A} (l : list A) body :
  (forall a, keeps f (body a)) -> keeps f (for_each l body).
Proof.
  intros Hb. induction l as [|a l IH]; simpl.
  - apply keeps_ret.
  - apply keeps_bind; auto.
Qed.

Lemma keeps_for_each_with {A S} (l : list A) (s : S) body :
  (forall s a, keeps f (body s a)) -> keeps f (for_each_with l s body).
Proof.
  intros Hb. revert s. induction l as [|a l IH]; intros s; simpl.
  - apply keeps_ret.
  - apply keeps_bind; auto.
Qed.

End Preservation.

(** Evaluates a run whose control flow is known. *)
Ltac run_all :=
  cbv [mbind M_bind mret M_ret emit gets modify crash prepend
       trace_of world_of crashed returned app negb].

(** Walks a computation built from the primitives, splitting on every
    conditional and match it meets; [tac] closes the obligation of each
    [emit] and each [modify]. *)
Ltac walk_with tac :=
  repeat first
    [ apply emits_only_ret | apply emits_only_gets | apply emits_only_modify
    | apply emits_only_crash
    | apply keeps_ret | apply keeps_gets | apply keeps_emit | apply keeps_crash
    | apply emits_only_bind; [|intros ?]
    | apply keeps_bind; [|intros ?]
    | apply emits_only_for_each; intros ?
    | apply keeps_for_each; intros ?
    | apply emits_only_for_each_with; intros ? ?
    | apply keeps_for_each_with; intros ? ?
    | apply emits_only_emit; solve [tac]
    | apply keeps_modify; solve [tac]
    | match goal with
      | |- emits_only _ (if ?c then _ else _) => destruct c
      | |- keeps _ (if ?c then _ else _) => destruct c
      | |- emits_only _ (match ?x with _ => _ end) => destruct x
      | |- keeps _ (match ?x with _ => _ end) => destruct x
      | |- emits_only _ (let '(_, _) := ?x in _) => destruct x
      | |- keeps _ (let '(_, _) := ?x in _) => destruct x
      end ].

Ltac walk := walk_with ltac:(intros; reflexivity).

(** Replaying traces. *)

Lemma draws_with_depth_mask_app mask t1 t2 :
  draws_with_depth_mask mask (t1 ++ t2) =
  draws_with_depth_mask mask t1 ++ draws_with_depth_mask (depth_mask_after mask t1) t2.
Proof.
  revert mask. induction t1 as [|e t1 IH]; intros mask; [reflexivity|].
  destruct e; simpl; rewrite ?IH; reflexivity.
Qed.

Lemma depth_mask_after_app mask t1 t2 :
  depth_mask_after mask (t1 ++ t2) = depth_mask_after (depth_mask_after mask t1) t2.
Proof.
  revert mask. induction t1 as [|e t1 IH]; intros mask; [reflexivity|].
  destruct e; simpl; rewrite ?IH; reflexivity.
Qed.

Lemma quiet_replay mask t :
  Forall (fun e => quiet e = true) t ->
  draws_with_depth_mask mask t = [] /\ depth_mask_after mask t = mask /\
  List.filter is_draw t = [].
Proof.
  induction 1 as [|e t He _ IH]; [auto|].
  destruct e; try discriminate; simpl; exact IH.
Qed.

(** ** Vector3 *)

Lemma fdiv_nonzero a n : F32.eqb n F32.zero = false -> fdiv a n = Normal (F32.quot a n).
Proof. intros E. unfold fdiv. rewrite E. reflexivity. Qed.

(** C10. Normalizing never divides by zero. When [Length()] compares equal to
    [0.0f] no division is evaluated: the member [Normalize] returns the
    vector as it is and the free [Normalize] returns the zero vector. For
    every other length both return the vector scaled by [1.0f / length].
    Neither ever reaches the undefined division. *)
Theorem Normalize_guards_the_division (Length : Vector3 -> float) (v : Vector3) :
  (F32.eqb (Length v) F32.zero = true ->
     Vector3.Normalize Length v = Normal v /\
     Normalize Length v = Normal Vector3.Zero) /\
  (F32.eqb (Length v) F32.zero = false ->
     Vector3.Normalize Length v = Normal (Vector3.scale v (F32.quot F32.one (Length v))) /\
     Normalize Length v = Normal (Vector3.scale v (F32.quot F32.one (Length v)))) /\
  Vector3.Normalize Length v <> Undefined DivisionByZero /\
  Normalize Length v <> Undefined DivisionByZero.
Proof.
  unfold Vector3.Normalize, Normalize.
  destruct (F32.eqb (Length v) F32.zero) eqn:E.
  - repeat split; intros; try discriminate; reflexivity.
  - rewrite (fdiv_nonzero _ _ E). simpl.
    repeat split; intros; try discriminate; reflexivity.
Qed.

Lemma Normalize_guards_the_division_witness :
  (Vector3.Normalize Demo.length3 Vector3.Zero = Normal Vector3.Zero /\
   Normalize Demo.length3 Vector3.Zero = Normal Vector3.Zero) /\
  (Vector3.Normalize Demo.length3 (Vector3.mk Demo.f2 F32.zero F32.zero) =
     Normal (Vector3.scale (Vector3.mk Demo.f2 F32.zero F32.zero)
               (F32.quot F32.one (Demo.length3 (Vector3.mk Demo.f2 F32.zero F32.zero)))) /\
   Normalize Demo.length3 (Vector3.mk Demo.f2 F32.zero F32.zero) =
     Normal (Vector3.scale (Vector3.mk Demo.f2 F32.zero F32.zero)
               (F32.quot F32.one (Demo.length3 (Vector3.mk Demo.f2 F32.zero F32.zero))))).
Proof.
  split.
  - apply (proj1 (Normalize_guards_the_division Demo.length3 Vector3.Zero)).
    vm_compute. reflexivity.
  - apply (proj1 (proj2 (Normalize_guards_the_division Demo.length3
                           (Vector3.mk Demo.f2 F32.zero F32.zero)))).
    vm_compute. reflexivity.
Defined.

Example Normalize_2_0_0 :
  Vector3.Normalize Demo.length3 (Vector3.mk Demo.f2 F32.zero F32.zero) = Normal Vector3.Right.
Proof. vm_compute. reflexivity. Qed.

(** ** The program cache *)

Section ProgramCache.

Context `{Collaborators}.

Lemma GetProgram_hit attrs w p :
  programs_ w !! key attrs = Some p ->
  GetProgram attrs w = Done (Some (mkHandle (key attrs) p)) w [].
Proof.
  intros E. unfold GetProgram, programs_get. step.
  rewrite bool_decide_eq_true_2 by eauto. simpl.
  unfold gets. rewrite E. reflexivity.
Qed.

Lemma GetProgram_miss_no_source attrs w :
  programs_ w !! key attrs = None -> GetShaderSource attrs = [] ->
  GetProgram attrs w = Done None w [ShaderLib_GetShaderSource attrs].
Proof.
  intros E S. unfold GetProgram, programs_get. step.
  rewrite bool_decide_eq_false_2 by (rewrite E; intros [? ?]; discriminate). simpl.
  step. rewrite S. reflexivity.
Qed.

Lemma GetProgram_miss_create attrs w :
  programs_ w !! key attrs = None -> GetShaderSource attrs <> [] ->
  GetProgram attrs w =
  Done (Some (mkHandle (key attrs) (GLProgram_ctor (GetShaderSource attrs))))
       (set_programs_ (insert (key attrs) (GLProgram_ctor (GetShaderSource attrs))) w)
       [ShaderLib_GetShaderSource attrs;
        Logger_Log LogLevel_Info "Creating a new shader program {}" (LogKey (key attrs));
        GLProgram_new (key attrs) (GetShaderSource attrs)].
Proof.
  intros E S. unfold GetProgram, programs_get. step.
  rewrite bool_decide_eq_false_2 by (rewrite E; intros [? ?]; discriminate). simpl.
  step. rewrite bool_decide_eq_false_2 by assumption. step.
  unfold gets. simpl. rewrite lookup_insert_eq. reflexivity.
Qed.

Lemma GetProgram_calm attrs : calm (GetProgram attrs).
Proof. split; unfold GetProgram, programs_get; walk. Qed.

(** C4, as the code has it. A call never fails and never removes or replaces
    an entry of the cache. Once a call has returned a program, every later
    call with that key, from the world it left, returns the same handle
    with no call at all: no source request, no compile, no log entry. The
    log entries of a call are as many as the programs it creates, which is
    as many as the entries the cache gains. While the library has no source
    for the attributes, a call returns null, caches nothing, and the next
    call asks the library again. *)
Theorem GetProgram_idempotent_once_created (attrs : ProgramAttributes) (w : World) :
  let first := GetProgram attrs w in
  let w1 := world_of first in
  crashed first = false /\
  programs_ w ⊆ programs_ w1 /\
  (forall h attrs', returned first = Some (Some h) -> key attrs' = key attrs ->
     GetProgram attrs' w1 = Done (Some h) w1 []) /\
  length (List.filter is_creation_log (trace_of first)) =
    (size (programs_ w1) - size (programs_ w))%nat /\
  length (List.filter is_compile (trace_of first)) =
    (size (programs_ w1) - size (programs_ w))%nat /\
  (returned first = Some None ->
     w1 = w /\ GetProgram attrs w1 = Done None w [ShaderLib_GetShaderSource attrs]).
Proof.
  destruct (programs_ w !! key attrs) as [p|] eqn:E.
  - rewrite (GetProgram_hit _ _ _ E). simpl.
    repeat split; try reflexivity; try discriminate; try lia.
    intros h attrs' [= <-] K. rewrite <- K. apply GetProgram_hit. rewrite K. exact E.
  - destruct (decide (GetShaderSource attrs = [])) as [S|S].
    + rewrite (GetProgram_miss_no_source _ _ E S). simpl.
      repeat split; try reflexivity; try discriminate; try lia.
      apply GetProgram_miss_no_source; assumption.
    + rewrite (GetProgram_miss_create _ _ E S). simpl.
      rewrite (map_size_insert_None _ _ _ E).
      repeat split; try discriminate; try lia.
      * apply insert_subseteq. exact E.
      * intros h attrs' [= <-] K. rewrite <- K. apply GetProgram_hit.
        simpl. rewrite K. apply lookup_insert_eq.
Qed.

End ProgramCache.

Lemma GetProgram_idempotent_once_created_witness :
  GetProgram (H:=Demo.engine) Demo.flat_attrs
    (world_of (GetProgram (H:=Demo.engine) Demo.flat_attrs Demo.empty_world)) =
  Done (Some (mkHandle "flat" (mkGLProgram 9 false)))
       (world_of (GetProgram (H:=Demo.engine) Demo.flat_attrs Demo.empty_world)) [].
Proof.
  apply (proj1 (proj2 (proj2 (GetProgram_idempotent_once_created (H:=Demo.engine)
                                Demo.flat_attrs Demo.empty_world)))).
  - reflexivity.
  - reflexivity.
Defined.

(** C4 as the specification states it fails for attributes the library has
    no source for: the second call asks the library again. *)
Lemma GetProgram_second_request_without_source :
  ~ second_call_requests_nothing (H:=Demo.engine) Demo.custom_attrs Demo.empty_world.
Proof. intros (_ & _ & Q). vm_compute in Q. discriminate Q. Qed.

(** ** Lights *)

Section Lights.

Context `{Collaborators}.

Lemma light_uniforms_in_range (i : nat) :
  (i < 9)%nat -> exists uniform, light_uniforms !! i = Some uniform.
Proof.
  intros Hi. destruct (light_uniforms !! i) eqn:E; [eauto|].
  apply lookup_ge_None in E. simpl in E. lia.
Qed.

Lemma light_uniforms_out_of_range (i : nat) w :
  (9 <= i)%nat -> light_uniforms_at i w = Crash (IndexOutOfRange i 9) w [].
Proof.
  intros Hi. unfold light_uniforms_at.
  rewrite (proj2 (lookup_ge_None light_uniforms i)) by (simpl; lia). reflexivity.
Qed.

Lemma is_ambient_fields l :
  is_ambient l = match light_fields l with Ambient => true | _ => false end.
Proof. unfold is_ambient, Light_GetType. destruct (light_fields l); reflexivity. Qed.

(** One iteration, table index in range: the locals after it. *)
Lemma UpdateLights_body_in_range p s l w :
  (idx s < 9)%nat ->
  exists t,
    UpdateLights_body p s l w =
    Done (mkLightLoop
            (if is_ambient l then Color_scale (color l) (intensity l) else ambient_light s)
            (if is_ambient l then idx s else S (idx s))) w t /\
    (is_ambient l = true -> t = []).
Proof.
  intros Hi. destruct (light_uniforms_in_range _ Hi) as [uniform E].
  unfold UpdateLights_body, light_uniforms_at. rewrite is_ambient_fields.
  step. rewrite E. step. unfold Light_GetType.
  destruct (light_fields l); simpl; step; simpl; eexists; split;
    try reflexivity; try discriminate.
Qed.

Lemma UpdateLights_body_out_of_range p s l w :
  (9 <= idx s)%nat ->
  UpdateLights_body p s l w = Crash (IndexOutOfRange (idx s) 9) w [].
Proof.
  intros Hi. unfold UpdateLights_body. step.
  rewrite (bind_Crash _ _ _ _ _ _ (light_uniforms_out_of_range _ w Hi)). reflexivity.
Qed.

Lemma emits_only_bind_returning (P : Event -> Prop) {A B} (Q : A -> Prop)
    (m : M A) (k : A -> M B) :
  emits_only P m ->
  (forall w a w1 t1, m w = Done a w1 t1 -> Q a) ->
  (forall a, Q a -> emits_only P (k a)) ->
  emits_only P (m ≫= k).
Proof.
  intros Hm HQ Hk w. rewrite trace_of_bind. apply Forall_app. split; [apply Hm|].
  destruct (m w) eqn:E; [|constructor]. apply Hk. eapply HQ. exact E.
Qed.

Lemma slot_uniform_not_ambient p uniform suffix v :
  uniform ∈ light_uniforms ->
  sets_uniform "u_AmbientLight" (Program_SetUniform p (uniform +:+ suffix) v) = false.
Proof.
  intros Hin. unfold light_uniforms in Hin.
  repeat (apply elem_of_cons in Hin as [-> | Hin]; [reflexivity|]).
  apply elem_of_nil in Hin. contradiction.
Qed.

Lemma UpdateLights_body_no_ambient_upload p s l :
  emits_only (fun e => sets_uniform "u_AmbientLight" e = false) (UpdateLights_body p s l).
Proof.
  unfold UpdateLights_body.
  apply emits_only_bind; [apply emits_only_gets | intros camera].
  apply emits_only_bind_returning with (Q := fun uniform => uniform ∈ light_uniforms).
  - unfold light_uniforms_at. walk.
  - intros w uniform w1 t1. unfold light_uniforms_at.
    destruct (light_uniforms !! idx s) as [u|] eqn:E; [|discriminate].
    intros [= <- _ _]. eapply list_elem_of_lookup_2. exact E.
  - intros uniform Hin.
    walk_with ltac:(first [apply slot_uniform_not_ambient; assumption | reflexivity]).
Qed.

Lemma from_option_last_cons {A B} (f : A -> B) (d : B) (a : A) (l : list A) :
  from_option f d (last (a :: l)) = from_option f (f a) (last l).
Proof. rewrite last_cons. destruct (last l); reflexivity. Qed.

Lemma table_indices_positional i ls :
  Forall (fun l => is_ambient l = false) ls ->
  table_indices i ls = seq i (length ls) /\ positional ls = ls.
Proof.
  intros Hls. revert i. induction Hls as [|l ls Hl _ IH]; intros i; [auto|].
  unfold positional in *. simpl. rewrite Hl. simpl.
  destruct (IH (S i)) as [-> ->]. auto.
Qed.

(** The loop of [UpdateLights]: it runs to the end exactly when every index
    it looks up is below 9, and then the locals hold the scaled color of
    the last ambient light met and the start index plus the number of
    positional lights. *)
Lemma UpdateLights_loop_run p ls s w :
  (Forall (fun i => (i < 9)%nat) (table_indices (idx s) ls) ->
     exists t,
       UpdateLights_loop p ls s w =
       Done (mkLightLoop
               (from_option (fun l => Color_scale (color l) (intensity l))
                            (ambient_light s) (last (List.filter is_ambient ls)))
               (idx s + length (positional ls))) w t) /\
  (~ Forall (fun i => (i < 9)%nat) (table_indices (idx s) ls) ->
     exists i t, UpdateLights_loop p ls s w = Crash (IndexOutOfRange i 9) w t /\ (9 <= i)%nat).
Proof.
  unfold UpdateLights_loop. revert s w.
  induction ls as [|l ls IH]; intros s w.
  - split.
    + intros _. exists []. simpl. rewrite Nat.add_0_r. destruct s; reflexivity.
    + intros N. destruct N. constructor.
  - simpl table_indices. simpl for_each_with.
    destruct (le_lt_dec 9 (idx s)) as [Hge|Hlt].
    + split.
      * intros F. apply Forall_cons in F as [F _]. lia.
      * intros _. exists (idx s), [].
        rewrite (bind_Crash _ _ _ _ _ _ (UpdateLights_body_out_of_range p s l w Hge)). auto.
    + destruct (UpdateLights_body_in_range p s l w Hlt) as (t1 & E1 & _).
      rewrite (bind_Done _ _ _ _ _ _ E1).
      match type of E1 with _ = Done ?s1 _ _ => destruct (IH s1 w) as [IHok IHko] end.
      simpl idx in IHok, IHko. simpl ambient_light in IHok.
      unfold positional in *. simpl List.filter.
      split.
      * intros F. apply Forall_cons in F as [_ F].
        destruct (IHok F) as (t2 & ->). exists (t1 ++ t2). simpl.
        destruct (is_ambient l); simpl.
        -- rewrite from_option_last_cons. reflexivity.
        -- do 2 f_equal. f_equal. lia.
      * intros N. destruct IHko as (i & t2 & -> & Hi).
        -- intros F. apply N. constructor; assumption.
        -- exists i, (t1 ++ t2). auto.
Qed.

Lemma UpdateLights_loop_no_ambient_upload p ls s :
  emits_only (fun e => sets_uniform "u_AmbientLight" e = false) (UpdateLights_loop p ls s).
Proof.
  unfold UpdateLights_loop. apply emits_only_for_each_with. intros s' l.
  apply UpdateLights_body_no_ambient_upload.
Qed.

Lemma UpdateLights_calm p : calm (UpdateLights p).
Proof.
  split; unfold UpdateLights, UpdateLights_loop, UpdateLights_body, light_uniforms_at; walk.
Qed.

(** Every uniform an iteration writes is a member of the slot it looked
    up: the calls go to the program, under the name [light_uniforms[idx]]
    followed by a member name. *)
Lemma UpdateLights_body_writes_its_slot p s l uniform :
  light_uniforms !! idx s = Some uniform ->
  emits_only (fun e => exists member v,
                e = Program_SetUniform (slot p) (uniform +:+ member) v)
             (UpdateLights_body p s l).
Proof.
  intros E. unfold UpdateLights_body.
  apply emits_only_bind; [apply emits_only_gets | intros camera].
  apply emits_only_bind_returning with (Q := fun u => u = uniform).
  - unfold light_uniforms_at. walk.
  - intros w u w1 t1. unfold light_uniforms_at. rewrite E. intros [= <- _ _]. reflexivity.
  - intros u ->. walk_with ltac:(first [reflexivity | eexists; eexists; reflexivity]).
Qed.

Lemma table_indices_bound i ls :
  Forall (fun k => (k <= i + length (positional ls))%nat) (table_indices i ls).
Proof.
  revert i. induction ls as [|l ls IH]; intros i; simpl; constructor.
  - lia.
  - unfold positional in *. simpl. destruct (is_ambient l); simpl.
    + apply IH.
    + eapply Forall_impl; [apply (IH (S i))|]. simpl. intros k Hk. lia.
Qed.

(** The index a light looks up is the number of positional lights before
    it. *)
Lemma table_indices_lookup i ls k :
  (k < length ls)%nat ->
  table_indices i ls !! k = Some (i + length (positional (take k ls)))%nat.
Proof.
  revert i k. induction ls as [|l ls IH]; intros i k Hk; simpl in Hk; [lia|].
  destruct k as [|k]; simpl.
  - f_equal. lia.
  - rewrite IH by lia. unfold positional. simpl.
    destruct (is_ambient l); simpl; f_equal; lia.
Qed.

(** Below the capacity of nine positional lights [UpdateLights] returns. *)
Lemma UpdateLights_returns_below_capacity p w :
  (length (positional (lights_ (render_lists_ w))) < 9)%nat ->
  exists t, UpdateLights p w = Done tt w t.
Proof.
  intros L. unfold UpdateLights. rewrite gets_bind.
  destruct (UpdateLights_loop_run p (lights_ (render_lists_ w))
              (mkLightLoop (mkColor F32.zero F32.zero F32.zero) 0) w) as [Hok _].
  destruct Hok as (t0 & E0).
  { eapply Forall_impl; [apply table_indices_bound|]. simpl. intros k Hk. lia. }
  rewrite (bind_Done _ _ _ _ _ _ E0). simpl. eauto.
Qed.

(** C2, as the code has it. Whenever [UpdateLights] returns, the world is
    as before, [u_AmbientLight] is set exactly once, by the last call, and
    its value is color x intensity of the LAST ambient light of the list
    (zero when the list has none): each ambient light overwrites the local,
    nothing is added up. The calls before are those of the loop, which ends
    with the index at the number of positional lights; an ambient light
    writes no uniform and leaves the index where it is. *)
Theorem UpdateLights_uploads_last_ambient (p : Handle) (w w' : World) (t : list Event) :
  UpdateLights p w = Done tt w' t ->
  w' = w /\
  (exists t0,
     t = t0 ++ [Program_SetUniform (slot p) "u_AmbientLight"
                  (UColor (last_ambient (lights_ (render_lists_ w))))] /\
     Forall (fun e => sets_uniform "u_AmbientLight" e = false) t0 /\
     UpdateLights_loop p (lights_ (render_lists_ w)) (mkLightLoop black 0) w =
     Done (mkLightLoop (last_ambient (lights_ (render_lists_ w)))
                       (length (positional (lights_ (render_lists_ w))))) w t0) /\
  (forall s l, is_ambient l = true -> (idx s < 9)%nat ->
     UpdateLights_body p s l w =
     Done (mkLightLoop (Color_scale (color l) (intensity l)) (idx s)) w []).
Proof.
  intros E. unfold UpdateLights in E. rewrite gets_bind in E.
  fold black in E. set (ls := lights_ (render_lists_ w)) in *.
  destruct (UpdateLights_loop_run p ls (mkLightLoop black 0) w) as [Hok Hko].
  destruct (decide (Forall (fun i => (i < 9)%nat) (table_indices 0 ls))) as [F|N].
  - destruct (Hok F) as (t0 & E0). simpl in E0. fold (last_ambient ls) in E0.
    rewrite (bind_Done _ _ _ _ _ _ E0) in E. simpl in E.
    injection E as <- <-.
    split; [reflexivity|]. split.
    + exists t0. split; [reflexivity|]. split; [|exact E0].
      pose proof (UpdateLights_loop_no_ambient_upload p ls (mkLightLoop black 0) w) as Q.
      rewrite E0 in Q. exact Q.
    + intros s l Hl Hi. destruct (UpdateLights_body_in_range p s l w Hi) as (t1 & E1 & Ht).
      rewrite Hl in E1. rewrite (Ht Hl) in E1. exact E1.
  - destruct (Hko N) as (i & t0 & E0 & _).
    rewrite (bind_Crash _ _ _ _ _ _ E0) in E. discriminate E.
Qed.

(** C3 on the code: nine positional lights followed by an ambient light.
    The list is within the capacity of nine, every positional light gets
    its slot, and the iteration for the light after them evaluates
    [light_uniforms[9]] on the 9-entry table before it looks at the type
    of the light. *)
Theorem UpdateLights_lookup_past_ninth_slot (p : Handle) (w : World)
    (ls rest : list Light) (l : Light) :
  lights_ (render_lists_ w) = ls ++ l :: rest ->
  length ls = 9%nat ->
  Forall (fun x => is_ambient x = false) ls ->
  Forall (fun x => is_ambient x = true) (l :: rest) ->
  length (positional (lights_ (render_lists_ w))) = 9%nat /\
  exists t, UpdateLights p w = Crash (IndexOutOfRange 9 9) w t.
Proof.
  intros E L Hpos Hamb. split.
  - rewrite E. unfold positional. rewrite List.filter_app, length_app.
    destruct (table_indices_positional 0 ls Hpos) as [_ Q]. unfold positional in Q.
    rewrite Q, L. clear -Hamb.
    induction Hamb as [|x xs Hx _ IH]; [reflexivity|]. simpl. rewrite Hx. exact IH.
  - unfold UpdateLights. rewrite gets_bind, E. unfold UpdateLights_loop.
    destruct (UpdateLights_loop_run p ls (mkLightLoop (mkColor F32.zero F32.zero F32.zero) 0) w)
      as [Hok _].
    simpl idx in Hok. simpl ambient_light in Hok.
    destruct Hok as (t0 & E0).
    { destruct (table_indices_positional 0 ls Hpos) as [-> _]. rewrite L.
      simpl. repeat constructor. }
    destruct (table_indices_positional 0 ls Hpos) as [_ Q]. rewrite Q, L in E0.
    unfold UpdateLights_loop in E0.
    eexists. rewrite bind_run, for_each_with_app, (bind_Done _ _ _ _ _ _ E0).
    simpl for_each_with.
    match goal with
    | |- context [UpdateLights_body p ?s1 l ≫= _] =>
        rewrite (bind_Crash _ _ _ _ _ _ (UpdateLights_body_out_of_range p s1 l w (le_n 9)))
    end.
    reflexivity.
Qed.

End Lights.

Lemma UpdateLights_uploads_last_ambient_witness :
  exists t0,
    trace_of (UpdateLights (H:=Demo.engine) Demo.phong_handle
                (Demo.lit_world [Demo.ambient; Demo.sun; Demo.ambient])) =
    t0 ++ [Program_SetUniform "phong" "u_AmbientLight"
             (UColor (last_ambient [Demo.ambient; Demo.sun; Demo.ambient]))].
Proof.
  destruct (UpdateLights_uploads_last_ambient (H:=Demo.engine) Demo.phong_handle
              (Demo.lit_world [Demo.ambient; Demo.sun; Demo.ambient])
              (world_of (UpdateLights (H:=Demo.engine) Demo.phong_handle
                           (Demo.lit_world [Demo.ambient; Demo.sun; Demo.ambient])))
              (trace_of (UpdateLights (H:=Demo.engine) Demo.phong_handle
                           (Demo.lit_world [Demo.ambient; Demo.sun; Demo.ambient]))))
    as (_ & (t0 & E & _) & _).
  - vm_compute. reflexivity.
  - exists t0. exact E.
Defined.

(** C2 as the specification states it: two ambient lights of half intensity
    upload half, not their sum. *)
Lemma UpdateLights_two_ambient_not_summed :
  ~ uploads_ambient_sum (H:=Demo.engine) Demo.phong_handle
      (Demo.lit_world [Demo.ambient; Demo.ambient]).
Proof. intros Q. vm_compute in Q. discriminate Q. Qed.

(** The same list against the statement of the specification: nine
    positional lights, and a lookup out of bounds. *)
Lemma UpdateLights_nine_and_ambient_out_of_bounds :
  ~ lookups_in_bounds (H:=Demo.engine) Demo.phong_handle
      (Demo.lit_world (replicate 9 Demo.sun ++ [Demo.ambient])).
Proof. intros Q. specialize (Q (le_n 9)). vm_compute in Q. discriminate Q. Qed.

Lemma UpdateLights_lookup_past_ninth_slot_witness :
  length (positional (lights_ (render_lists_
            (Demo.lit_world (replicate 9 Demo.sun ++ [Demo.ambient]))))) = 9%nat /\
  exists t,
    UpdateLights (H:=Demo.engine) Demo.phong_handle
      (Demo.lit_world (replicate 9 Demo.sun ++ [Demo.ambient])) =
    Crash (IndexOutOfRange 9 9) (Demo.lit_world (replicate 9 Demo.sun ++ [Demo.ambient])) t.
Proof.
  apply (UpdateLights_lookup_past_ninth_slot (H:=Demo.engine) Demo.phong_handle
           (Demo.lit_world (replicate 9 Demo.sun ++ [Demo.ambient]))
           (replicate 9 Demo.sun) [] Demo.ambient).
  - reflexivity.
  - reflexivity.
  - repeat constructor.
  - repeat constructor.
Defined.

(** ** Uniforms *)

Ltac here_or_further :=
  repeat first [apply list_elem_of_here | apply list_elem_of_further].

Ltac none_sets := repeat (constructor; [reflexivity|]); constructor.

Section Uniforms.

Context `{Collaborators}.

Lemma SetUniforms_calm p attrs mesh : calm (SetUniforms p attrs mesh).
Proof. split; unfold SetUniforms, SetUniforms_texture; walk. Qed.

(** C7, as the code has it. For a mesh with a Phong material, the material
    block of [SetUniforms] is guarded by the light flags of the program
    attributes. With a directional, point or spot light among them, the
    diffuse color, the specular color and the shininess are set and, unless
    the attributes are flat shaded, [u_NormalMatrix] is set (if the program
    has it) to the transpose of the inverse of the 3x3 block of
    view transform x world transform. With none of them, none of the four
    uniforms is set. The texture slot, the texture transform and the
    texture binding follow the texture flag of the attributes alone. *)
Theorem SetUniforms_Phong_behind_light_flags (p : Handle) (attrs : ProgramAttributes)
    (mesh : Mesh) (w : World) (color specular : Color) (shininess : float)
    (texture : option Texture2D) :
  type attrs = PhongMaterial ->
  fields (material mesh) = Phong color specular shininess texture ->
  let t := trace_of (SetUniforms p attrs mesh w) in
  let model_view := Matrix4_mul (view_transform (the_camera w)) (GetWorldTransform mesh) in
  let lit := directional_lights attrs || point_lights attrs || spot_lights attrs in
  (lit = true ->
     Program_SetUniform (slot p) "u_Material.DiffuseColor" (UColor color) ∈ t /\
     Program_SetUniform (slot p) "u_Material.SpecularColor" (UColor specular) ∈ t /\
     Program_SetUniform (slot p) "u_Material.Shininess" (UFloat shininess) ∈ t /\
     (flat_shaded attrs = false ->
        Program_SetUniformIfExists (slot p) "u_NormalMatrix"
          (UMatrix3 (Transpose (Inverse (Matrix3_of model_view)))) ∈ t)) /\
  (lit = false ->
     Forall (fun e => sets_uniform "u_Material.DiffuseColor" e = false) t /\
     Forall (fun e => sets_uniform "u_Material.SpecularColor" e = false) t /\
     Forall (fun e => sets_uniform "u_Material.Shininess" e = false) t /\
     Forall (fun e => sets_uniform "u_NormalMatrix" e = false) t) /\
  (flat_shaded attrs = true ->
     Forall (fun e => sets_uniform "u_NormalMatrix" e = false) t) /\
  (texture_map attrs = true ->
     Program_SetUniform (slot p) "u_TextureMap" (UInt 0) ∈ t /\
     forall tex, texture = Some tex ->
       Program_SetUniform (slot p) "u_TextureTransform" (UMatrix3 (GetTransform tex)) ∈ t /\
       Textures_Bind tex ∈ t) /\
  (texture_map attrs = false ->
     Forall (fun e => sets_uniform "u_TextureMap" e = false) t /\
     Forall (fun e => sets_uniform "u_TextureTransform" e = false) t).
Proof.
  intros Ht Hf. unfold SetUniforms, SetUniforms_texture. rewrite Ht, Hf. step.
  destruct (fog (the_scene w)) as [[c n f|c d]|];
    destruct (directional_lights attrs || point_lights attrs || spot_lights attrs);
    destruct (flat_shaded attrs); destruct (texture_map attrs); destruct texture;
    run_all;
    (repeat split; try discriminate; intros;
     repeat match goal with
            | E : Some _ = Some _ |- _ => injection E as <-
            | |- _ /\ _ => split
            end;
     try discriminate;
     first [solve [here_or_further] | solve [none_sets]]).
Qed.

End Uniforms.

Lemma SetUniforms_Phong_behind_light_flags_witness :
  Program_SetUniform "phong" "u_Material.DiffuseColor" (UColor Demo.white)
  ∈ trace_of (SetUniforms (H:=Demo.engine) Demo.phong_handle Demo.sunlit_phong_attrs
                Demo.window Demo.sunlit_world).
Proof.
  apply (proj1 (SetUniforms_Phong_behind_light_flags (H:=Demo.engine) Demo.phong_handle
                  Demo.sunlit_phong_attrs Demo.window Demo.sunlit_world
                  Demo.white Demo.grey Demo.f2 None eq_refl eq_refl)).
  reflexivity.
Defined.

(** C7 as the specification states it: a Phong mesh drawn with no
    directional, point or spot light in the render lists gets none of the
    three material uniforms. *)
Lemma SetUniforms_Phong_unlit_sets_no_material :
  ~ sets_phong_uniforms (H:=Demo.engine) Demo.phong_handle Demo.phong_attrs
      Demo.window Demo.empty_world.
Proof. intros (Q & _). vm_compute in Q. discriminate Q. Qed.

(** ** Drawing one mesh *)

Section OneMesh.

Context `{Collaborators}.

Lemma IsValidMesh_well_formed mesh w :
  well_formed mesh -> IsValidMesh mesh w = Done true w [].
Proof.
  intros (D & V & A). unfold IsValidMesh. rewrite D.
  rewrite !bool_decide_eq_false_2 by assumption. reflexivity.
Qed.

Lemma IsValidMesh_malformed mesh w :
  Disposed (geometry mesh) = true \/ VertexData (geometry mesh) = [] \/
  Attributes (geometry mesh) = [] ->
  exists warning,
    IsValidMesh mesh w = Done false w [warning] /\
    ((warning = skipped_disposed mesh /\ Disposed (geometry mesh) = true) \/
     (warning = skipped_no_data mesh /\ VertexData (geometry mesh) = []) \/
     (warning = skipped_no_attributes mesh /\ Attributes (geometry mesh) = [])).
Proof.
  intros Bad. unfold IsValidMesh.
  destruct (Disposed (geometry mesh)) eqn:D.
  { eexists. split; [reflexivity|]. auto. }
  case_bool_decide as V.
  { eexists. split; [reflexivity|]. auto. }
  case_bool_decide as A.
  { eexists. split; [reflexivity|]. auto. }
  destruct Bad as [?|[?|?]]; [discriminate|contradiction|contradiction].
Qed.

Lemma IsValidMesh_calm mesh : calm (IsValidMesh mesh).
Proof. split; unfold IsValidMesh; walk. Qed.

Lemma IsVisible_run mesh w :
  IsVisible mesh w = Done (IntersectsWithSphere (frustum_ w) (world_sphere mesh)) w [].
Proof. reflexivity. Qed.

Lemma IsVisible_calm mesh : calm (IsVisible mesh).
Proof. split; unfold IsVisible; walk. Qed.

Lemma RenderMesh_malformed mesh w :
  Disposed (geometry mesh) = true \/ VertexData (geometry mesh) = [] \/
  Attributes (geometry mesh) = [] ->
  exists warning,
    RenderMesh mesh w = Done tt w [warning] /\
    ((warning = skipped_disposed mesh /\ Disposed (geometry mesh) = true) \/
     (warning = skipped_no_data mesh /\ VertexData (geometry mesh) = []) \/
     (warning = skipped_no_attributes mesh /\ Attributes (geometry mesh) = [])).
Proof.
  intros Bad. destruct (IsValidMesh_malformed mesh w Bad) as (warning & E & Which).
  exists warning. split; [|exact Which].
  unfold RenderMesh. rewrite (bind_Done _ _ _ _ _ _ E). reflexivity.
Qed.

(** C6. A mesh whose geometry is disposed, has no vertex data or declares no
    attribute: [RenderMesh] returns with the world as it was (so the
    counter is not incremented), its only call is one warning, which names
    a condition that holds, so no draw call is issued; and a loop over the
    meshes goes on with the next mesh. *)
Theorem RenderMesh_skips_malformed_geometry (mesh : Mesh) (w : World) :
  Disposed (geometry mesh) = true \/ VertexData (geometry mesh) = [] \/
  Attributes (geometry mesh) = [] ->
  exists warning,
    RenderMesh mesh w = Done tt w [warning] /\
    ((warning = skipped_disposed mesh /\ Disposed (geometry mesh) = true) \/
     (warning = skipped_no_data mesh /\ VertexData (geometry mesh) = []) \/
     (warning = skipped_no_attributes mesh /\ Attributes (geometry mesh) = [])) /\
    List.filter is_draw (trace_of (RenderMesh mesh w)) = [] /\
    rendered_objects_counter_ (world_of (RenderMesh mesh w)) = rendered_objects_counter_ w /\
    forall rest,
      for_each (mesh :: rest) RenderMesh w = prepend [warning] (for_each rest RenderMesh w).
Proof.
  intros Bad. destruct (RenderMesh_malformed mesh w Bad) as (warning & R & Which).
  exists warning. rewrite R.
  split; [reflexivity|]. split; [exact Which|]. split; [|split; [reflexivity|]].
  - destruct Which as [[-> _]|[[-> _]|[-> _]]]; reflexivity.
  - intros rest. simpl for_each. rewrite (bind_Done _ _ _ _ _ _ R). reflexivity.
Qed.

End OneMesh.

Lemma RenderMesh_skips_malformed_geometry_witness :
  exists warning,
    RenderMesh (H:=Demo.engine) Demo.ghost Demo.empty_world =
    Done tt Demo.empty_world [warning].
Proof.
  destruct (RenderMesh_skips_malformed_geometry (H:=Demo.engine) Demo.ghost Demo.empty_world)
    as (warning & E & _).
  - left. reflexivity.
  - exists warning. exact E.
Defined.

(** ** Culling and program resolution *)

Lemma SFcompare_Eq_sym (a c : spec_float) :
  SFcompare a c = Some Eq -> SFcompare c a = Some Eq.
Proof.
  destruct a as [s|s| |s m e], c as [s'|s'| |s' m' e']; simpl;
    try discriminate; try reflexivity;
    try (destruct s; discriminate); try (destruct s'; discriminate).
  - destruct s, s'; try discriminate; reflexivity.
  - destruct s, s'; try discriminate;
      (destruct (e ?= e') eqn:Ee; try discriminate;
       apply Z.compare_eq in Ee; subst e'; rewrite Z.compare_refl;
       destruct (Pos.compare_cont Eq m m') eqn:Em; try discriminate;
       apply Pos.compare_eq in Em; subst m'; rewrite Pos.compare_cont_refl; reflexivity).
Qed.

Lemma F32_eqb_geb (a c : float) : F32.eqb a c = true -> F32.geb a c = true.
Proof.
  unfold F32.eqb, F32.geb, SFeqb, SFleb. intros E.
  destruct (SFcompare a c) as [[]|] eqn:Q; try discriminate.
  rewrite (SFcompare_Eq_sym _ _ Q). reflexivity.
Qed.

Section Culling.

Context `{Collaborators}.

Lemma IntersectsWithSphere_spec f sphere :
  IntersectsWithSphere f sphere = true <->
  forall p, p ∈ planes f -> in_front sphere p = true.
Proof.
  unfold IntersectsWithSphere, in_front. rewrite forallb_forall.
  split; intros Q p Hp; apply Q; apply list_elem_of_In; exact Hp.
Qed.

Lemma RenderMesh_invisible mesh w :
  well_formed mesh ->
  IntersectsWithSphere (frustum_ w) (world_sphere mesh) = false ->
  RenderMesh mesh w = Done tt w [].
Proof.
  intros WF V. unfold RenderMesh.
  rewrite (bind_Done _ _ _ _ _ _ (IsValidMesh_well_formed mesh w WF)), prepend_nil.
  cbv beta iota delta [negb].
  rewrite (bind_Done _ _ _ _ _ _ (IsVisible_run mesh w)), prepend_nil, V.
  reflexivity.
Qed.

(** Up to the program: a well formed, visible mesh reaches [GetProgram]. *)
Lemma RenderMesh_resolves_program mesh w :
  well_formed mesh ->
  IntersectsWithSphere (frustum_ w) (world_sphere mesh) = true ->
  RenderMesh mesh w =
  (program ← GetProgram (ProgramAttributes_new (material mesh) (render_lists_ w) (the_scene w));
   match program with
   | None => crash NullDereference
   | Some program =>
       if negb (IsValid (target program)) then mret tt else
       emit (State_ProcessMaterial (material mesh)) ;;
       no_lights ← gets (fun w => bool_decide (lights_ (render_lists_ w) = []));
       (if lights (ProgramAttributes_new (material mesh) (render_lists_ w) (the_scene w))
           && negb no_lights
        then UpdateLights program else mret tt) ;;
       emit (Buffers_Bind (geometry mesh)) ;;
       SetUniforms program
         (ProgramAttributes_new (material mesh) (render_lists_ w) (the_scene w)) mesh ;;
       emit (State_UseProgram (Id (target program))) ;;
       emit (Program_UpdateUniforms (slot program)) ;;
       (if bool_decide (IndexData (geometry mesh) = []) then
          emit (GL_DrawArrays
                  match primitive (geometry mesh) with
                  | Triangles => GL_TRIANGLES
                  | Lines => GL_LINES
                  | LineLoop => GL_LINE_LOOP
                  end 0 (VertexCount (geometry mesh)))
        else
          emit (GL_DrawElements
                  match primitive (geometry mesh) with
                  | Triangles => GL_TRIANGLES
                  | Lines => GL_LINES
                  | LineLoop => GL_LINE_LOOP
                  end (Z.of_nat (length (IndexData (geometry mesh)))) GL_UNSIGNED_INT)) ;;
       modify (fun w => set_rendered_objects_counter_ (rendered_objects_counter_ w + 1) w)
   end) w.
Proof.
  intros WF V. unfold RenderMesh.
  rewrite (bind_Done _ _ _ _ _ _ (IsValidMesh_well_formed mesh w WF)), prepend_nil.
  cbv beta iota delta [negb].
  rewrite (bind_Done _ _ _ _ _ _ (IsVisible_run mesh w)), prepend_nil, V.
  rewrite gets_bind. reflexivity.
Qed.

(** The path the specification refers to: a program that failed to compile
    or link is skipped, with no draw call and no count. *)
Lemma RenderMesh_invalid_program mesh w h w1 t1 :
  well_formed mesh ->
  IntersectsWithSphere (frustum_ w) (world_sphere mesh) = true ->
  GetProgram (ProgramAttributes_new (material mesh) (render_lists_ w) (the_scene w)) w =
    Done (Some h) w1 t1 ->
  IsValid (target h) = false ->
  RenderMesh mesh w = Done tt w1 t1 /\ skips_draw mesh w.
Proof.
  intros WF V G I.
  assert (R : RenderMesh mesh w = Done tt w1 t1).
  { rewrite (RenderMesh_resolves_program mesh w WF V), (bind_Done _ _ _ _ _ _ G), I.
    simpl. rewrite app_nil_r. reflexivity. }
  split; [exact R|]. unfold skips_draw. rewrite R. simpl.
  destruct (GetProgram_calm (ProgramAttributes_new (material mesh) (render_lists_ w)
                               (the_scene w))) as [Q K].
  specialize (Q w). specialize (K w). rewrite G in Q, K. simpl in Q, K.
  split; [reflexivity|]. split.
  - apply (quiet_replay true t1 Q).
  - apply (f_equal snd) in K. exact K.
Qed.

(** C1 on the code: a well formed, visible mesh whose program is not cached
    and for whose attributes the shader library returns nothing. [GetProgram]
    returns the null pointer and [RenderMesh] calls [IsValid] through it:
    the draw is not skipped as for an invalid program, the run stops there,
    and so does the loop over the meshes that follow. *)
Theorem RenderMesh_dereferences_null_program (mesh : Mesh) (w : World) :
  well_formed mesh ->
  IntersectsWithSphere (frustum_ w) (world_sphere mesh) = true ->
  programs_ w !! key (ProgramAttributes_new (material mesh) (render_lists_ w) (the_scene w))
    = None ->
  GetShaderSource (ProgramAttributes_new (material mesh) (render_lists_ w) (the_scene w))
    = [] ->
  RenderMesh mesh w =
    Crash NullDereference w
      [ShaderLib_GetShaderSource
         (ProgramAttributes_new (material mesh) (render_lists_ w) (the_scene w))] /\
  ~ skips_draw mesh w /\
  forall rest, crashed (for_each (mesh :: rest) RenderMesh w) = true.
Proof.
  intros WF V C S.
  assert (R : RenderMesh mesh w =
              Crash NullDereference w
                [ShaderLib_GetShaderSource
                   (ProgramAttributes_new (material mesh) (render_lists_ w) (the_scene w))]).
  { rewrite (RenderMesh_resolves_program mesh w WF V).
    rewrite (bind_Done _ _ _ _ _ _ (GetProgram_miss_no_source _ w C S)).
    simpl. reflexivity. }
  split; [exact R|]. split.
  - unfold skips_draw. rewrite R. simpl. intros (Q & _). discriminate Q.
  - intros rest. simpl for_each. rewrite (bind_Crash _ _ _ _ _ _ R). reflexivity.
Qed.

(** C9. Modelled from the spec: [IntersectsWithSphere]. [IsVisible] returns,
    with no call and no change, the answer of the frustum test on the
    bounding sphere moved by the world transform of the mesh; the answer is
    true exactly when the sphere is in front of every one of the six
    planes, a signed distance equal to minus the radius counts as in front,
    and one plane with the sphere behind it makes the answer false and the
    mesh skipped. *)
Theorem IsVisible_iff_in_front_of_every_plane (mesh : Mesh) (w : World) :
  let sphere := world_sphere mesh in
  let visible := IntersectsWithSphere (frustum_ w) sphere in
  IsVisible mesh w = Done visible w [] /\
  length (planes (frustum_ w)) = 6%nat /\
  (visible = true <->
   forall p, p ∈ planes (frustum_ w) ->
     F32.leb (F32.opp (radius sphere)) (DistanceToPoint p (center sphere)) = true) /\
  (forall p, F32.eqb (DistanceToPoint p (center sphere)) (F32.opp (radius sphere)) = true ->
     in_front sphere p = true) /\
  (forall p, p ∈ planes (frustum_ w) -> in_front sphere p = false ->
     visible = false /\ skips_draw mesh w).
Proof.
  intros sphere visible.
  split; [reflexivity|]. split; [reflexivity|]. split; [|split].
  - apply IntersectsWithSphere_spec.
  - intros p E. apply F32_eqb_geb. exact E.
  - intros p Hp Hbehind.
    assert (V : visible = false).
    { destruct visible eqn:V; [|reflexivity].
      pose proof (proj1 (IntersectsWithSphere_spec _ _) V p Hp) as Q.
      congruence. }
    split; [exact V|].
    destruct (Disposed (geometry mesh)) eqn:D;
      [|destruct (VertexData (geometry mesh)) as [|x xs] eqn:VD;
        [|destruct (Attributes (geometry mesh)) as [|a l] eqn:AT]].
    + destruct (RenderMesh_malformed mesh w) as (e & R & [[-> _]|[[-> _]|[-> _]]]);
        [auto| | |]; unfold skips_draw; rewrite R; auto.
    + destruct (RenderMesh_malformed mesh w) as (e & R & [[-> _]|[[-> _]|[-> _]]]);
        [auto| | |]; unfold skips_draw; rewrite R; auto.
    + destruct (RenderMesh_malformed mesh w) as (e & R & [[-> _]|[[-> _]|[-> _]]]);
        [auto| | |]; unfold skips_draw; rewrite R; auto.
    + unfold skips_draw. rewrite (RenderMesh_invisible mesh w); [auto| |exact V].
      unfold well_formed. rewrite D, VD, AT. auto.
Qed.

End Culling.

Lemma RenderMesh_dereferences_null_program_witness :
  RenderMesh (H:=Demo.engine) Demo.gizmo Demo.empty_world =
  Crash NullDereference Demo.empty_world [ShaderLib_GetShaderSource Demo.custom_attrs].
Proof.
  apply (proj1 (RenderMesh_dereferences_null_program (H:=Demo.engine)
                  Demo.gizmo Demo.empty_world
                  (conj eq_refl (conj (fun E => nil_cons (eq_sym E))
                                      (fun E => nil_cons (eq_sym E))))
                  eq_refl eq_refl eq_refl)).
Defined.

Lemma IsVisible_iff_in_front_of_every_plane_witness :
  IntersectsWithSphere (H:=Demo.engine) (frustum_ Demo.empty_world)
    (world_sphere (H:=Demo.engine) Demo.far_away) = false /\
  skips_draw (H:=Demo.engine) Demo.far_away Demo.empty_world.
Proof.
  apply (proj2 (proj2 (proj2 (proj2
           (IsVisible_iff_in_front_of_every_plane (H:=Demo.engine)
              Demo.far_away Demo.empty_world))))
           (plane_right (frustum_ Demo.empty_world))).
  - apply list_elem_of_further, list_elem_of_here.
  - vm_compute. reflexivity.
Defined.

(** A sphere that touches a plane from behind: the centre is two units
    outside the right plane, the radius is two, the signed distance is
    exactly minus the radius, and the mesh is visible. *)
Example touching_sphere_is_visible :
  let sphere := mkSphere (Vector3.mk (F32.of_Z 3) F32.zero F32.zero) Demo.f2 in
  Demo.plane_distance (plane_right (Demo.unit_cube Demo.identity4)) (center sphere) =
    F32.opp (radius sphere) /\
  IntersectsWithSphere (H:=Demo.engine) (Demo.unit_cube Demo.identity4) sphere = true.
Proof. vm_compute. auto. Qed.

(** ** Frames *)

Section Frame.

Context `{Collaborators}.

Lemma draws_at_most_once_calm mesh (m : M unit) :
  calm m -> draws_at_most_once mesh m.
Proof.
  intros [Q K] w mask. simpl. specialize (Q w). specialize (K w).
  destruct (quiet_replay mask _ Q) as (D & A & _).
  split; [exact (f_equal fst K)|]. split; [exact A|].
  left. split; [exact D | exact (f_equal snd K)].
Qed.

Lemma draws_at_most_once_bind {A} mesh (m : M A) (k : A -> M unit) :
  calm m -> (forall a, draws_at_most_once mesh (k a)) ->
  draws_at_most_once mesh (m ≫= k).
Proof.
  intros [Q K] Hk w mask. simpl. rewrite trace_of_bind, world_of_bind.
  specialize (Q w). specialize (K w).
  destruct (quiet_replay mask _ Q) as (D & Am & _).
  rewrite draws_with_depth_mask_app, depth_mask_after_app, D, Am.
  pose proof (f_equal fst K) as Kf. pose proof (f_equal snd K) as Kc.
  simpl in Kf, Kc.
  destruct (m w) as [a w1 t1|why w1 t1]; simpl in *.
  - destruct (Hk a w1 mask) as (F & M' & C).
    rewrite F, M', Kf, <- Kc. auto.
  - auto.
Qed.

Lemma draw_then_count mesh :
  draws_at_most_once mesh
    ((if bool_decide (IndexData (geometry mesh) = []) then
        emit (GL_DrawArrays
                match primitive (geometry mesh) with
                | Triangles => GL_TRIANGLES
                | Lines => GL_LINES
                | LineLoop => GL_LINE_LOOP
                end 0 (VertexCount (geometry mesh)))
      else
        emit (GL_DrawElements
                match primitive (geometry mesh) with
                | Triangles => GL_TRIANGLES
                | Lines => GL_LINES
                | LineLoop => GL_LINE_LOOP
                end (Z.of_nat (length (IndexData (geometry mesh)))) GL_UNSIGNED_INT)) ;;
     modify (fun w => set_rendered_objects_counter_ (rendered_objects_counter_ w + 1) w)).
Proof.
  intros w mask. unfold DrawCall.
  destruct (bool_decide (IndexData (geometry mesh) = [])); simpl; auto.
Qed.

Ltac calm_tac :=
  first [ apply GetProgram_calm | apply UpdateLights_calm | apply SetUniforms_calm
        | apply IsValidMesh_calm | apply IsVisible_calm
        | solve [split; walk] ].

Lemma RenderMesh_draws_at_most_once mesh : draws_at_most_once mesh (RenderMesh mesh).
Proof.
  unfold RenderMesh.
  apply draws_at_most_once_bind; [calm_tac | intros valid].
  destruct valid; cbv [negb]; [|apply draws_at_most_once_calm; calm_tac].
  apply draws_at_most_once_bind; [calm_tac | intros visible].
  destruct visible; cbv [negb]; [|apply draws_at_most_once_calm; calm_tac].
  apply draws_at_most_once_bind; [calm_tac | intros attrs].
  apply draws_at_most_once_bind; [calm_tac | intros [program|]];
    [|apply draws_at_most_once_calm; calm_tac].
  destruct (IsValid (target program)); cbv [negb];
    [|apply draws_at_most_once_calm; calm_tac].
  apply draws_at_most_once_bind; [calm_tac | intros _].
  apply draws_at_most_once_bind; [calm_tac | intros no_lights].
  apply draws_at_most_once_bind;
    [match goal with |- calm (if ?c then _ else _) => destruct c end; calm_tac | intros _].
  apply draws_at_most_once_bind; [calm_tac | intros _].
  apply draws_at_most_once_bind; [calm_tac | intros _].
  apply draws_at_most_once_bind; [calm_tac | intros _].
  apply draws_at_most_once_bind; [calm_tac | intros _].
  apply draw_then_count.
Qed.



Lemma for_each_RenderMesh_in_order ms w mask :
  let o := for_each ms RenderMesh w in
  frame (world_of o) = frame w /\
  depth_mask_after mask (trace_of o) = mask /\
  exists drawn,
    sublist drawn ms /\
    draws_with_depth_mask mask (trace_of o) = (fun m => (DrawCall m, mask)) <$> drawn /\
    rendered_objects_counter_ (world_of o) =
      rendered_objects_counter_ w + Z.of_nat (length drawn).
Proof.
  revert w. induction ms as [|m ms IH]; intros w; simpl.
  - split; [reflexivity|]. split; [reflexivity|]. exists []. 
    split; [constructor|]. split; [reflexivity|]. simpl. lia.
  - rewrite trace_of_bind, world_of_bind.
    destruct (RenderMesh_draws_at_most_once m w mask) as (F & A & D).
    rewrite draws_with_depth_mask_app, depth_mask_after_app, A.
    destruct (RenderMesh m w) as [[] w1 t1|why w1 t1]; simpl in *.
    + destruct (IH w1) as (F' & A' & drawn & S & D' & C').
      split; [congruence|]. split; [exact A'|].
      destruct D as [[D C]|[D C]]; rewrite D.
      * exists drawn. split; [apply sublist_cons; exact S|]. split; [exact D'|]. lia.
      * exists (m :: drawn). split; [apply sublist_skip; exact S|].
        split; [simpl; rewrite D'; reflexivity|]. simpl length. lia.
    + split; [exact F|]. split; [reflexivity|].
      destruct D as [[D C]|[D C]]; rewrite D.
      * exists []. split; [apply sublist_nil_l|]. split; [reflexivity|]. simpl. lia.
      * exists [m]. split; [apply sublist_skip, sublist_nil_l|].
        split; [reflexivity|]. simpl length. lia.
Qed.


Ltac unfold_pipeline :=
  unfold RenderObjects, RenderMesh, IsValidMesh, IsVisible, GetProgram, programs_get,
    UpdateLights, UpdateLights_loop, UpdateLights_body, light_uniforms_at,
    SetUniforms, SetUniforms_texture.

Lemma RenderObjects_never_rebuilds :
  emits_only (fun e => is_rebuild e = false) RenderObjects.
Proof. unfold_pipeline. walk. Qed.

Lemma RenderObjects_keeps_lists_and_scene :
  keeps (fun w => (render_lists_ w, the_scene w)) RenderObjects.
Proof. unfold_pipeline. walk. Qed.

Lemma filter_is_rebuild_none t :
  Forall (fun e => is_rebuild e = false) t -> List.filter is_rebuild t = [].
Proof. induction 1 as [|e t He _ IH]; simpl; [|rewrite He]; auto. Qed.

(** C8. [Render] calls [ProcessScene] exactly when the flag of the scene is
    raised at the test, that is after [UpdateTransformHierarchy], and then
    once; the scene it leaves has the flag down; with the flag down at the
    test the render lists of the renderer are the ones it had before the
    call, and with the flag raised they are the rebuilt ones. *)
Theorem Render_rebuilds_iff_touched (w : World) :
  let o := Render w in
  let scene := UpdateTransformHierarchy (the_scene w) in
  List.filter is_rebuild (trace_of o) =
    (if touched_ scene then [RenderLists_ProcessScene] else []) /\
  (RenderLists_ProcessScene ∈ trace_of o <-> touched_ scene = true) /\
  touched_ (the_scene (world_of o)) = false /\
  (touched_ scene = true ->
     render_lists_ (world_of o) = ProcessScene (render_lists_ w) scene /\
     the_scene (world_of o) = set_touched_ false scene) /\
  (touched_ scene = false ->
     render_lists_ (world_of o) = render_lists_ w /\ the_scene (world_of o) = scene).
Proof.
  intros o scene.
  assert (Q : exists w1,
             o = prepend ([GL_Clear (Z.lor GL_COLOR_BUFFER_BIT GL_DEPTH_BUFFER_BIT);
                           Scene_UpdateTransformHierarchy; Camera_SetViewTransform] ++
                          (if touched_ scene then [RenderLists_ProcessScene] else []))
                         (RenderObjects w1) /\
             render_lists_ w1 =
               (if touched_ scene then ProcessScene (render_lists_ w) scene
                else render_lists_ w) /\
             the_scene w1 = (if touched_ scene then set_touched_ false scene else scene)).
  { subst o. unfold Render. step. simpl the_scene. fold scene.
    destruct (touched_ scene) eqn:T;
      repeat first [rewrite bind_assoc | progress step];
      rewrite ?prepend_prepend; eexists;
      (split; [reflexivity|]); split; reflexivity. }
  destruct Q as (w1 & -> & L & S).
  rewrite trace_of_prepend, world_of_prepend.
  pose proof (RenderObjects_never_rebuilds w1) as N.
  pose proof (RenderObjects_keeps_lists_and_scene w1) as K.
  injection K as KL KS. rewrite KL, KS, L, S.
  rewrite List.filter_app, (filter_is_rebuild_none _ N), app_nil_r.
  split; [destruct (touched_ scene); reflexivity|]. split.
  - rewrite elem_of_app. split.
    + intros [I|I].
      * destruct (touched_ scene); [reflexivity|].
        simpl in I. repeat (apply elem_of_cons in I as [I|I]; [discriminate I|]).
        apply elem_of_nil in I. contradiction.
      * rewrite Forall_forall in N. specialize (N _ I). discriminate N.
    + intros ->. left. simpl. here_or_further.
  - split; [destruct (touched_ scene) eqn:T; [reflexivity|exact T]|].
    split; intros ->; auto.
Qed.
End Frame.


Lemma Render_rebuilds_iff_touched_witness :
  render_lists_ (world_of (Render (H:=Demo.engine) Demo.fresh_world)) =
  Demo.process_scene Demo.no_lists (the_scene Demo.fresh_world).
Proof.
  apply (proj1 (proj1 (proj2 (proj2 (proj2
           (Render_rebuilds_iff_touched (H:=Demo.engine) Demo.fresh_world)))) eq_refl)).
Defined.

(** The end-to-end case of the specification on the concrete engine: an
    opaque flat triangle and a transparent Phong mesh give two draw calls,
    the opaque one first with depth writes on, the transparent one second
    with depth writes off, and two programs. *)
Example frame_of_two_meshes :
  draws_with_depth_mask true (trace_of (Render (H:=Demo.engine) Demo.fresh_world)) =
    [(GL_DrawArrays GL_TRIANGLES 0 3, true); (GL_DrawElements GL_LINES 4 GL_UNSIGNED_INT, false)] /\
  depth_mask_after true (trace_of (Render (H:=Demo.engine) Demo.fresh_world)) = true /\
  length (List.filter is_compile (trace_of (Render (H:=Demo.engine) Demo.fresh_world))) = 2%nat /\
  rendered_objects_per_frame_ (world_of (Render (H:=Demo.engine) Demo.fresh_world)) = 2.
Proof. vm_compute. auto. Qed.

(** ** The uniforms of a mesh *)

Section MoreUniforms.

Context `{Collaborators}.

Lemma for_each_emit {A} (f : A -> Event) (l : list A) w :
  for_each l (fun a => emit (f a)) w = Done tt w (f <$> l).
Proof.
  induction l as [|a l IH]; [reflexivity|].
  simpl for_each. rewrite emit_bind, IH. reflexivity.
Qed.

Lemma for_each_upload p (l : list (string * UniformValue)) w :
  for_each l (fun '(name, value) => emit (Program_SetUniform (slot p) name value)) w =
  Done tt w (upload p <$> l).
Proof.
  rewrite <- (for_each_emit (upload p)).
  induction l as [|[n v] l IH]; [reflexivity|].
  simpl for_each. rewrite !emit_bind, IH. reflexivity.
Qed.


Ltac run_uniforms :=
  unfold SetUniforms, SetUniforms_texture; step;
  destruct (fog (the_scene _)) as [[? ? ?|? ?]|];
  repeat first [rewrite bind_assoc | progress step].

Ltac all_false :=
  repeat (constructor; [reflexivity|]);
  first [ constructor
        | apply Forall_fmap, Forall_forall; intros [? ?] _; reflexivity ].

(** The outcome of [SetUniforms]: it changes nothing in the world; it
    returns when the attributes fit the material and stops otherwise. *)
Lemma SetUniforms_outcome p attrs mesh w :
  world_of (SetUniforms p attrs mesh w) = w /\
  crashed (SetUniforms p attrs mesh w) = negb (attrs_fit attrs (material mesh)) /\
  (type attrs <> Material_GetType (material mesh) ->
     exists t, SetUniforms p attrs mesh w = Crash BadDowncast w t) /\
  (type attrs = Material_GetType (material mesh) ->
   attrs_fit attrs (material mesh) = false ->
     exists t, SetUniforms p attrs mesh w = Crash NullDereference w t /\
               last t = Some (Program_SetUniform (slot p) "u_TextureMap" (UInt 0))).
Proof.
  unfold attrs_fit, Material_GetType. run_uniforms;
    destruct (type attrs); destruct (fields (material mesh)) as [fc [tx|]|pc ps sh [tx|]|vs fs us];
    repeat first [rewrite bind_assoc | progress step]; rewrite ?for_each_upload;
    try destruct (directional_lights attrs || point_lights attrs || spot_lights attrs);
    try destruct (flat_shaded attrs); try destruct (texture_map attrs);
    run_all; cbn [orb bool_decide];
    (split; [reflexivity|]); (split; [reflexivity|]);
    (split; intros; try congruence; try discriminate; eauto).
Qed.

Lemma SetUniforms_fit_returns p attrs mesh w :
  attrs_fit attrs (material mesh) = true ->
  SetUniforms p attrs mesh w = Done tt w (trace_of (SetUniforms p attrs mesh w)).
Proof.
  intros F. destruct (SetUniforms_outcome p attrs mesh w) as (W & C & _).
  rewrite F in C. destruct (SetUniforms p attrs mesh w) as [[] w' t|]; [|discriminate].
  simpl in *. congruence.
Qed.

(** X1. [SetUniforms] leaves the world as it is, and it returns exactly
    when the attributes fit the material of the mesh. When the type tag of
    the attributes is not the dynamic type of the material, the static cast
    is to the wrong type; when the tag is right and the texture flag is set
    on a material without a texture, the last call made is the upload of
    [u_TextureMap], followed by the dereference of the null texture. *)
Theorem SetUniforms_returns_iff_attrs_fit (p : Handle) (attrs : ProgramAttributes)
    (mesh : Mesh) (w : World) :
  world_of (SetUniforms p attrs mesh w) = w /\
  crashed (SetUniforms p attrs mesh w) = negb (attrs_fit attrs (material mesh)) /\
  (type attrs <> Material_GetType (material mesh) ->
     exists t, SetUniforms p attrs mesh w = Crash BadDowncast w t) /\
  (type attrs = Material_GetType (material mesh) ->
   attrs_fit attrs (material mesh) = false ->
     exists t, SetUniforms p attrs mesh w = Crash NullDereference w t /\
               last t = Some (Program_SetUniform (slot p) "u_TextureMap" (UInt 0))).
Proof. apply SetUniforms_outcome. Qed.


(** X3. Attributes of type flat on a flat material: [u_Color] is uploaded
    with the color of the material and none of the Phong uniforms is
    written; with the texture flag set [u_TextureMap] is uploaded and, when
    the material has a texture, its transform is uploaded and it is bound;
    with the flag down no texture uniform is written and nothing is bound. *)
Theorem SetUniforms_Flat (p : Handle) (attrs : ProgramAttributes) (mesh : Mesh)
    (w : World) (color : Color) (texture : option Texture2D) :
  type attrs = FlatMaterial ->
  fields (material mesh) = Flat color texture ->
  let t := trace_of (SetUniforms p attrs mesh w) in
  Program_SetUniform (slot p) "u_Color" (UColor color) ∈ t /\
  Forall (fun e => sets_any phong_only e = false) t /\
  (texture_map attrs = true ->
     Program_SetUniform (slot p) "u_TextureMap" (UInt 0) ∈ t /\
     forall tex, texture = Some tex ->
       Program_SetUniform (slot p) "u_TextureTransform" (UMatrix3 (GetTransform tex)) ∈ t /\
       Textures_Bind tex ∈ t) /\
  (texture_map attrs = false ->
     Forall (fun e => sets_uniform "u_TextureMap" e = false /\
                      sets_uniform "u_TextureTransform" e = false /\
                      is_texture_bind e = false) t).
Proof.
  intros Ht Hf. run_uniforms; rewrite Ht, Hf;
    repeat first [rewrite bind_assoc | progress step];
    destruct (texture_map attrs); destruct texture;
    run_all;
    (repeat split; try discriminate; intros;
     repeat match goal with
            | E : Some _ = Some _ |- _ => injection E as <-
            | |- _ /\ _ => split
            end;
     try discriminate;
     first [solve [here_or_further] | solve [all_false]
           | solve [repeat (constructor; [repeat split; reflexivity|]); constructor]]).
Qed.

(** X4. Attributes of type shader on a shader material: the call returns;
    its calls are those of the built-in uniforms, none of them a
    [SetUniform], followed by one [SetUniform] per uniform of the material,
    in the order of the iteration, with its name and value. *)
Theorem SetUniforms_Shader_uploads_user_uniforms (p : Handle) (attrs : ProgramAttributes)
    (mesh : Mesh) (w : World) (vs fs : string) (uniforms : list (string * UniformValue)) :
  type attrs = ShaderMaterial ->
  fields (material mesh) = Shader vs fs uniforms ->
  exists builtin,
    SetUniforms p attrs mesh w = Done tt w (builtin ++ (upload p <$> uniforms)) /\
    Forall (fun e => is_set_uniform e = false) builtin.
Proof.
  intros Ht Hf. run_uniforms; rewrite Ht, Hf;
    repeat first [rewrite bind_assoc | progress step]; rewrite for_each_upload;
    rewrite ?prepend_prepend; cbv [prepend];
    (eexists; split; [reflexivity|]); simpl; all_false.
Qed.

End MoreUniforms.

Lemma SetUniforms_Flat_witness :
  Program_SetUniform "flat" "u_Color" (UColor Demo.white) ∈
    trace_of (SetUniforms (H:=Demo.engine) Sample.flat_handle Demo.flat_attrs Demo.wall
                Demo.empty_world).
Proof.
  exact (proj1 (SetUniforms_Flat (H:=Demo.engine) Sample.flat_handle Demo.flat_attrs
                  Demo.wall Demo.empty_world Demo.white None eq_refl eq_refl)).
Defined.

Lemma SetUniforms_Shader_uploads_user_uniforms_witness :
  exists builtin,
    SetUniforms (H:=Demo.engine) Sample.shader_handle Sample.tinted_attrs Sample.banner
      Demo.empty_world =
    Done tt Demo.empty_world
      (builtin ++ [Program_SetUniform "shader" "u_Tint" (UColor Demo.grey);
                   Program_SetUniform "shader" "u_Gain" (UFloat Demo.half)]) /\
    Forall (fun e => is_set_uniform e = false) builtin.
Proof.
  exact (SetUniforms_Shader_uploads_user_uniforms (H:=Demo.engine) Sample.shader_handle
           Sample.tinted_attrs Sample.banner Demo.empty_world "void main() {}"
           "void main() {}"
           [("u_Tint", UColor Demo.grey); ("u_Gain", UFloat Demo.half)] eq_refl eq_refl).
Defined.

(** ** The slots of the lights *)

Section Slots.

Context `{Collaborators}.

Lemma app_same_length_prefix (u1 u2 m1 m2 : string) :
  String.length u1 = String.length u2 -> u1 +:+ m1 = u2 +:+ m2 -> u1 = u2.
Proof.
  revert u2. induction u1 as [|a u1 IH]; intros [|c u2]; simpl; try discriminate.
  - reflexivity.
  - intros [= L] [= -> E]. f_equal. eapply IH; eassumption.
Qed.

Lemma light_uniforms_NoDup : NoDup light_uniforms.
Proof. apply (bool_decide_unpack (NoDup light_uniforms)). vm_compute. exact I. Qed.

Lemma light_uniforms_length i u :
  light_uniforms !! i = Some u -> String.length u = 11%nat.
Proof.
  intros E. apply list_elem_of_lookup_2 in E. unfold light_uniforms in E.
  repeat (apply elem_of_cons in E as [-> | E]; [reflexivity|]).
  apply elem_of_nil in E. contradiction.
Qed.

Lemma slots_apart i j ui uj mi mj :
  light_uniforms !! i = Some ui -> light_uniforms !! j = Some uj -> i <> j ->
  ui +:+ mi <> uj +:+ mj.
Proof.
  intros Ei Ej N E. apply N.
  apply app_same_length_prefix in E;
    [|rewrite (light_uniforms_length _ _ Ei), (light_uniforms_length _ _ Ej); reflexivity].
  subst uj. eapply NoDup_lookup; [apply light_uniforms_NoDup| |]; eassumption.
Qed.

Lemma UpdateLights_body_positional p s l w uniform :
  light_uniforms !! idx s = Some uniform -> is_ambient l = false ->
  exists t,
    UpdateLights_body p s l w = Done (mkLightLoop (ambient_light s) (S (idx s))) w t /\
    Program_SetUniform (slot p) (uniform +:+ ".Type")
      (UInt (LightType_underlying (Light_GetType l))) ∈ t /\
    Program_SetUniform (slot p) (uniform +:+ ".Color")
      (UColor (Color_scale (color l) (intensity l))) ∈ t.
Proof.
  intros E A. rewrite is_ambient_fields in A.
  unfold UpdateLights_body, light_uniforms_at. step. rewrite E. step.
  unfold Light_GetType.
  destruct (light_fields l); try discriminate; simpl; step; simpl;
    eexists; (split; [reflexivity|]); split; here_or_further.
Qed.

Lemma UpdateLights_loop_slots p ls : forall s w s' w' t k l,
  UpdateLights_loop p ls s w = Done s' w' t ->
  ls !! k = Some l -> is_ambient l = false ->
  exists uniform,
    light_uniforms !! (idx s + length (positional (take k ls)))%nat = Some uniform /\
    Program_SetUniform (slot p) (uniform +:+ ".Type")
      (UInt (LightType_underlying (Light_GetType l))) ∈ t /\
    Program_SetUniform (slot p) (uniform +:+ ".Color")
      (UColor (Color_scale (color l) (intensity l))) ∈ t.
Proof.
  unfold UpdateLights_loop.
  induction ls as [|l0 ls IH]; intros s w s' w' t k l R Hk A; [discriminate|].
  simpl for_each_with in R.
  destruct (le_lt_dec 9 (idx s)) as [Hge|Hlt].
  { rewrite (bind_Crash _ _ _ _ _ _ (UpdateLights_body_out_of_range p s l0 w Hge)) in R.
    discriminate. }
  destruct (UpdateLights_body_in_range p s l0 w Hlt) as (t0 & E0 & _).
  rewrite (bind_Done _ _ _ _ _ _ E0) in R.
  destruct k as [|k]; simpl in Hk.
  - injection Hk as ->. destruct (light_uniforms_in_range _ Hlt) as [u Eu].
    destruct (UpdateLights_body_positional p s l w u Eu A) as (t1 & E1 & T1 & C1).
    assert (t0 = t1) as -> by congruence.
    exists u. simpl. rewrite Nat.add_0_r. split; [exact Eu|].
    destruct (for_each_with ls _ _ w) as [s2 w2 t2|]; [|discriminate].
    simpl in R. assert (t = t1 ++ t2) as -> by congruence.
    split; apply elem_of_app; left; assumption.
  - match type of R with prepend _ (for_each_with _ ?s1 _ _) = _ =>
      destruct (for_each_with ls s1 (UpdateLights_body p) w) as [s2 w2 t2|] eqn:R2;
        [|discriminate];
      destruct (IH s1 w s2 w2 t2 k l R2 Hk A) as (u & Eu & T & C)
    end.
    simpl in R. assert (t = t0 ++ t2) as -> by congruence.
    exists u. split.
    + rewrite <- Eu. f_equal. simpl. unfold positional. simpl.
      destruct (is_ambient l0); simpl; lia.
    + split; apply elem_of_app; right; assumption.
Qed.

(** X5. When [UpdateLights] returns, the light at position [k] of the list,
    if it is not ambient, has written its type and its color scaled by its
    intensity to the slot whose index is the number of non-ambient lights
    before it: ambient lights take no slot. *)
Theorem UpdateLights_slot_of_each_light (p : Handle) (w w' : World) (t : list Event)
    (k : nat) (l : Light) :
  UpdateLights p w = Done tt w' t ->
  lights_ (render_lists_ w) !! k = Some l ->
  is_ambient l = false ->
  exists uniform,
    light_uniforms !! length (positional (take k (lights_ (render_lists_ w)))) = Some uniform /\
    Program_SetUniform (slot p) (uniform +:+ ".Type")
      (UInt (LightType_underlying (Light_GetType l))) ∈ t /\
    Program_SetUniform (slot p) (uniform +:+ ".Color")
      (UColor (Color_scale (color l) (intensity l))) ∈ t.
Proof.
  intros R Hk A. unfold UpdateLights in R. rewrite gets_bind, bind_run in R.
  match type of R with match UpdateLights_loop p ?ls ?s0 w with _ => _ end = _ =>
    destruct (UpdateLights_loop p ls s0 w) as [s1 w1 t1|] eqn:R1; [|discriminate];
    destruct (UpdateLights_loop_slots p ls s0 w s1 w1 t1 k l R1 Hk A) as (u & Eu & T & C)
  end.
  simpl in R.
  match type of R with Done _ _ ?t' = _ => assert (t = t') as -> by congruence end.
  exists u. split; [exact Eu|]. split; apply elem_of_app; left; assumption.
Qed.

Lemma ambient_name_is_no_slot uniform member :
  uniform ∈ light_uniforms -> "u_AmbientLight" <> uniform +:+ member.
Proof.
  intros Hin. unfold light_uniforms in Hin.
  repeat (apply elem_of_cons in Hin as [-> | Hin]; [discriminate|]).
  apply elem_of_nil in Hin. contradiction.
Qed.

Lemma UpdateLights_loop_leaves_slot p j uniform ls : forall s w,
  light_uniforms !! j = Some uniform ->
  (idx s + length (positional ls) <= j)%nat ->
  Forall (fun e => ~ writes_slot p uniform e) (trace_of (UpdateLights_loop p ls s w)).
Proof.
  unfold UpdateLights_loop.
  induction ls as [|l ls IH]; intros s w Ej L; [constructor|].
  simpl for_each_with.
  destruct (le_lt_dec 9 (idx s)) as [Hge|Hlt].
  { rewrite (bind_Crash _ _ _ _ _ _ (UpdateLights_body_out_of_range p s l w Hge)).
    constructor. }
  destruct (UpdateLights_body_in_range p s l w Hlt) as (t0 & E0 & T0).
  destruct (light_uniforms_in_range _ Hlt) as [u Eu].
  pose proof (UpdateLights_body_writes_its_slot p s l u Eu w) as Q. rewrite E0 in Q.
  simpl in Q. rewrite (bind_Done _ _ _ _ _ _ E0), trace_of_prepend.
  unfold positional in L. simpl in L.
  apply Forall_app. split.
  - destruct (is_ambient l) eqn:A; [rewrite (T0 eq_refl); constructor|].
    simpl in L. eapply Forall_impl; [exact Q|].
    intros e (m & v & ->) (m' & v' & [= E]).
    apply (slots_apart (idx s) j u uniform m m' Eu Ej); [lia|exact E].
  - apply IH; [exact Ej|]. simpl. unfold positional.
    destruct (is_ambient l); simpl in *; lia.
Qed.

(** X6. No call of [UpdateLights], returning or not, writes a member of a
    slot whose index is at least the number of non-ambient lights, and the
    upload of [u_AmbientLight] is no such write. *)
Theorem UpdateLights_leaves_unused_slots (p : Handle) (w : World) (j : nat)
    (uniform : string) :
  light_uniforms !! j = Some uniform ->
  (length (positional (lights_ (render_lists_ w))) <= j)%nat ->
  Forall (fun e => ~ writes_slot p uniform e) (trace_of (UpdateLights p w)).
Proof.
  intros Ej L. unfold UpdateLights. rewrite gets_bind, trace_of_bind.
  apply Forall_app. split.
  - apply UpdateLights_loop_leaves_slot with (j := j); [exact Ej|exact L].
  - destruct (UpdateLights_loop _ _ _ w); [|constructor]. simpl.
    constructor; [|constructor]. intros (m & v & [= E]).
    eapply ambient_name_is_no_slot; [|exact E].
    eapply list_elem_of_lookup_2. exact Ej.
Qed.

Lemma table_indices_length i ls : length (table_indices i ls) = length ls.
Proof. revert i. induction ls as [|l ls IH]; intros i; simpl; [|rewrite IH]; reflexivity. Qed.

(** X7. [UpdateLights] returns exactly when every light of the list, ambient
    or not, has fewer than nine non-ambient lights before it: the slot name
    is looked up at the top of every iteration. *)
Theorem UpdateLights_returns_iff (p : Handle) (w : World) :
  crashed (UpdateLights p w) = false <->
  forall k, (k < length (lights_ (render_lists_ w)))%nat ->
    (length (positional (take k (lights_ (render_lists_ w)))) < 9)%nat.
Proof.
  set (ls := lights_ (render_lists_ w)).
  assert (Q : Forall (fun i => (i < 9)%nat) (table_indices 0 ls) <->
              forall k, (k < length ls)%nat -> (length (positional (take k ls)) < 9)%nat).
  { rewrite Forall_lookup. split.
    - intros F k Hk. apply (F k). rewrite table_indices_lookup by exact Hk. reflexivity.
    - intros F k i E.
      assert (Hk : (k < length ls)%nat).
      { rewrite <- (table_indices_length 0). eapply lookup_lt_Some. exact E. }
      rewrite table_indices_lookup in E by exact Hk. injection E as <-. apply F, Hk. }
  rewrite <- Q. unfold UpdateLights. rewrite gets_bind. fold ls.
  destruct (UpdateLights_loop_run p ls (mkLightLoop (mkColor F32.zero F32.zero F32.zero) 0) w)
    as [Hok Hko].
  simpl idx in Hok, Hko.
  destruct (decide (Forall (fun i => (i < 9)%nat) (table_indices 0 ls))) as [F|N].
  - destruct (Hok F) as (t0 & E0). rewrite (bind_Done _ _ _ _ _ _ E0). simpl. tauto.
  - destruct (Hko N) as (i & t0 & E0 & _). rewrite (bind_Crash _ _ _ _ _ _ E0). simpl.
    split; [discriminate|contradiction].
Qed.

End Slots.

Lemma UpdateLights_slot_of_each_light_witness :
  exists uniform,
    light_uniforms !! 0%nat = Some uniform /\
    Program_SetUniform "phong" (uniform +:+ ".Type")
      (UInt (Demo.light_tag DirectionalLight)) ∈
      trace_of (UpdateLights (H:=Demo.engine) Demo.phong_handle Demo.sunlit_world) /\
    Program_SetUniform "phong" (uniform +:+ ".Color") (UColor Demo.white) ∈
      trace_of (UpdateLights (H:=Demo.engine) Demo.phong_handle Demo.sunlit_world).
Proof.
  apply (UpdateLights_slot_of_each_light (H:=Demo.engine) Demo.phong_handle
           Demo.sunlit_world Demo.sunlit_world
           (trace_of (UpdateLights (H:=Demo.engine) Demo.phong_handle Demo.sunlit_world))
           1%nat Demo.sun).
  - vm_compute. reflexivity.
  - reflexivity.
  - reflexivity.
Defined.

Lemma UpdateLights_leaves_unused_slots_witness :
  Forall (fun e => ~ writes_slot Demo.phong_handle "u_Lights[1]" e)
    (trace_of (UpdateLights (H:=Demo.engine) Demo.phong_handle Demo.sunlit_world)).
Proof.
  apply (UpdateLights_leaves_unused_slots (H:=Demo.engine) Demo.phong_handle
           Demo.sunlit_world 1%nat "u_Lights[1]").
  - reflexivity.
  - vm_compute. lia.
Defined.

(** ** One mesh, from the program to the draw call *)

Section MeshRuns.

Context `{Collaborators}.

Lemma GetProgram_keeps_frame attrs w a w1 t1 :
  GetProgram attrs w = Done a w1 t1 ->
  frame w1 = frame w /\ rendered_objects_counter_ w1 = rendered_objects_counter_ w.
Proof.
  intros G. destruct (GetProgram_calm attrs) as [_ K]. specialize (K w).
  rewrite G in K. simpl in K. split; [exact (f_equal fst K)|exact (f_equal snd K)].
Qed.

Lemma frame_lists w1 w : frame w1 = frame w -> render_lists_ w1 = render_lists_ w.
Proof. intros F. exact (f_equal (fun x => fst (fst (fst (fst x)))) F). Qed.

Lemma frame_scene w1 w : frame w1 = frame w -> the_scene w1 = the_scene w.
Proof. intros F. exact (f_equal (fun x => snd (fst (fst x))) F). Qed.

Lemma frame_frustum w1 w : frame w1 = frame w -> frustum_ w1 = frustum_ w.
Proof. intros F. exact (f_equal (fun x => snd (fst (fst (fst x)))) F). Qed.

Lemma UpdateLights_below_capacity_run p w :
  (length (positional (lights_ (render_lists_ w))) < 9)%nat ->
  UpdateLights p w = Done tt w (trace_of (UpdateLights p w)).
Proof.
  intros L. destruct (UpdateLights_returns_below_capacity p w L) as (t & ->). reflexivity.
Qed.

(** A mesh that passes every test is drawn: the calls, in order. *)
Lemma RenderMesh_valid_program mesh w h w1 t1 :
  well_formed mesh ->
  IntersectsWithSphere (frustum_ w) (world_sphere mesh) = true ->
  GetProgram (attrs_of mesh w) w = Done (Some h) w1 t1 ->
  IsValid (target h) = true ->
  attrs_fit (attrs_of mesh w) (material mesh) = true ->
  (length (positional (lights_ (render_lists_ w))) < 9)%nat ->
  RenderMesh mesh w =
  Done tt (set_rendered_objects_counter_ (rendered_objects_counter_ w + 1) w1)
    (t1 ++ [State_ProcessMaterial (material mesh)] ++ light_upload h (attrs_of mesh w) w1 ++
     [Buffers_Bind (geometry mesh)] ++ trace_of (SetUniforms h (attrs_of mesh w) mesh w1) ++
     [State_UseProgram (Id (target h)); Program_UpdateUniforms (slot h); DrawCall mesh]).
Proof.
  intros WF V G I F L. unfold attrs_of in *.
  destruct (GetProgram_keeps_frame _ _ _ _ _ G) as [Fr C].
  pose proof (frame_lists _ _ Fr) as RL.
  rewrite (RenderMesh_resolves_program mesh w WF V), (bind_Done _ _ _ _ _ _ G), I.
  cbv [negb]. step. unfold light_upload.
  assert (U : UpdateLights h w1 = Done tt w1 (trace_of (UpdateLights h w1))).
  { apply UpdateLights_below_capacity_run. rewrite RL. exact L. }
  assert (S : forall k : unit -> M unit,
             (SetUniforms h (ProgramAttributes_new (material mesh) (render_lists_ w)
                               (the_scene w)) mesh ≫= k) w1 =
             prepend (trace_of (SetUniforms h (ProgramAttributes_new (material mesh)
                                  (render_lists_ w) (the_scene w)) mesh w1)) (k tt w1)).
  { intros k. apply bind_Done. apply SetUniforms_fit_returns. exact F. }
  destruct (lights _ && _).
  - rewrite (bind_Done _ _ _ _ _ _ U). step. rewrite S. step.
    unfold DrawCall. destruct (bool_decide (IndexData (geometry mesh) = []));
      step; simpl; rewrite C; repeat f_equal.
  - step. rewrite S. step.
    unfold DrawCall. destruct (bool_decide (IndexData (geometry mesh) = []));
      step; simpl; rewrite C; repeat f_equal.
Qed.

(** X8. A well formed mesh in the frustum, with a valid program, attributes
    that fit its material and fewer than nine lights that take a slot:
    [RenderMesh] returns, the counter is one more, and the calls are, in
    this order, those of [GetProgram], [ProcessMaterial], the light upload
    when the attributes ask for lights and the list is not empty, the
    buffer binding, the uniforms, [UseProgram], [UpdateUniforms] and the
    draw call. *)
Theorem RenderMesh_draws_in_order (mesh : Mesh) (w : World) (h : Handle) (w1 : World)
    (t1 : list Event) :
  well_formed mesh ->
  IntersectsWithSphere (frustum_ w) (world_sphere mesh) = true ->
  GetProgram (attrs_of mesh w) w = Done (Some h) w1 t1 ->
  IsValid (target h) = true ->
  attrs_fit (attrs_of mesh w) (material mesh) = true ->
  (length (positional (lights_ (render_lists_ w))) < 9)%nat ->
  RenderMesh mesh w =
  Done tt (set_rendered_objects_counter_ (rendered_objects_counter_ w + 1) w1)
    (t1 ++ [State_ProcessMaterial (material mesh)] ++ light_upload h (attrs_of mesh w) w1 ++
     [Buffers_Bind (geometry mesh)] ++ trace_of (SetUniforms h (attrs_of mesh w) mesh w1) ++
     [State_UseProgram (Id (target h)); Program_UpdateUniforms (slot h); DrawCall mesh]).
Proof. apply RenderMesh_valid_program. Qed.

(** X9. A well formed mesh that is outside the frustum, or whose program is
    in the cache and invalid, is skipped without a single call and with the
    world as it was: no warning, no request to the shader library. *)
Theorem RenderMesh_skips_silently (mesh : Mesh) (w : World) :
  well_formed mesh ->
  IntersectsWithSphere (frustum_ w) (world_sphere mesh) = false \/
  (exists p, programs_ w !! key (attrs_of mesh w) = Some p /\ IsValid p = false) ->
  RenderMesh mesh w = Done tt w [].
Proof.
  intros WF [V|(p & C & I)]; [apply (RenderMesh_invisible mesh w WF V)|].
  destruct (IntersectsWithSphere (frustum_ w) (world_sphere mesh)) eqn:V;
    [|apply (RenderMesh_invisible mesh w WF V)].
  apply (RenderMesh_invalid_program mesh w (mkHandle (key (attrs_of mesh w)) p) w []
           WF V (GetProgram_hit _ _ _ C) I).
Qed.

(** X10. A program that fails to build is cached all the same: the mesh that
    asked for it is skipped after the source request, the log entry and the
    compilation, and drawing it again makes no call at all, so the build is
    not tried a second time. *)
Theorem RenderMesh_failed_build_is_not_retried (mesh : Mesh) (w : World) :
  well_formed mesh ->
  IntersectsWithSphere (frustum_ w) (world_sphere mesh) = true ->
  programs_ w !! key (attrs_of mesh w) = None ->
  GetShaderSource (attrs_of mesh w) <> [] ->
  IsValid (GLProgram_ctor (GetShaderSource (attrs_of mesh w))) = false ->
  exists w1,
    RenderMesh mesh w =
      Done tt w1
        [ShaderLib_GetShaderSource (attrs_of mesh w);
         Logger_Log LogLevel_Info "Creating a new shader program {}"
           (LogKey (key (attrs_of mesh w)));
         GLProgram_new (key (attrs_of mesh w)) (GetShaderSource (attrs_of mesh w))] /\
    RenderMesh mesh w1 = Done tt w1 [].
Proof.
  intros WF V C S I.
  pose proof (GetProgram_miss_create _ w C S) as G.
  destruct (RenderMesh_invalid_program mesh w _ _ _ WF V G I) as [R _].
  eexists. split; [exact R|].
  match goal with |- RenderMesh mesh ?w1 = _ =>
    refine (proj1 (RenderMesh_invalid_program mesh w1
              (mkHandle (key (attrs_of mesh w))
                        (GLProgram_ctor (GetShaderSource (attrs_of mesh w))))
              w1 [] WF V _ I))
  end.
  apply (GetProgram_hit (attrs_of mesh w)). simpl. apply lookup_insert_eq.
Qed.

(** X11. [GetProgram] touches no entry of the cache but the one of its key;
    a handle it returns has that key and points at the program the cache
    holds for it; it returns null exactly when the key is missing and the
    library has no source; an entry found is left as it is. *)
Theorem GetProgram_handle_points_into_cache (attrs : ProgramAttributes) (w : World) :
  let o := GetProgram attrs w in
  (forall k, k <> key attrs -> programs_ (world_of o) !! k = programs_ w !! k) /\
  (forall h, returned o = Some (Some h) ->
     slot h = key attrs /\ programs_ (world_of o) !! slot h = Some (target h)) /\
  (returned o = Some None <->
   programs_ w !! key attrs = None /\ GetShaderSource attrs = []) /\
  (forall p, programs_ w !! key attrs = Some p -> programs_ (world_of o) !! key attrs = Some p).
Proof.
  destruct (programs_ w !! key attrs) as [p|] eqn:E.
  - rewrite (GetProgram_hit _ _ _ E). simpl.
    split; [reflexivity|]. split; [intros h [= <-]; auto|].
    split; [split; [discriminate|intros [? _]; discriminate]|].
    intros p' [= <-]. exact E.
  - destruct (decide (GetShaderSource attrs = [])) as [S|S].
    + rewrite (GetProgram_miss_no_source _ _ E S). simpl.
      split; [reflexivity|]. split; [discriminate|]. split; [tauto|discriminate].
    + rewrite (GetProgram_miss_create _ _ E S). simpl.
      split; [intros k N; apply lookup_insert_ne; congruence|].
      split; [intros h [= <-]; simpl; split; [reflexivity|apply lookup_insert_eq]|].
      split; [split; [discriminate|intros [_ ?]; contradiction]|discriminate].
Qed.


End MeshRuns.

Lemma RenderMesh_draws_in_order_witness :
  last (trace_of (RenderMesh (H:=Demo.engine) Demo.wall Demo.sunlit_world)) =
  Some (GL_DrawArrays GL_TRIANGLES 0 3).
Proof.
  rewrite (RenderMesh_draws_in_order (H:=Demo.engine) Demo.wall Demo.sunlit_world
             (mkHandle "flat|directional"
                (Demo.compile (Demo.library_source
                                 (attrs_of (H:=Demo.engine) Demo.wall Demo.sunlit_world))))
             (world_of (GetProgram (H:=Demo.engine)
                          (attrs_of (H:=Demo.engine) Demo.wall Demo.sunlit_world)
                          Demo.sunlit_world))
             (trace_of (GetProgram (H:=Demo.engine)
                          (attrs_of (H:=Demo.engine) Demo.wall Demo.sunlit_world)
                          Demo.sunlit_world))).
  - vm_compute. reflexivity.
  - split; [reflexivity|split; discriminate].
  - vm_compute. reflexivity.
  - vm_compute. reflexivity.
  - reflexivity.
  - reflexivity.
  - vm_compute. lia.
Defined.

Lemma RenderMesh_skips_silently_witness :
  RenderMesh (H:=Demo.engine) Demo.far_away Demo.sunlit_world = Done tt Demo.sunlit_world [].
Proof.
  apply (RenderMesh_skips_silently (H:=Demo.engine) Demo.far_away Demo.sunlit_world).
  - split; [reflexivity|split; discriminate].
  - left. vm_compute. reflexivity.
Defined.

Lemma RenderMesh_failed_build_is_not_retried_witness :
  exists w1,
    RenderMesh (H:=Sample.failing) Demo.wall Demo.sunlit_world =
      Done tt w1
        [ShaderLib_GetShaderSource (attrs_of (H:=Sample.failing) Demo.wall Demo.sunlit_world);
         Logger_Log LogLevel_Info "Creating a new shader program {}"
           (LogKey (key (attrs_of (H:=Sample.failing) Demo.wall Demo.sunlit_world)));
         GLProgram_new (key (attrs_of (H:=Sample.failing) Demo.wall Demo.sunlit_world))
           (Demo.library_source (attrs_of (H:=Sample.failing) Demo.wall Demo.sunlit_world))] /\
    RenderMesh (H:=Sample.failing) Demo.wall w1 = Done tt w1 [].
Proof.
  apply (RenderMesh_failed_build_is_not_retried (H:=Sample.failing) Demo.wall
           Demo.sunlit_world).
  - split; [reflexivity|split; discriminate].
  - vm_compute. reflexivity.
  - reflexivity.
  - discriminate.
  - reflexivity.
Defined.

(** ** Whole frames *)

Section FrameRuns.

Context `{Collaborators}.

(** [RenderObjects], with the two lists read at the start. *)
Lemma RenderObjects_run w :
  RenderObjects w =
  prepend [Frustum_SetWithViewProjection (view_projection (the_camera w))]
    match for_each (opaque_ (render_lists_ w)) RenderMesh (with_frustum w) with
    | Crash why w2 t2 => Crash why w2 t2
    | Done _ w2 t2 =>
        prepend (t2 ++ mask_off (transparent_ (render_lists_ w)))
          match for_each (transparent_ (render_lists_ w)) RenderMesh w2 with
          | Crash why w3 t3 => Crash why w3 t3
          | Done _ w3 t3 => Done tt (publish w3) (t3 ++ [State_SetDepthMask true])
          end
    end.
Proof.
  unfold RenderObjects. step. fold (view_projection (the_camera w)). fold (with_frustum w).
  change (opaque_ (render_lists_ (with_frustum w))) with (opaque_ (render_lists_ w)).
  rewrite bind_run.
  destruct (for_each_RenderMesh_in_order (opaque_ (render_lists_ w)) (with_frustum w) true)
    as (F1 & _).
  destruct (for_each (opaque_ (render_lists_ w)) RenderMesh (with_frustum w))
    as [[] w2 t2|why w2 t2]; [|reflexivity].
  simpl in F1. f_equal. step.
  rewrite (frame_lists _ _ F1).
  change (render_lists_ (with_frustum w)) with (render_lists_ w).
  rewrite <- prepend_prepend. f_equal. unfold mask_off.
  destruct (bool_decide (transparent_ (render_lists_ w) = [])); cbv [negb]; step.
  - rewrite prepend_nil, bind_run.
    destruct (for_each (transparent_ (render_lists_ w)) RenderMesh w2) as [[] w3 t3|];
      [|reflexivity].
    step. reflexivity.
  - apply (f_equal (prepend _)). rewrite bind_run.
    destruct (for_each (transparent_ (render_lists_ w)) RenderMesh w2) as [[] w3 t3|];
      [|reflexivity].
    step. reflexivity.
Qed.

Lemma Render_run w :
  Render w =
  prepend ([GL_Clear 16640; Scene_UpdateTransformHierarchy; Camera_SetViewTransform] ++
           (if touched_ (UpdateTransformHierarchy (the_scene w))
            then [RenderLists_ProcessScene] else []))
          (RenderObjects (prepared w)).
Proof.
  unfold Render, prepared. step. simpl the_scene.
  destruct (touched_ (UpdateTransformHierarchy (the_scene w)));
    repeat first [rewrite bind_assoc | progress step];
    rewrite ?prepend_prepend; reflexivity.
Qed.

Lemma well_formed_or_not mesh :
  well_formed mesh \/
  (Disposed (geometry mesh) = true \/ VertexData (geometry mesh) = [] \/
   Attributes (geometry mesh) = []).
Proof.
  unfold well_formed. destruct (Disposed (geometry mesh)); [auto|].
  destruct (decide (VertexData (geometry mesh) = [])); [auto|].
  destruct (decide (Attributes (geometry mesh) = [])); auto.
Qed.

Lemma RenderMesh_after_program mesh w h w1 t1 :
  well_formed mesh ->
  IntersectsWithSphere (frustum_ w) (world_sphere mesh) = true ->
  GetProgram (attrs_of mesh w) w = Done (Some h) w1 t1 ->
  exists t',
    trace_of (RenderMesh mesh w) = t1 ++ t' /\
    Forall (fun e => is_build e = false) t' /\
    programs_ (world_of (RenderMesh mesh w)) = programs_ w1.
Proof.
  intros WF V G. unfold attrs_of in G.
  rewrite (RenderMesh_resolves_program mesh w WF V), (bind_Done _ _ _ _ _ _ G).
  rewrite trace_of_prepend, world_of_prepend.
  eexists. split; [reflexivity|]. split.
  - match goal with |- Forall ?P (trace_of (?k w1)) =>
      enough (E : emits_only P k) by apply E end.
    unfold UpdateLights, UpdateLights_loop, UpdateLights_body, light_uniforms_at,
      SetUniforms, SetUniforms_texture. walk.
  - match goal with |- programs_ (world_of (?k w1)) = _ =>
      enough (E : keeps programs_ k) by apply E end.
    unfold UpdateLights, UpdateLights_loop, UpdateLights_body, light_uniforms_at,
      SetUniforms, SetUniforms_texture. walk.
Qed.

Lemma RenderMesh_unsourced mesh w :
  well_formed mesh ->
  IntersectsWithSphere (frustum_ w) (world_sphere mesh) = true ->
  programs_ w !! key (attrs_of mesh w) = None ->
  GetShaderSource (attrs_of mesh w) = [] ->
  RenderMesh mesh w = Crash NullDereference w [ShaderLib_GetShaderSource (attrs_of mesh w)].
Proof.
  intros WF V C S.
  rewrite (RenderMesh_resolves_program mesh w WF V),
    (bind_Done _ _ _ _ _ _ (GetProgram_miss_no_source _ w C S)).
  reflexivity.
Qed.

(** One mesh only adds to the cache. *)
Lemma RenderMesh_grows_cache mesh w :
  programs_ w ⊆ programs_ (world_of (RenderMesh mesh w)).
Proof.
  destruct (well_formed_or_not mesh) as [WF|Bad].
  - destruct (IntersectsWithSphere (frustum_ w) (world_sphere mesh)) eqn:V.
    + destruct (programs_ w !! key (attrs_of mesh w)) as [p|] eqn:E.
      * destruct (RenderMesh_after_program mesh w _ _ _ WF V (GetProgram_hit _ _ _ E))
          as (t' & _ & _ & P).
        rewrite P. reflexivity.
      * destruct (decide (GetShaderSource (attrs_of mesh w) = [])) as [S|S].
        -- rewrite (RenderMesh_unsourced mesh w WF V E S). reflexivity.
        -- destruct (RenderMesh_after_program mesh w _ _ _ WF V
                       (GetProgram_miss_create _ _ E S)) as (t' & _ & _ & P).
           rewrite P. simpl. apply insert_subseteq. exact E.
    + rewrite (RenderMesh_invisible mesh w WF V). reflexivity.
  - destruct (RenderMesh_malformed mesh w Bad) as (warning & -> & _). reflexivity.
Qed.

Lemma RenderMesh_keeps_frame mesh w : frame (world_of (RenderMesh mesh w)) = frame w.
Proof. apply (RenderMesh_draws_at_most_once mesh w true). Qed.


Lemma attrs_of_frame mesh w1 w : frame w1 = frame w -> attrs_of mesh w1 = attrs_of mesh w.
Proof.
  intros F. unfold attrs_of. rewrite (frame_lists _ _ F), (frame_scene _ _ F). reflexivity.
Qed.

Lemma for_each_RenderMesh_keeps_frame ms w :
  frame (world_of (for_each ms RenderMesh w)) = frame w.
Proof. apply (for_each_RenderMesh_in_order ms w true). Qed.

Lemma for_each_RenderMesh_grows_cache ms w :
  programs_ w ⊆ programs_ (world_of (for_each ms RenderMesh w)).
Proof.
  revert w. induction ms as [|m ms IH]; intros w; simpl; [reflexivity|].
  rewrite world_of_bind.
  pose proof (RenderMesh_grows_cache m w) as S.
  destruct (RenderMesh m w) as [[] w1 t1|why w1 t1]; simpl in *; [|exact S].
  etransitivity; [exact S|apply IH].
Qed.




End FrameRuns.

(** ** Code that reads the frame only *)

Section FrameReaders.

Lemma reads_frame_only_ret {A} (a : A) : reads_frame_only (mret a).
Proof. intros w v F. simpl. auto. Qed.

Lemma reads_frame_only_emit e : reads_frame_only (emit e).
Proof. intros w v F. simpl. auto. Qed.

Lemma reads_frame_only_crash {A} why : reads_frame_only (crash (A:=A) why).
Proof. intros w v F. simpl. auto. Qed.

Lemma reads_frame_only_gets {A} (g : World -> A) :
  (forall w v, frame w = frame v -> g w = g v) -> reads_frame_only (gets g).
Proof. intros Hg w v F. simpl. auto. Qed.

Lemma reads_frame_only_modify g :
  (forall w v, frame w = frame v -> frame (g w) = frame (g v)) ->
  reads_frame_only (modify g).
Proof. intros Hg w v F. simpl. auto. Qed.

Lemma reads_frame_only_bind {A B} (m : M A) (k : A -> M B) :
  reads_frame_only m -> (forall a, reads_frame_only (k a)) -> reads_frame_only (m ≫= k).
Proof.
  intros Hm Hk w v F. rewrite !bind_run. specialize (Hm w v F).
  destruct (m w) as [a w1 t1|y w1 t1], (m v) as [b v1 u1|z v1 u1]; simpl in Hm;
    try contradiction; [|exact Hm].
  destruct Hm as (<- & <- & F1). specialize (Hk a w1 v1 F1).
  destruct (k a w1), (k a v1); simpl in *; try contradiction;
    destruct Hk as (-> & -> & ?); auto.
Qed.

Lemma reads_frame_only_for_each {A} (l : list A) body :
  (forall a, reads_frame_only (body a)) -> reads_frame_only (for_each l body).
Proof.
  intros Hb. induction l as [|a l IH]; simpl.
  - apply reads_frame_only_ret.
  - apply reads_frame_only_bind; auto.
Qed.

Lemma reads_frame_only_for_each_with {A S} (l : list A) (s : S) body :
  (forall s a, reads_frame_only (body s a)) -> reads_frame_only (for_each_with l s body).
Proof.
  intros Hb. revert s. induction l as [|a l IH]; intros s; simpl.
  - apply reads_frame_only_ret.
  - apply reads_frame_only_bind; auto.
Qed.

Lemma frame_camera w1 w : frame w1 = frame w -> the_camera w1 = the_camera w.
Proof. intros F. exact (f_equal (fun x => snd (fst x)) F). Qed.

Lemma frame_params w1 w : frame w1 = frame w -> params_ w1 = params_ w.
Proof. intros F. exact (f_equal snd F). Qed.

End FrameReaders.

Ltac frame_reads :=
  let F := fresh "F" in
  intros ? ? F;
  first
    [ exact F
    | rewrite ?(frame_lists _ _ F), ?(frame_scene _ _ F), ?(frame_camera _ _ F),
        ?(frame_params _ _ F), ?(frame_frustum _ _ F); reflexivity ].

Ltac walk_frame :=
  repeat first
    [ apply reads_frame_only_ret | apply reads_frame_only_emit
    | apply reads_frame_only_crash
    | apply reads_frame_only_bind; [|intros ?]
    | apply reads_frame_only_for_each; intros ?
    | apply reads_frame_only_for_each_with; intros ? ?
    | apply reads_frame_only_gets; solve [frame_reads]
    | apply reads_frame_only_modify; solve [frame_reads]
    | match goal with
      | |- reads_frame_only (if ?c then _ else _) => destruct c
      | |- reads_frame_only (match ?x with _ => _ end) => destruct x
      | |- reads_frame_only (let '(_, _) := ?x in _) => destruct x
      end ].

Section Replay.

Context `{Collaborators}.

Lemma alike_prepend {A} t u (o1 o2 : Outcome A) :
  alike o1 o2 ->
  trace_of (prepend t o1) = t ++ trace_of o1 /\
  trace_of (prepend u o2) = u ++ trace_of o1 /\
  crashed (prepend u o2) = crashed (prepend t o1).
Proof.
  destruct o1, o2; simpl; try contradiction; intros (_ & -> & _); auto.
Qed.

(** After the program: the same calls from two worlds with the same frame. *)
Lemma RenderMesh_tail_alike mesh w v h w1 t1 v1 u1 :
  well_formed mesh ->
  IntersectsWithSphere (frustum_ w) (world_sphere mesh) = true ->
  frame v = frame w ->
  GetProgram (attrs_of mesh w) w = Done (Some h) w1 t1 ->
  GetProgram (attrs_of mesh w) v = Done (Some h) v1 u1 ->
  exists t',
    trace_of (RenderMesh mesh w) = t1 ++ t' /\
    trace_of (RenderMesh mesh v) = u1 ++ t' /\
    crashed (RenderMesh mesh v) = crashed (RenderMesh mesh w).
Proof.
  intros WF V F Gw Gv.
  assert (F1 : frame w1 = frame v1).
  { destruct (GetProgram_keeps_frame _ _ _ _ _ Gw) as [-> _].
    destruct (GetProgram_keeps_frame _ _ _ _ _ Gv) as [-> _]. symmetry. exact F. }
  assert (V' : IntersectsWithSphere (frustum_ v) (world_sphere mesh) = true).
  { rewrite (frame_frustum _ _ F). exact V. }
  unfold attrs_of in *.
  rewrite (RenderMesh_resolves_program mesh w WF V),
    (RenderMesh_resolves_program mesh v WF V').
  rewrite (frame_lists _ _ F), (frame_scene _ _ F).
  rewrite (bind_Done _ _ _ _ _ _ Gw), (bind_Done _ _ _ _ _ _ Gv).
  eexists. apply alike_prepend. revert F1.
  match goal with |- _ -> alike (?k w1) (?k v1) =>
    enough (E : reads_frame_only k) by apply E end.
  unfold UpdateLights, UpdateLights_loop, UpdateLights_body, light_uniforms_at,
    SetUniforms, SetUniforms_texture.
  destruct (IsValid (target h)); cbv [negb]; walk_frame.
Qed.

Lemma filter_not_build_all t :
  Forall (fun e => is_build e = false) t -> List.filter not_build t = t.
Proof.
  induction 1 as [|e t He _ IH]; simpl; [reflexivity|].
  unfold not_build at 1. rewrite He. simpl. f_equal. exact IH.
Qed.

Lemma RenderMesh_malformed_anywhere mesh w v :
  Disposed (geometry mesh) = true \/ VertexData (geometry mesh) = [] \/
  Attributes (geometry mesh) = [] ->
  exists warning,
    RenderMesh mesh w = Done tt w [warning] /\ RenderMesh mesh v = Done tt v [warning] /\
    is_build warning = false.
Proof.
  intros Bad.
  assert (E : exists x, (forall u, IsValidMesh mesh u = Done false u [x]) /\
                        is_build x = false).
  { unfold IsValidMesh. destruct (Disposed (geometry mesh)) eqn:D.
    { eexists. split; [intros u; reflexivity|reflexivity]. }
    destruct (decide (VertexData (geometry mesh) = [])) as [V|V].
    { rewrite (bool_decide_eq_true_2 _ V).
      eexists. split; [intros u; reflexivity|reflexivity]. }
    destruct (decide (Attributes (geometry mesh) = [])) as [A|A].
    { rewrite (bool_decide_eq_false_2 _ V), (bool_decide_eq_true_2 _ A).
      eexists. split; [intros u; reflexivity|reflexivity]. }
    destruct Bad as [?|[?|?]]; [discriminate|contradiction|contradiction]. }
  destruct E as (x & E & N). exists x. unfold RenderMesh.
  rewrite (bind_Done _ _ _ _ _ _ (E w)), (bind_Done _ _ _ _ _ _ (E v)).
  split; [reflexivity|]. split; [reflexivity|exact N].
Qed.

(** A mesh drawn again, with the cache it left or a larger one: the same
    calls but those that built its program. *)
Lemma RenderMesh_replay mesh w v :
  frame v = frame w ->
  crashed (RenderMesh mesh w) = false ->
  programs_ (world_of (RenderMesh mesh w)) ⊆ programs_ v ->
  crashed (RenderMesh mesh v) = false /\
  trace_of (RenderMesh mesh v) = List.filter not_build (trace_of (RenderMesh mesh w)) /\
  programs_ (world_of (RenderMesh mesh v)) = programs_ v.
Proof.
  intros F NC S. destruct (well_formed_or_not mesh) as [WF|Bad].
  - destruct (IntersectsWithSphere (frustum_ w) (world_sphere mesh)) eqn:V.
    + assert (V' : IntersectsWithSphere (frustum_ v) (world_sphere mesh) = true).
      { rewrite (frame_frustum _ _ F). exact V. }
      assert (G : exists h w1 t1,
                 GetProgram (attrs_of mesh w) w = Done (Some h) w1 t1 /\
                 List.filter not_build t1 = [] /\
                 programs_ w1 !! key (attrs_of mesh w) = Some (target h) /\
                 h = mkHandle (key (attrs_of mesh w)) (target h)).
      { destruct (programs_ w !! key (attrs_of mesh w)) as [p|] eqn:E.
        - rewrite (GetProgram_hit _ _ _ E). eexists _, _, _.
          split; [reflexivity|]. split; [reflexivity|]. split; [exact E|reflexivity].
        - destruct (decide (GetShaderSource (attrs_of mesh w) = [])) as [Src|Src].
          + rewrite (RenderMesh_unsourced mesh w WF V E Src) in NC. discriminate.
          + rewrite (GetProgram_miss_create _ _ E Src). eexists _, _, _.
            split; [reflexivity|]. split; [reflexivity|]. simpl.
            split; [apply lookup_insert_eq|reflexivity]. }
      destruct G as (h & w1 & t1 & Gw & B & C & Eh).
      destruct (RenderMesh_after_program mesh w h w1 t1 WF V Gw) as (t' & T & N & P).
      assert (C' : programs_ v !! key (attrs_of mesh w) = Some (target h)).
      { eapply lookup_weaken; [|exact S]. rewrite P. exact C. }
      pose proof (GetProgram_hit _ _ _ C') as Gv. rewrite <- Eh in Gv.
      destruct (RenderMesh_tail_alike mesh w v h w1 t1 v [] WF V F Gw Gv)
        as (t'' & T1 & T2 & K).
      rewrite T in T1. apply app_inv_head in T1. subst t''.
      rewrite <- (attrs_of_frame mesh v w F) in Gv.
      destruct (RenderMesh_after_program mesh v h v [] WF V' Gv) as (u' & _ & _ & P').
      split; [congruence|]. split; [|exact P'].
      rewrite T2, T, List.filter_app, B, (filter_not_build_all _ N). reflexivity.
    + assert (V' : IntersectsWithSphere (frustum_ v) (world_sphere mesh) = false).
      { rewrite (frame_frustum _ _ F). exact V. }
      rewrite (RenderMesh_invisible mesh w WF V), (RenderMesh_invisible mesh v WF V').
      auto.
  - destruct (RenderMesh_malformed_anywhere mesh w v Bad) as (x & -> & -> & N).
    simpl. unfold not_build. rewrite N. auto.
Qed.

Lemma for_each_RenderMesh_replay ms w v :
  frame v = frame w ->
  crashed (for_each ms RenderMesh w) = false ->
  programs_ (world_of (for_each ms RenderMesh w)) ⊆ programs_ v ->
  crashed (for_each ms RenderMesh v) = false /\
  trace_of (for_each ms RenderMesh v) =
    List.filter not_build (trace_of (for_each ms RenderMesh w)) /\
  programs_ (world_of (for_each ms RenderMesh v)) = programs_ v.
Proof.
  revert w v. induction ms as [|m ms IH]; intros w v F; simpl; [auto|].
  rewrite !bind_run.
  pose proof (RenderMesh_replay m w v F) as R.
  pose proof (RenderMesh_keeps_frame m w) as Fw.
  pose proof (RenderMesh_keeps_frame m v) as Fv.
  destruct (RenderMesh m w) as [[] w1 t1|]; [|discriminate].
  rewrite crashed_prepend, world_of_prepend, trace_of_prepend. intros NC S.
  pose proof (for_each_RenderMesh_grows_cache ms w1) as S1.
  simpl in R, Fw. destruct R as (NCv & Tv & Pv); [reflexivity|etransitivity; eassumption|].
  destruct (RenderMesh m v) as [[] v1 u1|]; [|discriminate]. simpl in Tv, Pv, Fv.
  destruct (IH w1 v1) as (NC' & T' & P'); [congruence|exact NC|rewrite Pv; exact S|].
  rewrite crashed_prepend, world_of_prepend, trace_of_prepend, List.filter_app.
  split; [exact NC'|]. split; [congruence|congruence].
Qed.

Lemma RenderObjects_replay w :
  crashed (RenderObjects w) = false ->
  let w' := world_of (RenderObjects w) in
  crashed (RenderObjects w') = false /\
  trace_of (RenderObjects w') = List.filter not_build (trace_of (RenderObjects w)) /\
  programs_ (world_of (RenderObjects w')) = programs_ w'.
Proof.
  intros NC w'. subst w'. revert NC. rewrite (RenderObjects_run w).
  pose proof (for_each_RenderMesh_replay (opaque_ (render_lists_ w)) (with_frustum w)) as R2.
  pose proof (for_each_RenderMesh_keeps_frame (opaque_ (render_lists_ w)) (with_frustum w))
    as F2.
  destruct (for_each (opaque_ (render_lists_ w)) RenderMesh (with_frustum w))
    as [[] w2 t2|]; [|discriminate].
  simpl in R2, F2. rewrite prepend_prepend.
  pose proof (for_each_RenderMesh_replay (transparent_ (render_lists_ w)) w2) as R3.
  pose proof (for_each_RenderMesh_grows_cache (transparent_ (render_lists_ w)) w2) as S3.
  pose proof (for_each_RenderMesh_keeps_frame (transparent_ (render_lists_ w)) w2) as F3.
  destruct (for_each (transparent_ (render_lists_ w)) RenderMesh w2)
    as [[] w3 t3|]; [|discriminate].
  simpl in R3, S3, F3. intros _. simpl world_of. simpl trace_of.
  assert (F : frame (with_frustum (publish w3)) = frame w3).
  { pose proof (eq_trans F3 F2) as F32. revert F32.
    unfold frame, with_frustum, publish. simpl. congruence. }
  assert (RL : render_lists_ (publish w3) = render_lists_ w).
  { change (render_lists_ (publish w3)) with (render_lists_ w3).
    rewrite (frame_lists _ _ F3), (frame_lists _ _ F2). reflexivity. }
  assert (CM : the_camera (publish w3) = the_camera w).
  { change (the_camera (publish w3)) with (the_camera w3).
    rewrite (frame_camera _ _ F3), (frame_camera _ _ F2). reflexivity. }
  rewrite (RenderObjects_run (publish w3)), RL, CM.
  destruct (R2 (with_frustum (publish w3))) as (NC2 & T2 & P2);
    [congruence|reflexivity|exact S3|].
  pose proof (for_each_RenderMesh_keeps_frame (opaque_ (render_lists_ w))
                (with_frustum (publish w3))) as G2.
  destruct (for_each (opaque_ (render_lists_ w)) RenderMesh (with_frustum (publish w3)))
    as [[] v2 u2|]; [|discriminate].
  simpl in T2, P2, G2.
  destruct (R3 v2) as (NC3 & T3 & P3);
    [congruence|reflexivity|rewrite P2; reflexivity|].
  destruct (for_each (transparent_ (render_lists_ w)) RenderMesh v2)
    as [[] v3 u3|]; [|discriminate].
  simpl in T3, P3. simpl.
  split; [reflexivity|]. split; [|congruence].
  rewrite !List.filter_app, <- T2, <- T3. unfold mask_off.
  destruct (bool_decide (transparent_ (render_lists_ w) = [])); reflexivity.
Qed.

Lemma RenderMesh_no_prologue mesh :
  emits_only (fun e => is_prologue e = false) (RenderMesh mesh).
Proof.
  unfold RenderMesh, IsValidMesh, IsVisible, GetProgram, programs_get,
    UpdateLights, UpdateLights_loop, UpdateLights_body, light_uniforms_at,
    SetUniforms, SetUniforms_texture.
  walk.
Qed.

Lemma RenderObjects_loops_no_prologue w :
  exists t,
    trace_of (RenderObjects w) =
      Frustum_SetWithViewProjection (view_projection (the_camera w)) :: t /\
    Forall (fun e => is_prologue e = false) t /\
    frame (world_of (RenderObjects w)) = frame (with_frustum w).
Proof.
  rewrite (RenderObjects_run w).
  pose proof (emits_only_for_each _ (opaque_ (render_lists_ w)) RenderMesh
                RenderMesh_no_prologue (with_frustum w)) as N2.
  pose proof (for_each_RenderMesh_keeps_frame (opaque_ (render_lists_ w)) (with_frustum w))
    as F2.
  destruct (for_each (opaque_ (render_lists_ w)) RenderMesh (with_frustum w))
    as [[] w2 t2|why w2 t2]; simpl in N2, F2.
  - pose proof (emits_only_for_each _ (transparent_ (render_lists_ w)) RenderMesh
                  RenderMesh_no_prologue w2) as N3.
    pose proof (for_each_RenderMesh_keeps_frame (transparent_ (render_lists_ w)) w2) as F3.
    assert (M : Forall (fun e => is_prologue e = false)
                  (mask_off (transparent_ (render_lists_ w)))).
    { unfold mask_off. destruct (bool_decide _); repeat constructor. }
    destruct (for_each (transparent_ (render_lists_ w)) RenderMesh w2)
      as [[] w3 t3|why w3 t3]; simpl in N3, F3; simpl; eexists;
      (split; [reflexivity|]);
      (split; [|first [congruence | change (frame w3 = frame (with_frustum w)); congruence]]);
      repeat (apply Forall_app; split); try assumption; repeat constructor.
  - simpl. eexists. split; [reflexivity|]. split; [exact N2|exact F2].
Qed.

Lemma RenderObjects_grows_cache w : programs_ w ⊆ programs_ (world_of (RenderObjects w)).
Proof.
  rewrite (RenderObjects_run w), world_of_prepend.
  pose proof (for_each_RenderMesh_grows_cache (opaque_ (render_lists_ w)) (with_frustum w))
    as S2.
  destruct (for_each (opaque_ (render_lists_ w)) RenderMesh (with_frustum w))
    as [[] w2 t2|why w2 t2]; simpl in S2; [|exact S2].
  rewrite world_of_prepend.
  pose proof (for_each_RenderMesh_grows_cache (transparent_ (render_lists_ w)) w2) as S3.
  destruct (for_each (transparent_ (render_lists_ w)) RenderMesh w2)
    as [[] w3 t3|why w3 t3]; simpl in S3; simpl; etransitivity; eassumption.
Qed.

Lemma programs_prepared w : programs_ (prepared w) = programs_ w.
Proof. unfold prepared. simpl. destruct (touched_ _); reflexivity. Qed.

Lemma camera_prepared w : the_camera (prepared w) = SetViewTransform (the_camera w).
Proof. unfold prepared. simpl. destruct (touched_ _); reflexivity. Qed.

Lemma params_prepared w : params_ (prepared w) = params_ w.
Proof. unfold prepared. simpl. destruct (touched_ _); reflexivity. Qed.

(** X12. [Render]: the frame is cleared, the scene and the camera are brought up
    to date, the lists are rebuilt when the scene was touched, and the
    frustum is computed from the camera as [SetViewTransform] left it; none
    of these calls is made again in the frame. The frustum, the camera and
    the parameters of the renderer are the same at the end of the frame,
    whether it completes or not. *)
Theorem Render_prepares_before_drawing (w : World) :
  let camera := SetViewTransform (the_camera w) in
  let scene := UpdateTransformHierarchy (the_scene w) in
  let o := Render w in
  exists t,
    trace_of o =
      [GL_Clear 16640; Scene_UpdateTransformHierarchy; Camera_SetViewTransform] ++
      (if touched_ scene then [RenderLists_ProcessScene] else []) ++
      Frustum_SetWithViewProjection (view_projection camera) :: t /\
    Forall (fun e => is_prologue e = false) t /\
    frustum_ (world_of o) = SetWithViewProjection (view_projection camera) /\
    the_camera (world_of o) = camera /\
    params_ (world_of o) = params_ w.
Proof.
  intros camera scene o. subst o. rewrite (Render_run w).
  rewrite trace_of_prepend, world_of_prepend.
  destruct (RenderObjects_loops_no_prologue (prepared w)) as (t & T & N & F).
  exists t. rewrite T, camera_prepared, <- app_assoc.
  split; [reflexivity|]. split; [exact N|].
  rewrite (frame_frustum _ _ F), (frame_camera _ _ F), (frame_params _ _ F).
  simpl. rewrite camera_prepared, params_prepared. auto.
Qed.

(** X13. [Render] never removes or replaces a cached program, whatever the
    outcome of the frame. *)
Theorem Render_keeps_cached_programs (w : World) (k : string) (p : GLProgram) :
  programs_ w !! k = Some p -> programs_ (world_of (Render w)) !! k = Some p.
Proof.
  intros E. rewrite (Render_run w), world_of_prepend.
  eapply lookup_weaken; [|apply RenderObjects_grows_cache].
  rewrite programs_prepared. exact E.
Qed.


(** X15. The lists drawn a second time, from the world a completed frame left:
    the frame completes, makes the calls of the first but those that built
    programs, and leaves the cache as it found it. *)
Theorem RenderObjects_second_frame_replays_first (w : World) :
  crashed (RenderObjects w) = false ->
  let w' := world_of (RenderObjects w) in
  crashed (RenderObjects w') = false /\
  trace_of (RenderObjects w') = List.filter not_build (trace_of (RenderObjects w)) /\
  programs_ (world_of (RenderObjects w')) = programs_ w'.
Proof. apply RenderObjects_replay. Qed.

End Replay.

Lemma Render_keeps_cached_programs_witness :
  programs_ (world_of (Render (H:=Demo.engine) Sample.warm_world)) !! "kept" =
  Some Sample.kept.
Proof.
  apply (Render_keeps_cached_programs (H:=Demo.engine) Sample.warm_world "kept" Sample.kept).
  vm_compute. reflexivity.
Defined.


Lemma RenderObjects_second_frame_replays_first_witness :
  crashed (RenderObjects (H:=Demo.engine)
             (world_of (RenderObjects (H:=Demo.engine) Demo.sunlit_world))) = false /\
  trace_of (RenderObjects (H:=Demo.engine)
              (world_of (RenderObjects (H:=Demo.engine) Demo.sunlit_world))) =
    List.filter not_build (trace_of (RenderObjects (H:=Demo.engine) Demo.sunlit_world)) /\
  programs_ (world_of (RenderObjects (H:=Demo.engine)
                         (world_of (RenderObjects (H:=Demo.engine) Demo.sunlit_world)))) =
    programs_ (world_of (RenderObjects (H:=Demo.engine) Demo.sunlit_world)).
Proof.
  apply (RenderObjects_second_frame_replays_first (H:=Demo.engine) Demo.sunlit_world).
  vm_compute. reflexivity.
Defined.

(** ** The draw sequence of a frame *)


Section DrawSequence.

Context `{Collaborators}.












End DrawSequence.


(** A frame with a mesh outside the frustum and a disposed one: the other
    two are drawn, the opaque one first. *)
Example frame_draws_what_is_shown :
  let w := Demo.world_with (mkRenderLists [Demo.far_away; Demo.wall; Demo.ghost]
                              [Demo.window] [Demo.ambient; Demo.sun]) Demo.empty_scene in
  let o := RenderObjects (H:=Demo.engine) w in
  crashed o = false /\
  List.filter (shown (H:=Demo.engine) (world_of o))
    [Demo.far_away; Demo.wall; Demo.ghost; Demo.window] = [Demo.wall; Demo.window] /\
  draws_with_depth_mask true (trace_of o) =
    [(GL_DrawArrays GL_TRIANGLES 0 3, true);
     (GL_DrawElements GL_LINES 4 GL_UNSIGNED_INT, false)].
Proof. vm_compute. auto. Qed.

(** ** The outline of a bounding sphere *)

Section Outline.

Context `{Collaborators} `{Resources}.

Lemma CreateGeometry_inner_fold sphere axis offset l b :
  fold_left (CreateGeometry_inner sphere axis offset) l b =
  mkBuffers
    (vertices b ++ (i ← l; coordinates (CreateGeometry_point sphere axis i)))
    (indices b ++
     (i ← l; if 0 <? i then [u32 (u32 (offset + i) - 1); u32 (offset + i)] else [])).
Proof.
  revert b. induction l as [|i l IH]; intros b; simpl.
  - rewrite !app_nil_r. destruct b; reflexivity.
  - rewrite IH. unfold CreateGeometry_inner at 2. simpl.
    rewrite <- !app_assoc. f_equal.
    destruct (0 <? i); simpl; rewrite <- ?app_assoc; reflexivity.
Qed.

Lemma length_coordinates_bind (ps : list Vector3) :
  length (p ← ps; coordinates p) = (3 * length ps)%nat.
Proof.
  induction ps as [|p ps IH]; [reflexivity|].
  rewrite bind_cons, length_app, IH. simpl. lia.
Qed.

Lemma bind_circle sphere axis :
  (i ← seqZ 0 65; coordinates (CreateGeometry_point sphere axis i)) =
  (p ← circle sphere axis; coordinates p).
Proof.
  unfold circle. induction (seqZ 0 65) as [|i l IH]; [reflexivity|].
  rewrite fmap_cons, !bind_cons, IH. reflexivity.
Qed.

Lemma length_circle sphere axis : length (circle sphere axis) = 65%nat.
Proof. unfold circle. rewrite length_fmap, length_seqZ. reflexivity. Qed.

Lemma CreateGeometry_outer_run sphere b axis k :
  length (vertices b) = (3 * k)%nat -> (Z.of_nat k <= 130) ->
  CreateGeometry_outer sphere b axis =
  mkBuffers (vertices b ++ (p ← circle sphere axis; coordinates p))
            (indices b ++
             (i ← seqZ 0 65;
              if 0 <? i then [u32 (u32 (Z.of_nat k + i) - 1); u32 (Z.of_nat k + i)] else [])).
Proof.
  intros L K. unfold CreateGeometry_outer. rewrite CreateGeometry_inner_fold, bind_circle, L.
  replace (u32 (Z.of_nat (3 * k) / 3)) with (Z.of_nat k); [reflexivity|].
  rewrite Nat2Z.inj_mul, Z.mul_comm, Z.div_mul by lia.
  unfold u32. rewrite Z.mod_small; lia.
Qed.

(** The buffers in closed form: the coordinates of the three circles, 65
    points each, and for each circle the 64 segments that join a point to
    the next, the circles starting at the vertices 0, 65 and 130. *)
Lemma CreateGeometry_buffers_run sphere :
  CreateGeometry_buffers sphere =
  mkBuffers
    (p ← circle sphere Axis_XY ++ circle sphere Axis_XZ ++ circle sphere Axis_YZ;
     coordinates p)
    (polyline 0 ++ polyline 65 ++ polyline 130).
Proof.
  unfold CreateGeometry_buffers.
  change (seqZ 0 3) with [0; 1; 2]. simpl fold_left.
  rewrite (CreateGeometry_outer_run sphere _ 0 0%nat) by (simpl; first [reflexivity|lia]).
  rewrite (CreateGeometry_outer_run sphere _ 1 65%nat);
    [|cbn [vertices]; rewrite ?length_app, !length_coordinates_bind, !length_circle;
      reflexivity|lia].
  rewrite (CreateGeometry_outer_run sphere _ 2 130%nat);
    [|cbn [vertices]; rewrite ?length_app, !length_coordinates_bind, !length_circle;
      reflexivity|lia].
  cbn [vertices indices]. rewrite !bind_app, <- !app_assoc. reflexivity.
Qed.

(** X16. The two loops of [CreateGeometry] in closed form: the vertex buffer
    holds the coordinates of three circles of 65 points, about the axes XY,
    XZ and YZ in this order; the index buffer holds, for each circle, the 64
    segments that join a point to the next, the circles starting at the
    vertices 0, 65 and 130; the unsigned arithmetic never wraps. These are
    the buffers the geometry is created from, as lines with one position
    attribute of three floats. *)
Theorem CreateGeometry_three_circles (sphere : Sphere) :
  let points := circle sphere Axis_XY ++ circle sphere Axis_XZ ++ circle sphere Axis_YZ in
  let lines := polyline 0 ++ polyline 65 ++ polyline 130 in
  CreateGeometry_buffers sphere = mkBuffers (p ← points; coordinates p) lines /\
  CreateGeometry sphere =
    SetAttribute (set_primitive Lines (Geometry_Create (p ← points; coordinates p) lines))
                 (mkGeometryAttribute Position 3).
Proof.
  intros points lines. unfold CreateGeometry. rewrite CreateGeometry_buffers_run.
  split; reflexivity.
Qed.

(** X17. The buffers hold 195 vertices and 192 segments; every segment joins
    a vertex to the next one of the same circle, and both its indices are
    vertices of the buffer. *)
Theorem CreateGeometry_segments_join_neighbours (sphere : Sphere) :
  let b := CreateGeometry_buffers sphere in
  length (vertices b) = (3 * 195)%nat /\
  length (indices b) = (2 * 192)%nat /\
  forall j, (j < 192)%nat -> joins_neighbours (indices b) 195 j = true.
Proof.
  intros b. subst b. rewrite CreateGeometry_buffers_run. cbn [vertices indices].
  split; [|split].
  - rewrite length_coordinates_bind, !length_app, !length_circle. reflexivity.
  - reflexivity.
  - intros j Hj.
    assert (A : forallb (joins_neighbours (polyline 0 ++ polyline 65 ++ polyline 130) 195)
                  (seq 0 192) = true) by (vm_compute; reflexivity).
    rewrite forallb_forall in A. apply A. apply in_seq. lia.
Qed.

Lemma lookup_coordinates (ps : list Vector3) (k : nat) (p : Vector3) :
  ps !! k = Some p ->
  (q ← ps; coordinates q) !! (3 * k)%nat = Some (Vector3.x p) /\
  (q ← ps; coordinates q) !! (3 * k + 1)%nat = Some (Vector3.y p) /\
  (q ← ps; coordinates q) !! (3 * k + 2)%nat = Some (Vector3.z p).
Proof.
  revert k. induction ps as [|q ps IH]; intros k E; [discriminate|].
  rewrite bind_cons. destruct k as [|k].
  - injection E as ->. auto.
  - destruct (IH k E) as (X & Y & Z).
    replace (3 * S k)%nat with (3 + 3 * k)%nat by lia.
    replace (3 + 3 * k + 1)%nat with (3 + (3 * k + 1))%nat by lia.
    replace (3 + 3 * k + 2)%nat with (3 + (3 * k + 2))%nat by lia.
    auto.
Qed.

Lemma lookup_circle sphere axis (k : nat) :
  (k < 65)%nat ->
  circle sphere axis !! k = Some (CreateGeometry_point sphere axis (Z.of_nat k)).
Proof.
  intros K. unfold circle. rewrite list_lookup_fmap, lookup_seqZ_lt by lia. reflexivity.
Qed.

(** X18. Each circle lies in a plane through the center: the third coordinate of
    the points of the first circle is the [z] of the center, bit for bit,
    and likewise the [y] of the second and the [x] of the third. *)
Theorem CreateGeometry_circles_are_planar (sphere : Sphere) (k : nat) :
  (k < 65)%nat ->
  let v := vertices (CreateGeometry_buffers sphere) in
  v !! (3 * k + 2)%nat = Some (Vector3.z (center sphere)) /\
  v !! (3 * (65 + k) + 1)%nat = Some (Vector3.y (center sphere)) /\
  v !! (3 * (130 + k))%nat = Some (Vector3.x (center sphere)).
Proof.
  intros K v. subst v. rewrite CreateGeometry_buffers_run. cbn [vertices].
  pose proof (length_circle sphere Axis_XY) as L0.
  pose proof (length_circle sphere Axis_XZ) as L1.
  split; [|split].
  - assert (E : (circle sphere Axis_XY ++ circle sphere Axis_XZ ++ circle sphere Axis_YZ)
                  !! k = Some (CreateGeometry_point sphere Axis_XY (Z.of_nat k))).
    { rewrite lookup_app_l by lia. apply lookup_circle, K. }
    exact (proj2 (proj2 (lookup_coordinates _ _ _ E))).
  - assert (E : (circle sphere Axis_XY ++ circle sphere Axis_XZ ++ circle sphere Axis_YZ)
                  !! (65 + k)%nat = Some (CreateGeometry_point sphere Axis_XZ (Z.of_nat k))).
    { rewrite lookup_app_r by lia. rewrite L0.
      replace (65 + k - 65)%nat with k by lia.
      rewrite lookup_app_l by lia. apply lookup_circle, K. }
    exact (proj1 (proj2 (lookup_coordinates _ _ _ E))).
  - assert (E : (circle sphere Axis_XY ++ circle sphere Axis_XZ ++ circle sphere Axis_YZ)
                  !! (130 + k)%nat = Some (CreateGeometry_point sphere Axis_YZ (Z.of_nat k))).
    { rewrite lookup_app_r by lia. rewrite L0.
      rewrite lookup_app_r by lia. rewrite L1.
      replace (130 + k - 65 - 65)%nat with k by lia. apply lookup_circle, K. }
    exact (proj1 (lookup_coordinates _ _ _ E)).
Qed.

End Outline.

Lemma CreateGeometry_circles_are_planar_witness :
  vertices (@CreateGeometry_buffers Demo.engine Sample.resources Sample.ball) !! 23%nat =
  Some Demo.half.
Proof.
  apply (proj1 (@CreateGeometry_circles_are_planar Demo.engine Sample.resources Sample.ball
                  7%nat ltac:(lia))).
Defined.

(** ** Vector3 in binary32 *)

Section FloatFacts.

Lemma F32_mul_comm a b : F32.mul a b = F32.mul b a.
Proof.
  unfold F32.mul, SFmul.
  destruct a as [sa|sa| |sa ma ea], b as [sb|sb| |sb mb eb];
    rewrite ?(xorb_comm sa sb); try reflexivity.
  rewrite (Pos.mul_comm ma mb), (Z.add_comm ea eb). reflexivity.
Qed.

Lemma F32_add_comm a b : F32.add a b = F32.add b a.
Proof.
  unfold F32.add, SFadd.
  destruct a as [sa|sa| |sa ma ea], b as [sb|sb| |sb mb eb]; try reflexivity;
    try (destruct sa, sb; reflexivity).
  cbv zeta. rewrite (Z.min_comm ea eb), Z.add_comm. reflexivity.
Qed.





End FloatFacts.

Section Vector3Theorems.

(** X19. Sum, component-wise product and dot product do not depend on the
    order of the operands: both orders give the same binary32 value, that
    is the same number with the same sign of zero, the same infinity, or a
    NaN both ways. The payload of a NaN is not part of a [spec_float]. *)
Theorem Vector3_operators_commute (a b : Vector3) :
  Vector3.add a b = Vector3.add b a /\
  Vector3.mul a b = Vector3.mul b a /\
  Vector3.add_assign a b = Vector3.add b a /\
  Vector3.mul_assign_v a b = Vector3.mul b a /\
  Dot a b = Dot b a.
Proof.
  unfold Vector3.add, Vector3.mul, Vector3.add_assign, Vector3.mul_assign_v, Dot.
  rewrite (F32_add_comm (Vector3.x a)), (F32_add_comm (Vector3.y a)),
    (F32_add_comm (Vector3.z a)), (F32_mul_comm (Vector3.x a)),
    (F32_mul_comm (Vector3.y a)), (F32_mul_comm (Vector3.z a)).
  auto.
Qed.



End Vector3Theorems.

